(** * dgp_parsers: the dashboard client and the report scripts

    A shallow embedding of the four scripts of the repository
    ([cameras.py], [plan_fact_parser.py], [control_points_parser.py],
    [check_photos.py]) and the properties of their session client, retry
    loop, reconciliation and photo check.

    Conventions of the embedding:
    - a Python [str] is a [string] holding its UTF-8 bytes;
    - a decoded JSON document is a [json] value, Python's [None] is [JNull];
    - a Python exception is a value of [exn], a fallible computation
      returns a [result];
    - the client object ([self]), the cookie jar, the requests given to the
      session and the calls to [time.sleep] live in a [world] threaded by
      the monad [M];
    - the upstream services are a [server]: from the number of requests
      given to the session before and the request, the response received
      and, when the session raises instead of answering, its exception;
    - what belongs to the Python runtime and is not reproduced here
      ([str.lower], [hashlib.md5], the clock) is a variable of a section. *)

From Stdlib Require Import ZArith Ascii String List Lia DecimalString.
From stdpp Require Import base option list strings gmap sorting.

Local Open Scope string_scope.
Local Open Scope Z_scope.

(** ** Python values *)

Module Py.

#[warnings="-register-all"]
Inductive json : Type :=
| JNull
| JBool (b : bool)
| JNum (z : Z)
| JStr (s : string)
| JArr (l : list json)
| JObj (kvs : list (string * json)).

Inductive exn : Type :=
| AttributeError
| KeyError
| TypeError
| IndexError
| UnboundLocalError
| JSONDecodeError
| InvalidURL
| ConnectionError
| CookieConflictError
| Exception (msg : string).

Inductive result (A : Type) : Type :=
| Ok (a : A)
| Raise (e : exn).
Global Arguments Ok {A} a.
Global Arguments Raise {A} e.

(** [bool(x)] *)
Definition truthy (j : json) : bool :=
  match j with
  | JNull => false
  | JBool b => b
  | JNum z => negb (z =? 0)
  | JStr s => negb (String.eqb s "")
  | JArr l => match l with [] => false | _ => true end
  | JObj kvs => match kvs with [] => false | _ => true end
  end.

(** [bool(s)] for [s : Optional[str]] *)
Definition truthy_str (o : option string) : bool :=
  match o with
  | Some s => negb (String.eqb s "")
  | None => false
  end.

(** The entries of a decoded object, keys unique; the first entry of a key
    is its value. *)
Fixpoint assoc (k : string) (kvs : list (string * json)) : option json :=
  match kvs with
  | [] => None
  | (k', v) :: rest => if String.eqb k k' then Some v else assoc k rest
  end.

(** [d.get(k, dflt)]: only a dict has the method. *)
Definition dict_get (d : json) (k : string) (dflt : json) : result json :=
  match d with
  | JObj kvs => Ok (default dflt (assoc k kvs))
  | _ => Raise AttributeError
  end.

(** [d[k]] *)
Definition dict_item (d : json) (k : string) : result json :=
  match d with
  | JObj kvs => match assoc k kvs with Some v => Ok v | None => Raise KeyError end
  | _ => Raise TypeError
  end.

(** [k in d] *)
Definition dict_has (kvs : list (string * json)) (k : string) : bool :=
  match assoc k kvs with Some _ => true | None => false end.

(** The bytes 0x80 to 0xBF, which continue a character in UTF-8. *)
Definition is_continuation (c : ascii) : bool :=
  let n := nat_of_ascii c in ((128 <=? n) && (n <=? 191))%nat.

(** The characters of a string: each byte that is not a continuation
    byte starts one. *)
Fixpoint utf8_chars (s : string) : list string :=
  match s with
  | EmptyString => []
  | String c rest =>
      match utf8_chars rest with
      | String c' h :: t =>
          if is_continuation c' then String c (String c' h) :: t
          else String c "" :: String c' h :: t
      | chars => String c "" :: chars
      end
  end.

(** [for x in v]: a list yields its items, a dict its keys, a string its
    characters; nothing else is iterable. *)
Definition iter (v : json) : result (list json) :=
  match v with
  | JArr l => Ok l
  | JObj kvs => Ok (map (λ kv, JStr (fst kv)) kvs)
  | JStr s => Ok (map JStr (utf8_chars s))
  | _ => Raise TypeError
  end.

(** [len(v)] *)
Definition len (v : json) : result Z :=
  match v with
  | JStr s => Ok (Z.of_nat (length (utf8_chars s)))
  | JArr l => Ok (Z.of_nat (length l))
  | JObj kvs => Ok (Z.of_nat (length kvs))
  | _ => Raise TypeError
  end.

(** [isinstance(v, dict)] *)
Definition is_dict (v : json) : bool := match v with JObj _ => true | _ => false end.

(** The keys of a Python dict that decoded values can be: [None], numbers
    (the booleans are the numbers 0 and 1) and strings; lists and dicts are
    not hashable. *)
Inductive key : Type :=
| KNone
| KNum (z : Z)
| KStr (s : string).

#[global] Instance key_eq_dec : EqDecision key.
Proof. solve_decision. Defined.

#[global] Instance key_countable : Countable key :=
  inj_countable'
    (λ k, match k with
          | KNone => inl ()
          | KNum z => inr (inl z)
          | KStr s => inr (inr s)
          end)
    (λ c, match c with
          | inl _ => KNone
          | inr (inl z) => KNum z
          | inr (inr s) => KStr s
          end)
    (λ k, match k with KNone | KNum _ | KStr _ => eq_refl end).

Definition hash_key (v : json) : result key :=
  match v with
  | JNull => Ok KNone
  | JBool b => Ok (KNum (if b then 1 else 0))
  | JNum z => Ok (KNum z)
  | JStr s => Ok (KStr s)
  | JArr _ | JObj _ => Raise TypeError
  end.

#[global] Instance result_ret : MRet result := λ A a, Ok a.

#[global] Instance result_bind : MBind result := λ A B f r,
  match r with
  | Ok a => f a
  | Raise e => Raise e
  end.

Definition string_of_Z (z : Z) : string := NilZero.string_of_int (Z.to_int z).

Fixpoint join (sep : string) (l : list string) : string :=
  match l with
  | [] => ""
  | [x] => x
  | x :: rest => x +:+ sep +:+ join sep rest
  end.

(** [repr(v)]; a string is shown between single quotes without escapes. *)
Fixpoint py_repr (v : json) : string :=
  match v with
  | JNull => "None"
  | JBool b => if b then "True" else "False"
  | JNum z => string_of_Z z
  | JStr s => "'" +:+ s +:+ "'"
  | JArr l => "[" +:+ join ", " (map py_repr l) +:+ "]"
  | JObj kvs =>
      "{" +:+ join ", " (map (λ '(k, x), "'" +:+ k +:+ "': " +:+ py_repr x) kvs) +:+ "}"
  end.

(** [str(v)], what an f-string writes for [{v}] *)
Definition py_str (v : json) : string :=
  match v with
  | JStr s => s
  | _ => py_repr v
  end.

(** *** Strings *)

(** [s.startswith(p)] *)
Definition startswith (s p : string) : bool := String.prefix p s.

(** [needle in hay] *)
Fixpoint str_contains (needle hay : string) : bool :=
  match hay with
  | EmptyString => String.prefix needle ""
  | String _ rest => String.prefix needle hay || str_contains needle rest
  end.

(** [k in v] for a string [k]: a key of a dict, an item of a list, a part
    of a string. *)
Definition py_in (k : string) (v : json) : result bool :=
  match v with
  | JObj kvs => Ok (dict_has kvs k)
  | JArr l => Ok (existsb (λ x, match x with JStr s => String.eqb s k | _ => false end) l)
  | JStr s => Ok (str_contains k s)
  | _ => Raise TypeError
  end.

(** [c in s] for a single character *)
Fixpoint has_char (c : ascii) (s : string) : bool :=
  match s with
  | EmptyString => false
  | String a rest => Ascii.eqb a c || has_char c rest
  end.

(** [s.partition(c)] for a single character: the text before the first [c]
    and, when there is one, the text after it. *)
Fixpoint partition (c : ascii) (s : string) : string * option string :=
  match s with
  | EmptyString => ("", None)
  | String a rest =>
      if Ascii.eqb a c then ("", Some rest)
      else let '(h, t) := partition c rest in (String a h, t)
  end.

(** [s.split(c)] for a single character *)
Fixpoint split (c : ascii) (s : string) : list string :=
  match s with
  | EmptyString => [""]
  | String a rest =>
      if Ascii.eqb a c then "" :: split c rest
      else match split c rest with
           | h :: t => String a h :: t
           | [] => [String a ""]
           end
  end.

(** [s.replace(a, b)] for single characters *)
Fixpoint replace (a b : ascii) (s : string) : string :=
  match s with
  | EmptyString => ""
  | String c rest => String (if Ascii.eqb c a then b else c) (replace a b rest)
  end.

(** The white space of [str.split()], [str.strip()] and [str.lstrip()]:
    U+0009 to U+000D, U+001C to U+0020, U+0085, U+00A0, U+1680, U+2000 to
    U+200A, U+2028, U+2029, U+202F, U+205F and U+3000. [space_width s] is
    the number of bytes of the white space character that [s] starts with,
    and 0 when it starts with none. *)
Definition space_width (s : string) : nat :=
  match s with
  | EmptyString => 0
  | String a rest =>
      let n := nat_of_ascii a in
      if ((9 <=? n) && (n <=? 13) || (28 <=? n) && (n <=? 32))%nat then 1
      else
        match rest with
        | EmptyString => 0
        | String b rest' =>
            let m := nat_of_ascii b in
            if ((n =? 194) && ((m =? 133) || (m =? 160)))%nat then 2
            else
              match rest' with
              | EmptyString => 0
              | String c _ =>
                  let k := nat_of_ascii c in
                  if ((n =? 225) && (m =? 154) && (k =? 128)
                      || (n =? 226) && (m =? 128)
                         && ((128 <=? k) && (k <=? 138) || (k =? 168) || (k =? 169)
                             || (k =? 175))
                      || (n =? 226) && (m =? 129) && (k =? 159)
                      || (n =? 227) && (m =? 128) && (k =? 128))%nat
                  then 3 else 0
              end
        end
  end.

(** [s] without its first [skip] bytes and the white space that follows. *)
Fixpoint lstrip_from (skip : nat) (s : string) : string :=
  match s with
  | EmptyString => ""
  | String _ rest =>
      match skip with
      | S k => lstrip_from k rest
      | O =>
          match space_width s with
          | O => s
          | S k => lstrip_from k rest
          end
      end
  end.

(** [s.lstrip()] *)
Definition lstrip (s : string) : string := lstrip_from 0 s.

(** The bytes of [s] before its first white space. *)
Fixpoint take_word (s : string) : string :=
  match s with
  | EmptyString => ""
  | String c rest =>
      match space_width s with
      | O => String c (take_word rest)
      | S _ => ""
      end
  end.

(** [s.split()[0]]: the first run of characters that are not white space;
    [IndexError] when there is none. *)
Definition first_word (s : string) : result string :=
  match lstrip s with
  | EmptyString => Raise IndexError
  | w => Ok (take_word w)
  end.

(** [str.lower] on ASCII text; other bytes are kept. The definitions that
    lowercase take the function as a parameter, this one instantiates it in
    examples. *)
Definition ascii_lower_char (c : ascii) : ascii :=
  let n := nat_of_ascii c in
  if ((65 <=? n) && (n <=? 90))%nat then ascii_of_nat (n + 32) else c.

Fixpoint ascii_lower (s : string) : string :=
  match s with
  | EmptyString => ""
  | String c rest => String (ascii_lower_char c) (ascii_lower rest)
  end.

(** Dates as [datetime.date] has them, compared field by field. *)
Record date : Type := Date { year : Z; month : Z; day : Z }.

Definition date_eqb (a b : date) : bool :=
  (year a =? year b) && (month a =? month b) && (day a =? day b).

Definition date_leb (a b : date) : bool :=
  (year a <? year b)
  || (year a =? year b) && ((month a <? month b)
                            || (month a =? month b) && (day a <=? day b)).

End Py.
Export Py.

(** ** The parts of [urllib.parse] the client uses

    Strings are UTF-8 bytes: [unquote] decodes the bytes of every run of
    ASCII text as UTF-8 and replaces what is not valid by U+FFFD, as
    [bytes.decode(errors="replace")] does. [urlparse] does not strip control
    characters nor validate bracketed hosts, and [parse_qs] has its default
    arguments (separator [&], blank values dropped). *)

Module Urllib.

Definition hex_val (c : ascii) : option nat :=
  let n := nat_of_ascii c in
  if ((48 <=? n) && (n <=? 57))%nat then Some (n - 48)%nat
  else if ((65 <=? n) && (n <=? 70))%nat then Some (n - 55)%nat
  else if ((97 <=? n) && (n <=? 102))%nat then Some (n - 87)%nat
  else None.

(** U+FFFD in UTF-8. *)
Definition replacement : string :=
  String (ascii_of_nat 239) (String (ascii_of_nat 191) (String (ascii_of_nat 189) "")).

(** What a byte starts in UTF-8: a character of its own, a sequence of
    [need] more bytes of which the first lies between [lo] and [hi], or
    nothing. *)
Inductive lead : Type :=
| Single
| Lead (need lo hi : nat)
| Invalid.

Definition utf8_lead (n : nat) : lead :=
  if (n <? 128)%nat then Single
  else if ((194 <=? n) && (n <=? 223))%nat then Lead 1 128 191
  else if (n =? 224)%nat then Lead 2 160 191
  else if ((225 <=? n) && (n <=? 236) || (n =? 238) || (n =? 239))%nat then Lead 2 128 191
  else if (n =? 237)%nat then Lead 2 128 159
  else if (n =? 240)%nat then Lead 3 144 191
  else if ((241 <=? n) && (n <=? 243))%nat then Lead 3 128 191
  else if (n =? 244)%nat then Lead 3 128 143
  else Invalid.

(** [bytes.decode("utf-8", errors="replace")], written in UTF-8 again:
    the valid sequences are kept, and every maximal part of a sequence
    that is not valid becomes U+FFFD. [pending] holds the bytes of the
    sequence being read, which wants [need] more bytes, the next one
    between [lo] and [hi]. *)
Fixpoint utf8_decode (pending : string) (need lo hi : nat) (s : string) : string :=
  match s with
  | EmptyString => match need with O => "" | S _ => replacement end
  | String b rest =>
      let n := nat_of_ascii b in
      let start :=
        match utf8_lead n with
        | Single => String b (utf8_decode "" 0 0 0 rest)
        | Lead need' lo' hi' => utf8_decode (String b "") need' lo' hi' rest
        | Invalid => replacement +:+ utf8_decode "" 0 0 0 rest
        end in
      match need with
      | O => start
      | S k =>
          if ((lo <=? n) && (n <=? hi))%nat then
            match k with
            | O => pending +:+ String b (utf8_decode "" 0 0 0 rest)
            | S _ => utf8_decode (pending +:+ String b "") k 128 191 rest
            end
          else replacement +:+ start
      end
  end.

Definition utf8_replace (bytes : string) : string := utf8_decode "" 0 0 0 bytes.

(** [unquote(s)]: in every run of ASCII characters, each [%XY] with two
    hexadecimal digits becomes the byte [0xXY] (a [%] not followed by two
    digits stays), and the bytes of the run are decoded as UTF-8; the other
    characters are kept. [run] holds the bytes of the run being read. *)
Fixpoint unquote_run (run : string) (s : string) : string :=
  match s with
  | EmptyString => utf8_replace run
  | String c rest =>
      if (nat_of_ascii c <? 128)%nat then
        if Ascii.eqb c "%" then
          match rest with
          | String h (String l rest') =>
              match hex_val h, hex_val l with
              | Some a, Some b =>
                  unquote_run (run +:+ String (ascii_of_nat (16 * a + b)) "") rest'
              | _, _ => unquote_run (run +:+ String c "") rest
              end
          | _ => unquote_run (run +:+ String c "") rest
          end
        else unquote_run (run +:+ String c "") rest
      else utf8_replace run +:+ String c (unquote_run "" rest)
  end.

Definition unquote (s : string) : string := unquote_run "" s.

(** [unquote_plus(s)] *)
Definition unquote_plus (s : string) : string :=
  unquote (replace "+" " " s).

(** [parse_qsl(qs)]: the [name=value] pairs of a query string, decoded;
    a piece without [=] or with an empty value is dropped. *)
Definition parse_qsl (qs : string) : list (string * string) :=
  flat_map
    (λ name_value,
      match partition "=" name_value with
      | (name, Some value) =>
          if String.eqb value "" then []
          else [(unquote_plus name, unquote_plus value)]
      | (_, None) => []
      end)
    (split "&" qs).

(** [parse_qs(qs).get(name, [None])[0]]: the first value given to [name]. *)
Fixpoint first_value (name : string) (pairs : list (string * string)) : option string :=
  match pairs with
  | [] => None
  | (n, v) :: rest => if String.eqb n name then Some v else first_value name rest
  end.

Definition is_alpha (c : ascii) : bool :=
  let n := nat_of_ascii c in
  ((65 <=? n) && (n <=? 90) || (97 <=? n) && (n <=? 122))%nat.

Definition is_scheme_char (c : ascii) : bool :=
  let n := nat_of_ascii c in
  is_alpha c || ((48 <=? n) && (n <=? 57))%nat
  || Ascii.eqb c "+" || Ascii.eqb c "-" || Ascii.eqb c ".".

Definition valid_scheme (s : string) : bool :=
  match s with
  | EmptyString => false
  | String c _ => is_alpha c && forallb is_scheme_char (list_ascii_of_string s)
  end.

(** The text up to the first of [/], [?], [#], and what starts there. *)
Fixpoint splitnetloc (s : string) : string * string :=
  match s with
  | EmptyString => ("", "")
  | String c rest =>
      if Ascii.eqb c "/" || Ascii.eqb c "?" || Ascii.eqb c "#" then ("", s)
      else let '(n, r) := splitnetloc rest in (String c n, r)
  end.

Record ParseResult : Type := {
  scheme : string;
  netloc : string;
  path : string;
  query : string;
  fragment : string;
}.

Definition urlparse (url : string) : ParseResult :=
  let '(sch, url1) :=
    match partition ":" url with
    | (pre, Some rest) =>
        if valid_scheme pre then (ascii_lower pre, rest) else ("", url)
    | (_, None) => ("", url)
    end in
  let '(nl, url2) :=
    match url1 with
    | String a (String b rest) =>
        if Ascii.eqb a "/" && Ascii.eqb b "/" then splitnetloc rest else ("", url1)
    | _ => ("", url1)
    end in
  let '(url3, frag) := partition "#" url2 in
  let '(pth, qry) := partition "?" url3 in
  {| scheme := sch; netloc := nl; path := pth;
     query := default "" qry; fragment := default "" frag |}.

(** The text after the last [@] of a network location. *)
Fixpoint after_last_at (s : string) : string :=
  match s with
  | EmptyString => ""
  | String c rest =>
      if has_char "@" s then
        (if Ascii.eqb c "@" && negb (has_char "@" rest) then rest
         else after_last_at rest)
      else s
  end.

(** The host of a URL as it is written there: its network location
    without the user information and the port, or what stands between
    square brackets. *)
Definition host_as_written (url : string) : string :=
  let hostinfo := after_last_at (netloc (urlparse url)) in
  match partition "[" hostinfo with
  | (_, Some bracketed) => fst (partition "]" bracketed)
  | (_, None) => fst (partition ":" hostinfo)
  end.

(** The host named by a URL, the [hostname] attribute of Python (with the
    empty string for [None]): the host as written, in lower case up to the
    zone that a [%] starts. [lower] is [str.lower]. The client never
    computes it; it is what the specification calls the host of the final
    redirect URL. *)
Definition url_host (lower : string → string) (url : string) : string :=
  match partition "%" (host_as_written url) with
  | (hostname, Some zone) => lower hostname +:+ String "%" zone
  | (hostname, None) => lower hostname
  end.

End Urllib.
Export Urllib.

(** ** The session client ([DashboardstroiClient], the same in the four
    scripts up to [get_json]) *)

Module Client.

Record request : Type := {
  req_method : string;
  req_url : string;
  req_headers : gmap string string;
  req_params : list (string * string);
  req_data : list (string * string);
}.

(** A cookie as the jar of the session files it: under its domain, its
    path and its name. *)
Record cookie : Type := {
  cookie_domain : string;
  cookie_path : string;
  cookie_name : string;
  cookie_value : string;
}.

(** What the client reads of a [requests.Response]: the status, the URL the
    redirects ended at, the body as [response.json()] decodes it ([None]
    when it is not JSON), the raw body, the cookies the exchange set. *)
Record response : Type := {
  status_code : Z;
  url : string;
  json_body : option json;
  content : string;
  set_cookies : list cookie;
}.

(** The upstream services as the session meets them. For the [n]-th
    request given to the session ([n] counted from 0): the response, and
    the exception the session raises instead of returning it, if any (a
    connection that fails, a timeout, a URL that [requests] refuses). *)
Record upstream : Type := {
  answer :> nat → request → response;
  failure : nat → request → option exn;
}.

(** An upstream that always answers. *)
Definition reliable (answer : nat → request → response) : upstream :=
  {| answer := answer; failure := λ _ _, None |}.

(** The client's fields ([self.token], [self.xsrf_token]), the cookies of
    [self.session] by domain, path and name, the requests given to the
    session (latest first), whether an answer came or not, and the delays
    slept, in milliseconds (latest first). *)
Record world : Type := {
  token : option string;
  xsrf_token : option string;
  cookies : gmap (string * string * string) string;
  sent : list request;
  slept : list Z;
}.

(** [__init__] *)
Definition init : world :=
  {| token := None; xsrf_token := None; cookies := ∅; sent := []; slept := [] |}.

Definition M (A : Type) : Type := world → result A * world.

#[global] Instance M_ret : MRet M := λ A a w, (Ok a, w).

#[global] Instance M_bind : MBind M := λ A B f m w,
  match m w with
  | (Ok a, w') => f a w'
  | (Raise e, w') => (Raise e, w')
  end.

Definition raise {A : Type} (e : exn) : M A := λ w, (Raise e, w).

(** [try: body  except Exception: handler] *)
Definition try_except {A : Type} (body : M A) (handler : exn → M A) : M A :=
  λ w, match body w with
       | (Ok a, w') => (Ok a, w')
       | (Raise e, w') => handler e w'
       end.

(** A pure fallible step ([d.get], [d[k]]) inside [M]. *)
Definition lift {A : Type} (r : result A) : M A := λ w, (r, w).

(** [time.sleep(ms / 1000)] *)
Definition sleep (ms : Z) : M unit :=
  λ w, (Ok tt, {| token := token w; xsrf_token := xsrf_token w;
                  cookies := cookies w; sent := sent w;
                  slept := ms :: slept w |}).

Definition set_token (t : string) : M unit :=
  λ w, (Ok tt, {| token := Some t; xsrf_token := xsrf_token w;
                  cookies := cookies w; sent := sent w; slept := slept w |}).

Definition set_xsrf_token (t : string) : M unit :=
  λ w, (Ok tt, {| token := token w; xsrf_token := Some t;
                  cookies := cookies w; sent := sent w; slept := slept w |}).

Definition get_token : M (option string) := λ w, (Ok (token w), w).
Definition get_xsrf_token : M (option string) := λ w, (Ok (xsrf_token w), w).

(** The values of the cookies of a name in the jar, one for each domain
    and path it was set for. *)
Definition cookies_named (name : string)
    (jar : gmap (string * string * string) string) : list string :=
  (map_to_list (filter (λ kv, kv.1.2 = name) jar)).*2.

(** [self.session.cookies.get(name)]: the value of the only cookie of that
    name, [None] when there is none or when its value is empty, and
    [CookieConflictError] when there are several. *)
Definition cookies_get (name : string) : M (option string) :=
  λ w, match cookies_named name (cookies w) with
       | [] => (Ok None, w)
       | [value] => (Ok (if String.eqb value "" then None else Some value), w)
       | _ => (Raise CookieConflictError, w)
       end.

Definition store_cookies (cs : list cookie)
    (jar : gmap (string * string * string) string)
    : gmap (string * string * string) string :=
  foldl (λ j c, <[(cookie_domain c, cookie_path c, cookie_name c) := cookie_value c]> j)
        jar cs.

(** [d.setdefault(k, v)] *)
Definition setdefault (k v : string) (d : gmap string string) : gmap string string :=
  match d !! k with
  | Some _ => d
  | None => <[k := v]> d
  end.

Definition base_url : string := "https://dashboard-stroi.mos.ru".

Definition auth_url : string :=
  "https://sudir.mos.ru/blitz/login/methods/password?bo=%2Fblitz%2Foauth%2Fae%3Fclient_id%3Ddashboard-stroi.mos.ru%26redirect_uri%3Dhttps%253A%252F%252Fdashboard-stroi.mos.ru%252Foauth%252Flogin-internal%26response_type%3Dcode%26scope%3Dopenid%2Bprofile%2Bemail%2Bemployee%2Bgroups%26state%3DENZPq1I93b184s6FxZzvh4yOwKZN5eyhjDBDJsfg%26access_type%3Doffline".

(** The headers [get] and [post] send: the caller's, with the tokens the
    client holds written over them and the two defaults filled in. *)
Definition with_tokens (tok xsrf : option string)
    (headers : gmap string string) : gmap string string :=
  let headers :=
    match tok with
    | Some t => if truthy_str tok then <["Authorization" := "Bearer " +:+ t]> headers
                else headers
    | None => headers
    end in
  match xsrf with
  | Some x => if truthy_str xsrf then <["X-XSRF-TOKEN" := x]> headers else headers
  | None => headers
  end.

Definition with_defaults (accept : string)
    (headers : gmap string string) : gmap string string :=
  setdefault "X-Requested-With" "XMLHttpRequest" (setdefault "Accept" accept headers).

Definition resolve (path : string) : string :=
  if startswith path "/" then base_url +:+ path else path.

(** The texts [requests] takes for a URL it has a connection adapter for:
    leading white space apart, they start with [http://] or [https://], in
    any letter case. For any other text the session raises ([MissingSchema]
    or [InvalidSchema], here [InvalidURL] for both) before anything leaves.
    What else makes the session raise (a URL without a host, a connection
    that fails) is the [failure] of the upstream. *)
Definition takes_url (url : string) : bool :=
  let u := ascii_lower (lstrip url) in
  startswith u "http://" || startswith u "https://".

Section Upstream.

Variable server : upstream.

(** The exception that ends the next exchange of a world, if any. *)
Definition exchange_error (rq : request) (w : world) : option exn :=
  if takes_url (req_url rq) then failure server (length (sent w)) rq
  else Some InvalidURL.

(** [self.session.request(...)]: the request is given to the session as it
    is; the session raises, or returns the response and keeps its cookies
    in the jar. A redirect chain followed by the session is one exchange
    whose reply carries the final URL. *)
Definition send (rq : request) : M response :=
  λ w, match exchange_error rq w with
       | Some e =>
           (Raise e, {| token := token w; xsrf_token := xsrf_token w;
                        cookies := cookies w;
                        sent := rq :: sent w; slept := slept w |})
       | None =>
           let rs := server (length (sent w)) rq in
           (Ok rs, {| token := token w; xsrf_token := xsrf_token w;
                      cookies := store_cookies (set_cookies rs) (cookies w);
                      sent := rq :: sent w; slept := slept w |})
       end.

(** [get(path, headers=headers, params=params)] *)
Definition get (path : string) (headers : gmap string string)
    (params : list (string * string)) : M response :=
  tok ← get_token;
  xsrf ← get_xsrf_token;
  let headers := with_tokens tok xsrf headers in
  let headers := with_defaults "application/json, text/html, */*" headers in
  send {| req_method := "GET"; req_url := resolve path; req_headers := headers;
          req_params := params; req_data := [] |}.

(** [post(path, data=data, headers=headers)] *)
Definition post (path : string) (headers : gmap string string)
    (data : list (string * string)) : M response :=
  tok ← get_token;
  xsrf ← get_xsrf_token;
  let headers := with_tokens tok xsrf headers in
  let headers := with_defaults "application/json" headers in
  send {| req_method := "POST"; req_url := resolve path; req_headers := headers;
          req_params := []; req_data := data |}.

(** [response.json()] *)
Definition response_json (rs : response) : M json :=
  match json_body rs with
  | Some d => mret d
  | None => raise JSONDecodeError
  end.

(** [get_json(path)] *)
Definition get_json (path : string) : M json :=
  rs ← get path ∅ [];
  if status_code rs =? 200 then
    try_except (response_json rs) (λ _, mret JNull)
  else mret JNull.

Variables login password : string.

Definition sudir_request : request :=
  {| req_method := "GET"; req_url := auth_url; req_headers := ∅;
     req_params := []; req_data := [] |}.

Definition accounts_request : request :=
  {| req_method := "POST"; req_url := "https://sudir.mos.ru/blitz/login/mus";
     req_headers := {[ "X-Requested-With" := "XMLHttpRequest" ]};
     req_params := []; req_data := [] |}.

Definition password_request : request :=
  {| req_method := "POST";
     req_url := "https://sudir.mos.ru/blitz/login/methods/password";
     req_headers := ∅; req_params := [];
     req_data := [("isDelayed", "false"); ("login", login); ("password", password)] |}.

(** [authorize()] *)
Definition authorize : M bool :=
  _ ← send sudir_request;
  _ ← send accounts_request;
  login_response ← send password_request;
  if negb (str_contains "dashboard-stroi.mos.ru" (url login_response)) then
    raise (Exception "Ошибка авторизации")
  else
    let parsed := urlparse (url login_response) in
    let token_param := first_value "token" (parse_qsl (query parsed)) in
    match token_param with
    | Some tp =>
        if negb (truthy_str token_param) then raise (Exception "Токен не найден в URL")
        else
          set_token (unquote tp);;
          xsrf ← cookies_get "XSRF-TOKEN";
          match xsrf with
          | Some x =>
              (if truthy_str xsrf then set_xsrf_token (unquote_plus x) else mret ());;
              mret true
          | None => mret true
          end
    | None => raise (Exception "Токен не найден в URL")
    end.

End Upstream.

End Client.
Export Client.

(** ** [cameras.py] *)

Module Cameras.
Section Upstream.

Variable server : upstream.

(** [get_catalog_objects(oks_status_array_name)] *)
Definition get_catalog_objects (oks_status_array_name : option string) : M json :=
  let path := "/api/catalog" in
  let params :=
    match oks_status_array_name with
    | Some n => if truthy_str oks_status_array_name then [("oksStatusArrayName", n)] else []
    | None => []
    end in
  rs ← get server path ∅ params;
  if status_code rs =? 200 then
    data ← response_json rs;
    objects ← lift (dict_get data "objects" (JObj []));
    lift (dict_get objects "data" (JArr []))
  else mret (JArr []).

(** [get_dashboard_data(object_id)]: whether the object has video links. *)
Definition get_dashboard_data (object_id : json) : M bool :=
  rs ← get server ("/api/dashboard/" +:+ py_str object_id) ∅ [];
  if status_code rs =? 200 then
    try_except
      (data ← response_json rs;
       obj ← lift (dict_get data "object" (JObj []));
       video_links ← lift (dict_get obj "video_links" JNull);
       if truthy video_links then
         n ← lift (len video_links);
         mret (0 <? n)
       else mret false)
      (λ _, mret false)
  else mret false.

(** The loop of [get_catalog_objects_info]: the objects that have the three
    keys, each as the dict of its [id], [name] and [uin]. *)
Fixpoint objects_info (objects : list json) : result (list json) :=
  match objects with
  | [] => mret []
  | obj :: rest =>
      has_id ← py_in "id" obj;
      has_name ← (if has_id : bool then py_in "name" obj else mret false);
      has_uin ← (if has_name : bool then py_in "uin" obj else mret false);
      if has_uin : bool then
        i ← dict_item obj "id";
        n ← dict_item obj "name";
        u ← dict_item obj "uin";
        infos ← objects_info rest;
        mret (JObj [("id", i); ("name", n); ("uin", u)] :: infos)
      else objects_info rest
  end.

(** [get_catalog_objects_info(oks_status_array_name)] *)
Definition get_catalog_objects_info (oks_status_array_name : option string)
    : M (list json) :=
  objects ← get_catalog_objects oks_status_array_name;
  objects ← lift (iter objects);
  lift (objects_info objects).

(** The loop of [get_catalog_with_video_status] over the objects, with the
    rows of the frame gathered so far. *)
Fixpoint video_rows (objects_info : list json) (data_for_df : list json)
    : M (list json) :=
  match objects_info with
  | [] => mret data_for_df
  | obj :: rest =>
      i ← lift (dict_item obj "id");
      has_video ← get_dashboard_data i;
      n ← lift (dict_item obj "name");
      i ← lift (dict_item obj "id");
      u ← lift (dict_item obj "uin");
      video_rows rest
        (data_for_df
         ++ [JObj [("name", n); ("id", i); ("uin", u);
                   ("video", JStr (if has_video : bool then "видео есть"
                                   else "видео нет"))]])%list
  end.

(** [get_catalog_with_video_status(oks_status_array_name)], up to the rows
    of the frame. *)
Definition get_catalog_with_video_status (oks_status_array_name : option string)
    : M (list json) :=
  objects_info ← get_catalog_objects_info oks_status_array_name;
  video_rows objects_info [].


End Upstream.
End Cameras.

(** ** [plan_fact_parser.py] *)

Module PlanFact.

(** A row of the report: the dict the script builds, in the order of its
    keys. *)
Definition row : Type := list (string * json).

Definition link (obj_id : json) : json :=
  JStr ("https://dashboard-stroi.mos.ru/dashboard/" +:+ py_str obj_id).

Definition child_row (obj_id obj_name obj_uin : json) (child : list (string * json)) : row :=
  [("id", obj_id); ("name", obj_name); ("uin", obj_uin);
   ("view_name", default JNull (assoc "view_name" child));
   ("fact", default JNull (assoc "fact_oiv" child));
   ("plan", JNull); ("fact_delta_week", JNull); ("fact_delta_month", JNull);
   ("plan_delta_week", JNull); ("plan_delta_month", JNull);
   ("link", link obj_id)].

(** The rows of the children of a stage that are dicts with both keys. *)
Definition child_rows (obj_id obj_name obj_uin : json) (children : list json) : list row :=
  flat_map
    (λ child,
      match child with
      | JObj kvs =>
          if dict_has kvs "view_name" && dict_has kvs "fact_oiv"
          then [child_row obj_id obj_name obj_uin kvs] else []
      | _ => []
      end)
    children.

Definition stage_rows (obj_id obj_name obj_uin : json) (stage : json) : result (list row) :=
  oiv ← dict_get stage "oiv" (JObj []);
  view_name ← dict_get stage "view_name" JNull;
  fact ← dict_get oiv "fact" JNull;
  plan ← dict_get oiv "plan" JNull;
  fact_delta_week ← dict_get oiv "delta_fact_week" JNull;
  fact_delta_month ← dict_get oiv "delta_fact_month" JNull;
  plan_delta_week ← dict_get oiv "delta_plan_week" JNull;
  plan_delta_month ← dict_get oiv "delta_plan_month" JNull;
  let r : row :=
    [("id", obj_id); ("name", obj_name); ("uin", obj_uin);
     ("view_name", view_name); ("fact", fact); ("plan", plan);
     ("fact_delta_week", fact_delta_week); ("fact_delta_month", fact_delta_month);
     ("plan_delta_week", plan_delta_week); ("plan_delta_month", plan_delta_month);
     ("link", link obj_id)] in
  children ← dict_get stage "children" (JArr []);
  mret (r :: match children with
            | JArr l => child_rows obj_id obj_name obj_uin l
            | JObj kvs => child_rows obj_id obj_name obj_uin (map snd kvs)
            | _ => []
            end).

Fixpoint stages_rows (obj_id obj_name obj_uin : json) (stages : list json) : result (list row) :=
  match stages with
  | [] => mret []
  | stage :: rest =>
      rs ← stage_rows obj_id obj_name obj_uin stage;
      rest_rows ← stages_rows obj_id obj_name obj_uin rest;
      mret (rs ++ rest_rows)%list
  end.

(** [extract_rows(data)] *)
Definition extract_rows (data : json) : result (list row) :=
  obj ← dict_get data "object" (JObj []);
  obj_id ← dict_get obj "id" JNull;
  obj ← dict_get data "object" (JObj []);
  obj_name ← dict_get obj "name" JNull;
  obj ← dict_get data "object" (JObj []);
  obj_uin ← dict_get obj "uin" JNull;
  stages ← dict_get data "constructionStagesData" (JArr []);
  stages ← iter stages;
  stages_rows obj_id obj_name obj_uin stages.

Section Upstream.

Variable server : upstream.

(** [get_catalog_objects()] *)
Definition get_catalog_objects : M json :=
  rs ← get server "/api/catalog" ∅ [];
  if status_code rs =? 200 then
    data ← response_json rs;
    objects ← lift (dict_get data "objects" (JObj []));
    lift (dict_get objects "data" (JArr []))
  else mret (JArr []).

(** [[obj["id"] for obj in objects if "id" in obj]] *)
Fixpoint ids_of (objects : list json) : result (list json) :=
  match objects with
  | [] => mret []
  | obj :: rest =>
      has ← py_in "id" obj;
      if has : bool then
        i ← dict_item obj "id";
        ids ← ids_of rest;
        mret (i :: ids)
      else ids_of rest
  end.

(** [get_catalog_ids()] *)
Definition get_catalog_ids : M (list json) :=
  objects ← get_catalog_objects;
  objects ← lift (iter objects);
  lift (ids_of objects).

(** [get_dashboard_data(object_id)]: the decoded document; [None] when the
    status is not 200 and when the body does not decode (the handler only
    prints, and the function falls off its end). *)
Definition get_dashboard_data (object_id : json) : M json :=
  rs ← get server ("/api/dashboard/" +:+ py_str object_id) ∅ [];
  if status_code rs =? 200 then
    try_except (response_json rs) (λ _, mret JNull)
  else mret JNull.

(** The loop of the script over the catalog, [all_rows] being the rows
    gathered so far. *)
Fixpoint object_loop (objects : list json) (all_rows : list row) : M (list row) :=
  match objects with
  | [] => mret all_rows
  | value :: rest =>
      data ← get_dashboard_data value;
      rows ← lift (extract_rows data);
      sleep 500;;
      object_loop rest (all_rows ++ rows)%list
  end.

(** The script after the authorization, up to the rows it exports. *)
Definition main : M (list row) :=
  objects ← get_catalog_ids;
  object_loop objects [].

End Upstream.
End PlanFact.

(** ** [control_points_parser.py] *)

Module ControlPoints.

(** A value of a row: a decoded value or a [datetime.date]. *)
Inductive cell : Type :=
| Val (v : json)
| DateVal (d : date).

Definition row : Type := list (string * cell).

(** [x is None] *)
Definition is_none (v : json) : bool :=
  match v with JNull => true | _ => false end.

(** [range(n)] *)
Definition range (n : nat) : list Z := map Z.of_nat (seq 0 n).

Definition max_retries : nat := 3.

(** [{obj["id"]: value(obj) for obj in objects}] *)
Fixpoint build_map (value : json → result json) (objects : list json)
    (m : gmap key json) : result (gmap key json) :=
  match objects with
  | [] => mret m
  | obj :: rest =>
      i ← dict_item obj "id";
      v ← value obj;
      k ← hash_key i;
      build_map value rest (<[k := v]> m)
  end.

Definition developer_of (obj : json) : result json :=
  developer ← dict_get obj "developer" (JObj []);
  dict_get developer "name" JNull.

Definition directive_date_of (obj : json) : result json :=
  dict_get obj "planned_commissioning_directive_date" JNull.

Section Upstream.

Variable server : upstream.

(** [datetime.now().date()] *)
Variable now : date.

(** [get_catalog_objects()] *)
Definition get_catalog_objects : M json :=
  rs ← get server "/api/catalog" ∅ [];
  if status_code rs =? 200 then
    data ← response_json rs;
    objects ← lift (dict_get data "objects" (JObj []));
    lift (dict_get objects "data" (JArr []))
  else mret (JArr []).

(** [get_dashboard_data(object_id)]: the link to the work ledger. *)
Definition get_dashboard_data (object_id : json) : M json :=
  rs ← get server ("/api/dashboard/" +:+ py_str object_id) ∅ [];
  if status_code rs =? 200 then
    try_except
      (data ← response_json rs;
       obj ← lift (dict_get data "object" (JObj []));
       lift (dict_get obj "suid_ksg_url" JNull))
      (λ _, mret JNull)
  else mret JNull.

(** [get_manager_name(object_id) -> str] *)
Definition get_manager_name (object_id : json) : M json :=
  rs ← get server ("/api/dashboard/" +:+ py_str object_id) ∅ [];
  if status_code rs =? 200 then
    try_except
      (data ← response_json rs;
       obj ← lift (dict_get data "object" (JObj []));
       project_manager ← lift (dict_get obj "project_manager" (JObj []));
       lift (dict_get project_manager "name" (JStr "Нет данных")))
      (λ _, mret JNull)
  else mret JNull.

(** [get_etapi_data(object_id)] *)
Definition get_etapi_data (object_id : json) : M json :=
  rs ← get server ("/api/etapi/" +:+ py_str object_id) ∅ [];
  if negb (status_code rs =? 200) then mret JNull
  else try_except (response_json rs) (λ _, mret JNull).

(** The retry loop of [collect_etapi_data]:
    [for attempt in range(max_retries): ...], entered with [etapi]. *)
Fixpoint retry_etapi (attempts : list Z) (object_id : json) (etapi : json) : M json :=
  match attempts with
  | [] => mret etapi
  | attempt :: rest =>
      etapi ← get_etapi_data object_id;
      if negb (is_none etapi) then mret etapi
      else
        let wait_time := (attempt + 1) * 2 in
        sleep (wait_time * 1000);;
        retry_etapi rest object_id etapi
  end.

Definition no_points_row (object_id object_name developer_name manager
    directive_date : json) : row :=
  [("object_id", Val object_id); ("object_name", Val object_name);
   ("status", Val (JStr "no_control_points"));
   ("developer", Val developer_name); ("project_manager", Val manager);
   ("name", Val JNull); ("plan_finish_date", Val JNull);
   ("fact_finish_date", Val JNull); ("plan", Val JNull); ("fact", Val JNull);
   ("created_at", Val JNull); ("updated_at", Val JNull); ("deleted_at", Val JNull);
   ("planned_commissioning_directive_date", Val directive_date);
   ("plan_start_date", Val JNull); ("fact_start_date", Val JNull);
   ("plan_progress", Val JNull); ("fact_progress", Val JNull);
   ("readiness", Val JNull); ("color", Val JNull);
   ("today", DateVal now); ("suid_url", Val JNull)].

Definition point_row (object_id object_name developer_name manager
    directive_date suid_url : json) (status : string) (point : json) : result row :=
  match point with
  | JObj kvs =>
      let field k := Val (default JNull (assoc k kvs)) in
      Ok [("object_id", Val object_id); ("object_name", Val object_name);
          ("status", Val (JStr status)); ("name", field "name");
          ("developer", Val developer_name); ("project_manager", Val manager);
          ("plan_finish_date", field "plan_finish_date");
          ("fact_finish_date", field "fact_finish_date");
          ("plan", field "plan"); ("fact", field "fact");
          ("created_at", field "created_at"); ("updated_at", field "updated_at");
          ("deleted_at", field "deleted_at");
          ("planned_commissioning_directive_date", Val directive_date);
          ("plan_start_date", field "plan_start_date");
          ("fact_start_date", field "fact_start_date");
          ("plan_progress", field "plan_progress");
          ("fact_progress", field "fact_progress");
          ("readiness", field "readiness"); ("color", field "color");
          ("today", DateVal now); ("suid_url", Val suid_url)]
  | _ => Raise AttributeError
  end.

Fixpoint point_rows (mk : json → result row) (points : list json) : result (list row) :=
  match points with
  | [] => mret []
  | point :: rest =>
      r ← mk point;
      rs ← point_rows mk rest;
      mret (r :: rs)
  end.

(** One turn of the loop of [collect_etapi_data] over the objects, from
    the cache of manager names and the rows gathered so far to the new
    ones. *)
Definition collect_object (developer_map directive_date_map : gmap key json)
    (obj : json) (cash : gmap key json) (all_data : list row)
    : M (gmap key json * list row) :=
  object_id ← lift (dict_item obj "id");
  k ← lift (hash_key object_id);
  cash ← match cash !! k with
         | Some _ => mret cash
         | None => manager ← get_manager_name object_id; mret (<[k := manager]> cash)
         end;
  object_name ← lift (dict_item obj "name");
  let developer_name := default JNull (developer_map !! k) in
  let directive_date := default JNull (directive_date_map !! k) in
  etapi ← retry_etapi (range max_retries) object_id JNull;
  if negb (truthy etapi) then mret (cash, all_data)
  else
    control_points ← lift (dict_get etapi "control_points" (JObj []));
    in_progress ← lift (dict_get control_points "in_progress" (JObj []));
    in_progress_data ← lift (dict_get in_progress "data" (JArr []));
    complete ← lift (dict_get control_points "complete" (JObj []));
    complete_data ← lift (dict_get complete "data" (JArr []));
    manager ← lift (match cash !! k with Some v => Ok v | None => Raise KeyError end);
    if negb (truthy in_progress_data) && negb (truthy complete_data) then
      let r := no_points_row object_id object_name developer_name manager directive_date in
      sleep 700;;
      mret (cash, (all_data ++ [r])%list)
    else
      suid_url ← get_dashboard_data object_id;
      let mk := point_row object_id object_name developer_name manager
                          directive_date suid_url in
      points ← lift (iter in_progress_data);
      rows1 ← lift (point_rows (mk "in_progress") points);
      points ← lift (iter complete_data);
      rows2 ← lift (point_rows (mk "complete") points);
      sleep 700;;
      mret (cash, (all_data ++ rows1 ++ rows2)%list).

Fixpoint collect_loop (developer_map directive_date_map : gmap key json)
    (objects : list json) (cash : gmap key json) (all_data : list row)
    : M (list row) :=
  match objects with
  | [] => mret all_data
  | obj :: rest =>
      '(cash, all_data) ← collect_object developer_map directive_date_map obj cash all_data;
      collect_loop developer_map directive_date_map rest cash all_data
  end.

(** [collect_etapi_data(client, objects)] *)
Definition collect_etapi_data (objects : json) : M (list row) :=
  objs ← lift (iter objects);
  developer_map ← lift (build_map developer_of objs ∅);
  directive_date_map ← lift (build_map directive_date_of objs ∅);
  collect_loop developer_map directive_date_map objs ∅ [].

End Upstream.

(** *** The frame of the report *)

(** The columns of [df_new] that the overdue flag reads, once the two
    finish dates went through [pd.to_datetime(..., errors="coerce").dt.date]:
    a missing or unreadable date is [NaT], here [None]. *)
Record frame_row : Type := {
  status : string;
  plan_finish_date : option date;
  fact_finish_date : option date;
  today : date;
}.

(** [==] and [<=] of two columns of objects, item by item: an item that is
    missing on either side compares false. *)
Definition col_eq (a b : option date) : bool :=
  match a, b with
  | Some x, Some y => date_eqb x y
  | _, _ => false
  end.

Definition col_le (a b : option date) : bool :=
  match a, b with
  | Some x, Some y => date_leb x y
  | _, _ => false
  end.

(** [np.where(c, x, y)] on one item *)
Definition np_where {A : Type} (c : bool) (x y : A) : A := if c then x else y.

(** The column [is_exceeded] *)
Definition is_exceeded (r : frame_row) : bool :=
  np_where (String.eqb (status r) "no_control_points")
    true
    (np_where (col_eq (plan_finish_date r) (fact_finish_date r))
       false
       (col_le (plan_finish_date r) (Some (today r)))).

(** *** Matching against the work ledger *)

(** The dicts [get_works] returns. *)
Record work : Type := {
  work_start_date : json;
  work_end_date : json;
  work_name : json;
  work_fact_end_date : json;
}.

(** The values of [works_dict]. *)
Record ledger_dates : Type := {
  end_date : json;
  start_date : json;
  fact_end_date_suid : json;
}.

Fixpoint works_of (works : list json) : result (list work) :=
  match works with
  | [] => mret []
  | w :: rest =>
      s ← dict_get w "start_date" JNull;
      e ← dict_get w "end_date" JNull;
      n ← dict_get w "name" JNull;
      f ← dict_get w "fact_end_date" JNull;
      ws ← works_of rest;
      mret ({| work_start_date := s; work_end_date := e; work_name := n;
               work_fact_end_date := f |} :: ws)
  end.

(** [get_works(suid_url)], from the reply to its POST. *)
Definition get_works (rs : response) : list work :=
  if negb (status_code rs =? 200) then []
  else
    match (data ← match json_body rs with Some d => Ok d | None => Raise JSONDecodeError end;
           works ← dict_get data "works" (JArr []);
           works ← iter works;
           works_of works) with
    | Ok ws => ws
    | Raise _ => []
    end.

Inductive comparison : Type :=
| Matched (d : ledger_dates)
| WorkNotFound
| Untouched.

Section Matching.

(** [str.lower] *)
Variable lower : string → string.

(** [v.lower()] *)
Definition lower_of (v : json) : result string :=
  match v with
  | JStr s => Ok (lower s)
  | _ => Raise AttributeError
  end.

(** The loop that fills [works_dict] from the works of an object. *)
Fixpoint works_dict (works : list work) (d : gmap string ledger_dates)
    : result (gmap string ledger_dates) :=
  match works with
  | [] => mret d
  | w :: rest =>
      name_lower ← lower_of (work_name w);
      works_dict rest
        (<[name_lower := {| end_date := work_end_date w;
                            start_date := work_start_date w;
                            fact_end_date_suid := work_fact_end_date w |}]> d)
  end.

(** One turn of the matching loop, for the row of a control point [name]
    of [object_id]. *)
Definition match_row (suid_works_cache : gmap key (gmap string ledger_dates))
    (object_id : key) (name : json) : result comparison :=
  match suid_works_cache !! object_id with
  | Some d =>
      if truthy name then
        name_lower ← lower_of name;
        match d !! name_lower with
        | Some dates => mret (Matched dates)
        | None => mret WorkNotFound
        end
      else mret Untouched
  | None => mret Untouched
  end.

End Matching.

(** *** The link to the ledger and the rows sent to it *)

(** [s.rstrip(c)] for a single character *)
Fixpoint rstrip_char (c : ascii) (s : string) : string :=
  match s with
  | EmptyString => ""
  | String a rest =>
      match rstrip_char c rest with
      | EmptyString => if Ascii.eqb a c then "" else String a ""
      | r => String a r
      end
  end.

(** [suid_url.rstrip("/").split("/")[-1]] *)
Definition uuid_of (suid_url : string) : string :=
  List.last (split "/" (rstrip_char "/" suid_url)) "".

(** The first lines of [get_works(suid_url)]: the address it posts to. The
    link is a cell of the frame, a string or a missing value, and only a
    string has [rstrip]. *)
Definition works_url (suid_url : option string) : result string :=
  match suid_url with
  | Some s => Ok ("https://suid.mos.ru/api/isr-new-service/common/" +:+ uuid_of s +:+ "/all")
  | None => Raise AttributeError
  end.

(** The column [control_point_comparsion] as first filled:
    ["объект exon" if pd.notna(x) and "exonproject" in str(x) else None] *)
Definition control_point_comparsion (suid_url : option string) : option string :=
  match suid_url with
  | Some s => if str_contains "exonproject" s then Some "объект exon" else None
  | None => None
  end.

(** The filter that makes [to_process]: no comparison yet, a status other
    than [no_control_points], and overdue. *)
Definition to_process (r : frame_row) (suid_url : option string) : bool :=
  match control_point_comparsion suid_url with None => true | Some _ => false end
  && negb (String.eqb (status r) "no_control_points")
  && is_exceeded r.

(** *** Filling the cache of the ledger *)

Section Ledger.

(** [str.lower], and the reply of the ledger to the POST at an address,
    given how many it received before. *)
Variable lower : string → string.
Variable suid : nat → string → response.


End Ledger.

(** *** The additional control points *)

Section Additional.

(** [str.lower] and [datetime.now().date()] *)
Variable lower : string → string.
Variable now : date.

(** [{work["name"].lower(): work for work in works}] *)
Fixpoint works_by_name (works : list work) (d : gmap string work)
    : result (gmap string work) :=
  match works with
  | [] => mret d
  | w :: rest =>
      name_lower ← lower_of lower (work_name w);
      works_by_name rest (<[name_lower := w]> d)
  end.

(** The row of an additional point of an object; [project_manager] and
    [developer] are read from the first row of the object in the frame. *)
Definition additional_row (object_id object_name suid_url project_manager
    developer : json) (cp_name : string) (found : bool)
    (suid_start suid_end fact_end_date_suid : json) : row :=
  [("object_id", Val object_id); ("object_name", Val object_name);
   ("status", Val (JStr "additional_check")); ("name", Val (JStr cp_name));
   ("project_manager", Val project_manager); ("developer", Val developer);
   ("plan_finish_date", Val JNull); ("fact_finish_date", Val JNull);
   ("suid_start", Val suid_start); ("suid_end", Val suid_end);
   ("fact_end_date_suid", Val fact_end_date_suid);
   ("found_in_suid", Val (JBool found)); ("today", DateVal now);
   ("suid_url", Val suid_url);
   ("control_point_comparsion",
    Val (JStr (if found then "дополнительная точка" else "не найдена в СУИД")));
   ("etapi_url", Val (JStr ("https://dashboard-stroi.mos.ru/etapi/" +:+ py_str object_id)));
   ("dashboard_url",
    Val (JStr ("https://dashboard-stroi.mos.ru/dashboard/" +:+ py_str object_id)))].

(** The loop over [control_points_list] for one object. [work] is the
    variable of the script of that name: bound by the earlier loop over the
    works of the ledger and by every point found, read by every point not
    found; unbound, reading it raises [NameError], here the exception with
    its message. *)
Fixpoint additional_checks (object_id object_name suid_url project_manager
    developer : json) (works_dict : gmap string work)
    (control_points_list : list string) (work : option work)
    (additional_data : list row) : result (list row * option ControlPoints.work) :=
  match control_points_list with
  | [] => mret (additional_data, work)
  | cp_name :: rest =>
      match works_dict !! cp_name with
      | Some w =>
          additional_checks object_id object_name suid_url project_manager developer
            works_dict rest (Some w)
            (additional_data
             ++ [additional_row object_id object_name suid_url project_manager
                   developer cp_name true (work_start_date w) (work_end_date w)
                   (work_fact_end_date w)])%list
      | None =>
          match work with
          | Some w =>
              additional_checks object_id object_name suid_url project_manager
                developer works_dict rest work
                (additional_data
                 ++ [additional_row object_id object_name suid_url project_manager
                       developer cp_name false JNull JNull (work_fact_end_date w)])%list
          | None => Raise (Exception "name 'work' is not defined")
          end
      end
  end.

End Additional.

End ControlPoints.

(** ** [check_photos.py] *)

Module CheckPhotos.

(** [dates.add(date_only)] for every photo whose [taken_at] is true:
    the text before the first white space when there is a space in it. *)
Fixpoint photo_dates (photos : list json) (dates : gset string) : result (gset string) :=
  match photos with
  | [] => mret dates
  | photo :: rest =>
      taken_at ← dict_get photo "taken_at" JNull;
      if truthy taken_at then
        match taken_at with
        | JStr s =>
            date_only ← (if str_contains " " s then first_word s else Ok s);
            photo_dates rest ({[date_only]} ∪ dates)
        | _ =>
            has ← py_in " " taken_at;
            if has : bool then Raise AttributeError else Raise TypeError
        end
      else photo_dates rest dates
  end.

(** [sorted(dates, reverse=True)], by insertion. *)
Fixpoint insert_desc (d : string) (l : list string) : list string :=
  match l with
  | [] => [d]
  | x :: rest => if String.leb x d then d :: l else x :: insert_desc d rest
  end.

Definition sorted_desc (l : list string) : list string :=
  foldr insert_desc [] l.

(** [[p for p in photos if p.get("taken_at", "").startswith(d)]] *)
Fixpoint photos_of_date (d : string) (photos : list json) : result (list json) :=
  match photos with
  | [] => mret []
  | p :: rest =>
      taken_at ← dict_get p "taken_at" (JStr "");
      match taken_at with
      | JStr s =>
          ps ← photos_of_date d rest;
          mret (if startswith s d then p :: ps else ps)
      | _ => Raise AttributeError
      end
  end.

Definition no_photos : string := "нет фотографий".
Definition match_present : string := "есть совпадение".
Definition photos_ok : string := "фото в порядке".

(** Where the [try] block of [get_photo_status] stands once [yesterday] is
    assigned, or what it returned before. *)
Inductive progress : Type :=
| Returned (status : string) (flag : bool)
| Dated (photos : list json) (base_photo_url object_uin : json)
        (last_two_dates : list string) (yesterday : bool).

Section Upstream.

Variable server : upstream.

(** [hashlib.md5(content).hexdigest()] *)
Variable md5 : string → string.

(** [(datetime.now().date() - timedelta(days=1)).strftime("%Y-%m-%d")] *)
Variable yesterday_str : string.

(** [get_photo_hash(photo_url, base_photo_url, object_uin, date)] *)
Definition get_photo_hash (photo_url base_photo_url object_uin : json)
    (date : string) : M (option string) :=
  if negb (truthy photo_url) || negb (truthy base_photo_url)
     || negb (truthy object_uin) || negb (truthy (JStr date))
  then mret None
  else
    let full_url := py_str base_photo_url +:+ py_str object_uin +:+ "/" +:+ date
                    +:+ "/" +:+ py_str photo_url in
    try_except
      (rs ← send server {| req_method := "GET"; req_url := full_url; req_headers := ∅;
                           req_params := []; req_data := [] |};
       if status_code rs =? 200 then mret (Some (md5 (content rs))) else mret None)
      (λ _, mret None).

(** The hashes of the photos of the newer date. *)
Fixpoint hashes_of (base_photo_url object_uin : json) (date : string)
    (photos : list json) (hashes : gset string) : M (gset string) :=
  match photos with
  | [] => mret hashes
  | photo :: rest =>
      photo_url ← lift (dict_get photo "photo_url" JNull);
      photo_hash ← get_photo_hash photo_url base_photo_url object_uin date;
      hashes_of base_photo_url object_uin date rest
        (match photo_hash with
         | Some h => if truthy_str photo_hash then {[h]} ∪ hashes else hashes
         | None => hashes
         end)
  end.

(** The loop over the photos of the older date: whether one of them has a
    hash of the newer date; it stops at the first. *)
Fixpoint find_duplicate (base_photo_url object_uin : json) (date : string)
    (photos : list json) (hashes_date1 : gset string) : M bool :=
  match photos with
  | [] => mret false
  | photo :: rest =>
      photo_url ← lift (dict_get photo "photo_url" JNull);
      photo_hash ← get_photo_hash photo_url base_photo_url object_uin date;
      match photo_hash with
      | Some h =>
          if truthy_str photo_hash && bool_decide (h ∈ hashes_date1) then mret true
          else find_duplicate base_photo_url object_uin date rest hashes_date1
      | None => find_duplicate base_photo_url object_uin date rest hashes_date1
      end
  end.

(** The [try] block up to the assignment of [yesterday]. *)
Definition read_photos (rs : response) : M progress :=
  data ← response_json rs;
  photos ← lift (dict_get data "photos" (JArr []));
  if negb (truthy photos) then mret (Returned no_photos false)
  else
    base_photo_url ← lift (dict_get data "basePhotoUrl" (JStr ""));
    obj ← lift (dict_get data "object" (JObj []));
    object_uin ← lift (dict_get obj "uin" (JStr ""));
    photos ← lift (iter photos);
    dates ← lift (photo_dates photos ∅);
    let sorted_dates := sorted_desc (elements dates) in
    let last_two_dates := take 2 sorted_dates in
    let yesterday := bool_decide (yesterday_str ∈ last_two_dates) in
    mret (Dated photos base_photo_url object_uin last_two_dates yesterday).

(** The rest of the [try] block. *)
Definition compare_photos (photos : list json) (base_photo_url object_uin : json)
    (last_two_dates : list string) (yesterday : bool) : M (string * bool) :=
  match last_two_dates with
  | d0 :: d1 :: _ =>
      if negb (String.eqb d0 d1) then
        photos_date1 ← lift (photos_of_date d0 photos);
        photos_date2 ← lift (photos_of_date d1 photos);
        hashes_date1 ← hashes_of base_photo_url object_uin d0 photos_date1 ∅;
        duplicate ← find_duplicate base_photo_url object_uin d1 photos_date2 hashes_date1;
        if duplicate : bool then mret (match_present, yesterday)
        else mret (photos_ok, yesterday)
      else mret (match_present, yesterday)
  | _ => mret (match_present, yesterday)
  end.

(** [get_photo_status(object_id)]. The handler of the [try] block returns
    [yesterday]: reached before the assignment, it raises in its turn. *)
Definition get_photo_status (object_id : json) : M (string * bool) :=
  rs ← get server ("/api/dashboard/" +:+ py_str object_id) ∅ [];
  if negb (status_code rs =? 200) then mret (no_photos, false)
  else
    p ← try_except (read_photos rs) (λ _, raise UnboundLocalError);
    match p with
    | Returned status flag => mret (status, flag)
    | Dated photos base_photo_url object_uin last_two_dates yesterday =>
        try_except
          (compare_photos photos base_photo_url object_uin last_two_dates yesterday)
          (λ _, mret (no_photos, yesterday))
    end.

End Upstream.
End CheckPhotos.

(** ** Notions of the statements *)

Section Exchanges.

Variable server : upstream.

(** The request [get] and [post] send from a world. *)
Definition request_of (meth accept path : string) (headers : gmap string string)
    (params data : list (string * string)) (w : world) : request :=
  {| req_method := meth; req_url := resolve path;
     req_headers := with_defaults accept (with_tokens (token w) (xsrf_token w) headers);
     req_params := params; req_data := data |}.

(** The request of [get(path)]. *)
Definition get_request (path : string) (w : world) : request :=
  request_of "GET" "application/json, text/html, */*" path ∅ [] [] w.

(** The reply the next request of a world receives, when it is
    answered. *)
Definition reply_to (rq : request) (w : world) : response :=
  server (length (sent w)) rq.

(** The next request of a world is answered: the session takes its URL
    and does not raise. *)
Definition answered (rq : request) (w : world) : Prop :=
  exchange_error server rq w = None.

(** The world after an exchange that was answered. *)
Definition after (rq : request) (w : world) : world :=
  {| token := token w; xsrf_token := xsrf_token w;
     cookies := store_cookies (set_cookies (reply_to rq w)) (cookies w);
     sent := rq :: sent w; slept := slept w |}.

(** The world after an exchange that the session ended with an
    exception. *)
Definition attempted (rq : request) (w : world) : world :=
  {| token := token w; xsrf_token := xsrf_token w; cookies := cookies w;
     sent := rq :: sent w; slept := slept w |}.

(** The request of [get("/api/dashboard/{object_id}")]. *)
Definition dashboard_request (object_id : json) (w : world) : request :=
  get_request ("/api/dashboard/" +:+ py_str object_id) w.

(** The reply to [get("/api/dashboard/{object_id}")]. *)
Definition dashboard_reply (object_id : json) (w : world) : response :=
  reply_to (get_request ("/api/dashboard/" +:+ py_str object_id) w) w.

(** The three exchanges of [authorize] are answered. *)
Definition signing_in_answered (login password : string) (w : world) : Prop :=
  answered sudir_request w
  ∧ answered accounts_request (after sudir_request w)
  ∧ answered (password_request login password)
      (after accounts_request (after sudir_request w)).

(** The world once the three exchanges of [authorize] are over, and the
    reply to the last one, whose URL is the final redirect URL. *)
Definition login_world (login password : string) (w : world) : world :=
  after (password_request login password)
    (after accounts_request (after sudir_request w)).

Definition login_response (login password : string) (w : world) : response :=
  reply_to (password_request login password)
    (after accounts_request (after sudir_request w)).

(** What [get_etapi_data] makes of a reply: the decoded document, [None]
    when the status is not 200 or the body is not JSON. *)
Definition etapi_value (rs : response) : json :=
  if status_code rs =? 200 then default JNull (json_body rs) else JNull.

(** The request of [get_etapi_data]. *)
Definition etapi_request (object_id : json) (w : world) : request :=
  get_request ("/api/etapi/" +:+ py_str object_id) w.

(** What the ([k]+1)-th fetch of the control points of an object gives,
    counted from the world [w] on. *)
Definition etapi_fetch (object_id : json) (w : world) (k : nat) : json :=
  etapi_value (server (length (sent w) + k)%nat (etapi_request object_id w)).

(** The ([k]+1)-th fetch of the control points of an object, counted from
    the world [w] on, is answered: the session does not raise on it. *)
Definition etapi_answered (object_id : json) (w : world) (k : nat) : Prop :=
  failure server (length (sent w) + k)%nat (etapi_request object_id w) = None.

(** The world after [time.sleep]. *)
Definition asleep (ms : Z) (w : world) : world :=
  {| token := token w; xsrf_token := xsrf_token w; cookies := cookies w;
     sent := sent w; slept := ms :: slept w |}.

(** The value of the parameter [name] as the query string writes it: the
    text after [=] in the first [name=value] piece, between two [&], that
    gives [name] a value that is not empty. *)
Definition raw_param (name qs : string) : option string :=
  head (flat_map
          (λ piece,
            match partition "=" piece with
            | (n, Some value) =>
                if String.eqb (unquote_plus n) name && negb (String.eqb value "")
                then [value] else []
            | (_, None) => []
            end)
          (split "&" qs)).

(** The final redirect URL. *)
Definition final_url (login password : string) (w : world) : string :=
  url (login_response login password w).

(** The client once [authorize] has stored the token, and once it has
    stored what it found in the jar, which held at most one cookie named
    [XSRF-TOKEN]. *)
Definition token_stored (login password : string) (w : world) (tp : string) : world :=
  let w3 := login_world login password w in
  {| token := Some (unquote tp); xsrf_token := xsrf_token w;
     cookies := cookies w3; sent := sent w3; slept := slept w3 |}.

Definition signed_in (login password : string) (w : world) (tp : string) : world :=
  let w3 := login_world login password w in
  {| token := Some (unquote tp);
     xsrf_token := match cookies_named "XSRF-TOKEN" (cookies w3) with
                   | [x] => if String.eqb x "" then xsrf_token w
                            else Some (unquote_plus x)
                   | _ => xsrf_token w
                   end;
     cookies := cookies w3; sent := sent w3; slept := slept w3 |}.

(** The request [Cameras.get_catalog_objects] sends. *)
Definition catalog_request (name : option string) (w : world) : request :=
  request_of "GET" "application/json, text/html, */*" "/api/catalog" ∅
    (match name with
     | Some n => if truthy_str name then [("oksStatusArrayName", n)] else []
     | None => []
     end) [] w.

(** What a request carries for a caller who passed [headers], from the
    world [w]: the bearer and the token against forgery when the client
    holds them, the caller's entries otherwise; the caller's [Accept] and
    [X-Requested-With] when given, the defaults otherwise. *)
Definition carries (accept : string) (headers : gmap string string) (w : world)
    (rq : request) : Prop :=
  req_headers rq !! "Authorization"
  = (if truthy_str (token w) then (λ t, "Bearer " +:+ t) <$> token w
     else headers !! "Authorization")
  ∧ req_headers rq !! "X-XSRF-TOKEN"
    = (if truthy_str (xsrf_token w) then xsrf_token w else headers !! "X-XSRF-TOKEN")
  ∧ req_headers rq !! "Accept" = Some (default accept (headers !! "Accept"))
  ∧ req_headers rq !! "X-Requested-With"
    = Some (default "XMLHttpRequest" (headers !! "X-Requested-With"))
  ∧ ∀ k, k ∉ ["Authorization"; "X-XSRF-TOKEN"; "Accept"; "X-Requested-With"] →
         req_headers rq !! k = headers !! k.

(** The application the client signs in to. *)
Definition domain : string := "dashboard-stroi.mos.ru".

End Exchanges.

(** [a] occurs in [s]. *)
Definition occurs (a s : string) : Prop := ∃ pre post, s = pre +:+ (a +:+ post).

(** ** Upstream behaviours of the examples *)

(** A reply that carries a status and a body only. *)
Definition reply (status : Z) (body : option json) : response :=
  {| status_code := status; url := ""; json_body := body; content := "";
     set_cookies := [] |}.

(** Every request is refused. *)
Definition server_down : upstream :=
  reliable (λ _ _, reply 500 None).

(** Every request is answered with a page that is not JSON. *)
Definition server_html : upstream :=
  reliable (λ _ _, reply 200 None).

(** The catalog lists the objects 1 and 2; the dashboard of 1 is refused,
    the one of 2 is served. *)
Definition server_one_down : upstream :=
  reliable
    (λ _ rq,
       if String.eqb (req_url rq) "https://dashboard-stroi.mos.ru/api/catalog" then
         reply 200 (Some (JObj [("objects",
           JObj [("data", JArr [JObj [("id", JNum 1)]; JObj [("id", JNum 2)]])])]))
       else if String.eqb (req_url rq) "https://dashboard-stroi.mos.ru/api/dashboard/2" then
         reply 200 (Some (JObj [("object", JObj [("id", JNum 2)]);
                                ("constructionStagesData",
                                 JArr [JObj [("view_name", JStr "stage")]])]))
       else reply 500 None).

(** The sign-in ends on the application, with a token in the URL and the
    cookie set. *)
Definition server_sso : upstream :=
  reliable
    (λ _ rq,
       if String.eqb (req_url rq) "https://sudir.mos.ru/blitz/login/methods/password"
          && String.eqb (req_method rq) "POST"
       then {| status_code := 200;
               url := "https://dashboard-stroi.mos.ru/oauth/login-internal?token=abc%2Fdef";
               json_body := None; content := "";
               set_cookies :=
                 [{| cookie_domain := "dashboard-stroi.mos.ru"; cookie_path := "/";
                     cookie_name := "XSRF-TOKEN"; cookie_value := "x%3D+y" |}] |}
       else reply 200 None).

(** The sign-in ends on another host, whose URL names the application in
    its query and carries a token. *)
Definition server_elsewhere : upstream :=
  reliable
    (λ _ rq,
       if String.eqb (req_url rq) "https://sudir.mos.ru/blitz/login/methods/password"
          && String.eqb (req_method rq) "POST"
       then {| status_code := 200;
               url := "https://sudir.mos.ru/blitz/login?client_id=dashboard-stroi.mos.ru&token=abc";
               json_body := None; content := ""; set_cookies := [] |}
       else reply 200 None).

(** The control points of object 7 are refused twice, then served: one
    point in progress. Everything else is refused. *)
Definition etapi_document : json :=
  JObj [("control_points",
         JObj [("in_progress",
                JObj [("data", JArr [JObj [("name", JStr "Foundation Pour");
                                           ("plan_finish_date", JStr "2024-01-10")]])])])].

Definition server_flaky : upstream :=
  reliable
    (λ n rq,
       if String.eqb (req_url rq) "https://dashboard-stroi.mos.ru/api/etapi/7"
          && (2 <=? n)%nat
       then reply 200 (Some etapi_document)
       else reply 500 None).

Definition object_7 : json := JObj [("id", JNum 7); ("name", JStr "School")].

(** [s.strip()]: [s] without the white space at its ends. *)
Fixpoint rstrip (s : string) : string :=
  match s with
  | EmptyString => ""
  | String c rest => if String.eqb (lstrip s) "" then "" else String c (rstrip rest)
  end.

Definition strip (s : string) : string := rstrip (lstrip s).

(** A work of the ledger that has a name and no dates. *)
Definition work_named (n : string) : ControlPoints.work :=
  {| ControlPoints.work_start_date := JNull; ControlPoints.work_end_date := JNull;
     ControlPoints.work_name := JStr n; ControlPoints.work_fact_end_date := JNull |}.

Definition no_dates : ControlPoints.ledger_dates :=
  {| ControlPoints.end_date := JNull; ControlPoints.start_date := JNull;
     ControlPoints.fact_end_date_suid := JNull |}.

(** The cache of the ledger when the works of object 7 are one work named
    [n], lowercase already. *)
Definition ledger_of (n : string) : gmap string ControlPoints.ledger_dates :=
  {[n := no_dates]}.

Definition cache_of (n : string) : gmap key (gmap string ControlPoints.ledger_dates) :=
  {[KNum 7 := ledger_of n]}.

(** A photo record whose capture time can be read: a dict whose [taken_at]
    is absent or a string, not made of white space only when there is a
    space in it. *)
Definition well_timed (photo : json) : bool :=
  match photo with
  | JObj kvs =>
      match assoc "taken_at" kvs with
      | None => true
      | Some (JStr t) => negb (str_contains " " t) || negb (String.eqb (lstrip t) "")
      | Some _ => false
      end
  | _ => false
  end.

(** A photo record whose capture time the first loop of
    [get_photo_status] reads: a dict whose [taken_at] is absent, false
    ([null], an empty string, 0, ...), or a string, not made of white space
    only when there is a space in it. *)
Definition capture_time_read (photo : json) : bool :=
  match photo with
  | JObj kvs =>
      match assoc "taken_at" kvs with
      | None => true
      | Some (JStr t) => negb (str_contains " " t) || negb (String.eqb (lstrip t) "")
      | Some v => negb (truthy v)
      end
  | _ => false
  end.

(** The date of a photo record whose capture time is a string that is not
    empty: the capture time itself, or its first word when there is a
    space in it. *)
Definition capture_date (photo : json) : option string :=
  match photo with
  | JObj kvs =>
      match assoc "taken_at" kvs with
      | Some (JStr t) =>
          if String.eqb t "" then None
          else Some (if str_contains " " t then take_word (lstrip t) else t)
      | _ => None
      end
  | _ => None
  end.

Definition capture_dates (photos : list json) : gset string :=
  list_to_set (omap capture_date photos).

(** A date is one of the two latest of a set: it is in the set, and at
    most one date of the set is later. *)
Definition among_two_latest (d : string) (dates : gset string) : Prop :=
  d ∈ dates
  ∧ ∀ a b, a ∈ dates → b ∈ dates →
           String.le d a → a ≠ d → String.le d b → b ≠ d → a = b.

(** The dashboard of object 7 shows the given photos; the photo server
    has three files: [a.jpg] and [c.jpg] hold the same frame. *)
Definition photo (taken_at photo_url : string) : json :=
  JObj [("taken_at", JStr taken_at); ("photo_url", JStr photo_url)].

Definition photo_document (photos : list json) : list (string * json) :=
  [("object", JObj [("uin", JStr "U7")]);
   ("basePhotoUrl", JStr "https://photo.example/");
   ("photos", JArr photos)].

Definition frame (body : string) : response :=
  {| status_code := 200; url := ""; json_body := None; content := body;
     set_cookies := [] |}.

Definition server_photos (photos : list json) : upstream :=
  reliable
    (λ _ rq,
       if String.eqb (req_url rq) "https://dashboard-stroi.mos.ru/api/dashboard/7" then
         reply 200 (Some (JObj (photo_document photos)))
       else if String.eqb (req_url rq) "https://photo.example/U7/2024-05-02/a.jpg" then
         frame "frame 1"
       else if String.eqb (req_url rq) "https://photo.example/U7/2024-05-01/b.jpg" then
         frame "frame 2"
       else if String.eqb (req_url rq) "https://photo.example/U7/2024-05-01/c.jpg" then
         frame "frame 1"
       else reply 404 None).

(** A stand-in for the digest in the examples. *)
Definition digest (body : string) : string := "md5 of " +:+ body.

Definition fresh_photos : list json :=
  [photo "2024-05-02 09:00:00" "a.jpg"; photo "2024-05-01 09:00:00" "b.jpg"].

Definition stale_photos : list json :=
  [photo "2024-05-02 09:00:00" "a.jpg"; photo "2024-05-01 09:00:00" "c.jpg"].

(** The fresh photos and a record whose capture time is [null]. *)
Definition untimed_photos : list json :=
  (fresh_photos ++ [JObj [("taken_at", JNull); ("photo_url", JStr "d.jpg")]])%list.

(** A client that holds both tokens, and the headers of a caller who asks
    for CSV. *)
Definition bearer_world : world :=
  {| token := Some "abc"; xsrf_token := Some "x= y"; cookies := ∅; sent := [];
     slept := [] |}.

Definition accept_csv : gmap string string := {[ "Accept" := "text/csv" ]}.

(** The sign-in ends on the application; the token in the URL is encoded
    twice. *)
Definition server_sso_twice : upstream :=
  reliable
    (λ _ rq,
       if String.eqb (req_url rq) "https://sudir.mos.ru/blitz/login/methods/password"
          && String.eqb (req_method rq) "POST"
       then {| status_code := 200;
               url := "https://dashboard-stroi.mos.ru/oauth/login-internal?token=a%2541";
               json_body := None; content := ""; set_cookies := [] |}
       else reply 200 None).

Definition two_dates : gset string := {[ "2024-05-02"; "2024-05-01" ]}.

(** A string of ASCII characters only. *)
Fixpoint ascii_only (s : string) : bool :=
  match s with
  | EmptyString => true
  | String c rest => (nat_of_ascii c <? 128)%nat && ascii_only rest
  end.

(** The reply that ends a sign-in: the final URL and the cookies set on
    the way. *)
Definition signed (final : string) (cs : list cookie) : nat → request → response :=
  λ _ rq,
    if String.eqb (req_url rq) "https://sudir.mos.ru/blitz/login/methods/password"
       && String.eqb (req_method rq) "POST"
    then {| status_code := 200; url := final; json_body := None; content := "";
            set_cookies := cs |}
    else reply 200 None.

(** The sign-in ends on the application, whose host is written in upper
    case. *)
Definition server_shouting : upstream :=
  reliable (signed "https://DASHBOARD-STROI.MOS.RU/oauth/login-internal?token=abc" []).

(** The sign-in ends on the application; the token has a plus sign. *)
Definition server_plus : upstream :=
  reliable (signed "https://dashboard-stroi.mos.ru/oauth/login-internal?token=a+b" []).

(** The sign-in ends on the application; the identity provider and the
    application both set a cookie [XSRF-TOKEN]. *)
Definition server_two_cookies : upstream :=
  reliable
    (signed "https://dashboard-stroi.mos.ru/oauth/login-internal?token=abc"
       [{| cookie_domain := "sudir.mos.ru"; cookie_path := "/";
           cookie_name := "XSRF-TOKEN"; cookie_value := "one" |};
        {| cookie_domain := "dashboard-stroi.mos.ru"; cookie_path := "/";
           cookie_name := "XSRF-TOKEN"; cookie_value := "two" |}]).

(** The connection fails on the first two requests; from the third on the
    control points of object 7 are served. *)
Definition server_offline_twice : upstream :=
  {| answer := λ _ _, reply 200 (Some etapi_document);
     failure := λ n _, if (n <? 2)%nat then Some ConnectionError else None |}.

(** The connection fails on every request. *)
Definition server_offline : upstream :=
  {| answer := λ _ _, reply 500 None; failure := λ _ _, Some ConnectionError |}.

(** The value of a column in a row. *)
Fixpoint assoc_cell (k : string) (r : ControlPoints.row) : option ControlPoints.cell :=
  match r with
  | [] => None
  | (k', v) :: rest => if String.eqb k k' then Some v else assoc_cell k rest
  end.

(** The order of [datetime.date]. *)
Definition date_le (a b : date) : Prop :=
  year a < year b
  ∨ (year a = year b ∧ (month a < month b ∨ (month a = month b ∧ day a ≤ day b))).

(** What [get_catalog_objects_info] keeps of an object of the catalog. *)
Definition info_of (obj : json) : option json :=
  match obj with
  | JObj kvs =>
      match assoc "id" kvs, assoc "name" kvs, assoc "uin" kvs with
      | Some i, Some n, Some u => Some (JObj [("id", i); ("name", n); ("uin", u)])
      | _, _, _ => None
      end
  | _ => None
  end.

(** The [id] of an object of the catalog. *)
Definition id_of (obj : json) : option json :=
  match obj with
  | JObj kvs => assoc "id" kvs
  | _ => None
  end.

(** The columns of a row of [plan_fact_parser.py]. *)
Definition plan_fact_columns : list string :=
  ["id"; "name"; "uin"; "view_name"; "fact"; "plan"; "fact_delta_week";
   "fact_delta_month"; "plan_delta_week"; "plan_delta_month"; "link"].

(** The catalog of the examples, and a server that serves it and refuses
    every dashboard. *)
Definition catalog_objects : list json :=
  [JObj [("id", JNum 1); ("name", JStr "School"); ("uin", JStr "U1")];
   JObj [("id", JNum 2); ("name", JStr "Clinic")];
   JObj [("id", JNum 3); ("name", JStr "Bridge"); ("uin", JStr "U3")]].

Definition server_catalog_only : upstream :=
  reliable
    (λ _ rq,
       if String.eqb (req_url rq) "https://dashboard-stroi.mos.ru/api/catalog" then
         reply 200 (Some (JObj [("objects", JObj [("data", JArr catalog_objects)])]))
       else reply 500 None).

(** The row of [plan_fact_parser.py] is a row of the object: it has the
    columns of the report, the identity of the object and the link to its
    dashboard. *)
Definition row_of_object (obj_id obj_name obj_uin : json) (r : PlanFact.row) : Prop :=
  map fst r = plan_fact_columns
  ∧ assoc "id" r = Some obj_id ∧ assoc "name" r = Some obj_name
  ∧ assoc "uin" r = Some obj_uin ∧ assoc "link" r = Some (PlanFact.link obj_id).

(** A dashboard document with two stages, the first with three children of
    which one has both keys. *)
Definition stages_document : json :=
  JObj [("object", JObj [("id", JNum 2); ("name", JStr "Clinic"); ("uin", JStr "U2")]);
        ("constructionStagesData",
         JArr [JObj [("view_name", JStr "walls");
                     ("oiv", JObj [("fact", JNum 40); ("plan", JNum 50)]);
                     ("children",
                      JArr [JObj [("view_name", JStr "north"); ("fact_oiv", JNum 10)];
                            JObj [("view_name", JStr "south")];
                            JStr "east"])];
               JObj [("view_name", JStr "roof")]])].

(** Every dashboard is served, with that document. *)
Definition server_stages : upstream :=
  reliable (λ _ _, reply 200 (Some stages_document)).

(** A listed work and the dict [get_works] makes of it: each of the four
    fields is what [.get] reads. *)
Definition listed_as (j : json) (w : ControlPoints.work) : Prop :=
  dict_get j "start_date" JNull = Ok (ControlPoints.work_start_date w)
  ∧ dict_get j "end_date" JNull = Ok (ControlPoints.work_end_date w)
  ∧ dict_get j "name" JNull = Ok (ControlPoints.work_name w)
  ∧ dict_get j "fact_end_date" JNull = Ok (ControlPoints.work_fact_end_date w).

(** The dates [works_dict] keeps of a work. *)
Definition dates_of (w : ControlPoints.work) : ControlPoints.ledger_dates :=
  {| ControlPoints.end_date := ControlPoints.work_end_date w;
     ControlPoints.start_date := ControlPoints.work_start_date w;
     ControlPoints.fact_end_date_suid := ControlPoints.work_fact_end_date w |}.

(** A run of [k] slashes. *)
Fixpoint slashes (k : nat) : string :=
  match k with
  | O => ""
  | S k => String "/" (slashes k)
  end.

(** The work the variable [work] of the script is bound to once the points
    [cps] were looked up: the one of the latest point found, the earlier
    binding when none was. *)
Definition work_in_scope (works_dict : gmap string ControlPoints.work)
    (work : option ControlPoints.work) (cps : list string) : option ControlPoints.work :=
  foldl (λ w cp, match works_dict !! cp with Some w' => Some w' | None => w end) work cps.

(** A work of the ledger with a name and the date it was finished. *)
Definition work_finished (n f : string) : ControlPoints.work :=
  {| ControlPoints.work_start_date := JNull; ControlPoints.work_end_date := JNull;
     ControlPoints.work_name := JStr n; ControlPoints.work_fact_end_date := JStr f |}.

(** A reply of the ledger that lists the given works. *)
Definition ledger_reply (works : list json) : response :=
  reply 200 (Some (JObj [("works", JArr works)])).

(** An overdue control point in progress. *)
Definition overdue_row : ControlPoints.frame_row :=
  {| ControlPoints.status := "in_progress";
     ControlPoints.plan_finish_date := Some (Date 2024 1 10);
     ControlPoints.fact_finish_date := None;
     ControlPoints.today := Date 2024 2 1 |}.

(** What every row of an object carries. *)
Definition row_carries (now : date) (object_id manager : json) (status : string)
    (suid_url : json) (r : ControlPoints.row) : Prop :=
  assoc_cell "object_id" r = Some (ControlPoints.Val object_id)
  ∧ assoc_cell "project_manager" r = Some (ControlPoints.Val manager)
  ∧ assoc_cell "today" r = Some (ControlPoints.DateVal now)
  ∧ assoc_cell "status" r = Some (ControlPoints.Val (JStr status))
  ∧ assoc_cell "suid_url" r = Some (ControlPoints.Val suid_url).

(** The dashboard of an object is served to the first request; every
    request after it is refused. *)
Definition server_photos_once (photos : list json) : upstream :=
  reliable
    (λ n _, match n with
            | O => reply 200 (Some (JObj (photo_document photos)))
            | S _ => reply 404 None
            end).

(** A ledger with one work, and the loop over the additional points of
    object 7 in it. *)
Definition roof_ledger : gmap string ControlPoints.work :=
  {[ "roof" := work_finished "roof" "2024-03-01" ]}.

Definition roof_checks (cps : list string) (work : option ControlPoints.work)
    : result (list ControlPoints.row * option ControlPoints.work) :=
  ControlPoints.additional_checks (Date 2024 2 1) (JNum 7) (JStr "School")
    (JStr "https://suid.mos.ru/ksg/4f2a") JNull JNull roof_ledger cps work [].

(** * Properties *)

#[local] Set Warnings "-clear-no-such-hyp".

(** ** Running the monad *)

Section Run.

Variable server : upstream.

Lemma send_run rq w :
  answered server rq w →
  send server rq w = (Ok (reply_to server rq w), after server rq w).
Proof. unfold answered, send. intros ->. reflexivity. Qed.

Lemma send_raises rq w e :
  exchange_error server rq w = Some e →
  send server rq w = (Raise e, attempted rq w).
Proof. unfold send. intros ->. reflexivity. Qed.

Lemma get_send path headers params w :
  get server path headers params w
  = send server
      (request_of "GET" "application/json, text/html, */*" path headers params [] w) w.
Proof. reflexivity. Qed.

Lemma post_send path headers data w :
  post server path headers data w
  = send server (request_of "POST" "application/json" path headers [] data w) w.
Proof. reflexivity. Qed.

Lemma get_run path headers params w :
  let rq := request_of "GET" "application/json, text/html, */*" path headers params [] w in
  answered server rq w →
  get server path headers params w = (Ok (reply_to server rq w), after server rq w).
Proof. intros rq H. rewrite get_send. now apply send_run. Qed.

Lemma get_raises path headers params w e :
  exchange_error server
    (request_of "GET" "application/json, text/html, */*" path headers params [] w) w
  = Some e →
  get server path headers params w
  = (Raise e,
     attempted
       (request_of "GET" "application/json, text/html, */*" path headers params [] w) w).
Proof. intros H. rewrite get_send. now apply send_raises. Qed.

Lemma post_run path headers data w :
  let rq := request_of "POST" "application/json" path headers [] data w in
  answered server rq w →
  post server path headers data w = (Ok (reply_to server rq w), after server rq w).
Proof. intros rq H. rewrite post_send. now apply send_run. Qed.

(** The session takes every path of the application. *)
Lemma takes_url_resolve rest : takes_url (resolve (String "/" rest)) = true.
Proof. destruct rest; reflexivity. Qed.

Lemma answered_path meth accept rest headers params data w :
  answered server (request_of meth accept (String "/" rest) headers params data w) w
  ↔ failure server (length (sent w))
      (request_of meth accept (String "/" rest) headers params data w) = None.
Proof. unfold answered, exchange_error. cbn [req_url request_of]. now rewrite takes_url_resolve. Qed.

Lemma exchange_error_path meth accept rest headers params data w :
  exchange_error server
    (request_of meth accept (String "/" rest) headers params data w) w
  = failure server (length (sent w))
      (request_of meth accept (String "/" rest) headers params data w).
Proof. unfold exchange_error. cbn [req_url request_of]. now rewrite takes_url_resolve. Qed.

(** The session takes the URL of every dashboard: only the connection can
    end the exchange. *)
Lemma dashboard_exchange_error object_id w :
  exchange_error server (dashboard_request object_id w) w
  = failure server (length (sent w)) (dashboard_request object_id w).
Proof.
  unfold dashboard_request, get_request.
  change ("/api/dashboard/" +:+ py_str object_id)
    with (String "/" ("api/dashboard/" +:+ py_str object_id)).
  apply exchange_error_path.
Qed.

(** Every exchange logs its request, answered or not. *)
Lemma send_sent rq w : sent (snd (send server rq w)) = rq :: sent w.
Proof. unfold send. now destruct (exchange_error server rq w). Qed.

Lemma send_slept rq w : slept (snd (send server rq w)) = slept w.
Proof. unfold send. now destruct (exchange_error server rq w). Qed.

Lemma send_cases rq w :
  (answered server rq w
   ∧ send server rq w = (Ok (reply_to server rq w), after server rq w))
  ∨ ∃ e, exchange_error server rq w = Some e
         ∧ send server rq w = (Raise e, attempted rq w).
Proof.
  destruct (exchange_error server rq w) as [e|] eqn:He.
  - right. exists e. split; [reflexivity | now apply send_raises].
  - left. split; [exact He | now apply send_run].
Qed.

Lemma bind_run {A B : Type} (m : M A) (f : A → M B) w :
  (m ≫= f) w = match m w with
               | (Ok a, w') => f a w'
               | (Raise e, w') => (Raise e, w')
               end.
Proof. reflexivity. Qed.

Lemma lift_bind_run {A B : Type} (a : A) (f : A → M B) w :
  (lift (Ok a) ≫= f) w = f a w.
Proof. reflexivity. Qed.

Lemma mret_bind_run {A B : Type} (a : A) (f : A → M B) w :
  (mret a ≫= f) w = f a w.
Proof. reflexivity. Qed.

End Run.

Lemma bind_inv {A B : Type} (m : M A) (f : A → M B) w b w' :
  (m ≫= f) w = (Ok b, w') → ∃ a w1, m w = (Ok a, w1) ∧ f a w1 = (Ok b, w').
Proof. rewrite bind_run. destruct (m w) as [[a|e] w1]; [eauto | discriminate]. Qed.

Lemma lift_inv {A : Type} (r : result A) w a w' :
  lift r w = (Ok a, w') → r = Ok a ∧ w' = w.
Proof. unfold lift. intros [= -> ->]. auto. Qed.

(** Runs the exchange at the head of a computation. *)
Ltac run_get := rewrite bind_run, get_run by assumption; cbv beta iota zeta.
Ltac run_send := rewrite bind_run, send_run by assumption; cbv beta iota zeta.
Ltac status_200 H := rewrite H; change (200 =? 200) with true; cbv iota.

(** ** The catalog ([cameras.py]) *)

Section Catalog.

Variable server : upstream.

(** C10. When its request is answered, [get_catalog_objects] returns the
    empty list on every reply whose status is not 200; on a reply of status
    200 whose body is not JSON it raises the decoding error; [get_json], on
    such a reply, returns [None]. *)
Theorem get_catalog_objects_unguarded_decode :
  (∀ name w,
     answered server (catalog_request name w) w →
     status_code (reply_to server (catalog_request name w) w) ≠ 200 →
     fst (Cameras.get_catalog_objects server name w) = Ok (JArr []))
  ∧ (∀ name w,
       answered server (catalog_request name w) w →
       status_code (reply_to server (catalog_request name w) w) = 200 →
       json_body (reply_to server (catalog_request name w) w) = None →
       fst (Cameras.get_catalog_objects server name w) = Raise JSONDecodeError)
  ∧ (∀ path w,
       answered server (get_request path w) w →
       status_code (reply_to server (get_request path w) w) = 200 →
       json_body (reply_to server (get_request path w) w) = None →
       fst (get_json server path w) = Ok JNull).
Proof.
  split; [|split].
  - intros name w Ha Hs. unfold Cameras.get_catalog_objects. run_get.
    fold (catalog_request name w).
    apply Z.eqb_neq in Hs. rewrite Hs. reflexivity.
  - intros name w Ha Hs Hb. unfold Cameras.get_catalog_objects. run_get.
    fold (catalog_request name w). status_200 Hs.
    rewrite bind_run. unfold response_json. rewrite Hb. reflexivity.
  - intros path w Ha Hs Hb. unfold get_json. run_get.
    fold (get_request path w). status_200 Hs.
    unfold try_except, response_json. rewrite Hb. reflexivity.
Qed.

End Catalog.

Lemma get_catalog_objects_unguarded_decode_witness :
  fst (Cameras.get_catalog_objects server_down (Some "СМР") init) = Ok (JArr [])
  ∧ fst (Cameras.get_catalog_objects server_html (Some "СМР") init) = Raise JSONDecodeError
  ∧ fst (get_json server_html "/api/catalog" init) = Ok JNull.
Proof.
  split; [|split].
  - apply (proj1 (get_catalog_objects_unguarded_decode server_down));
      [reflexivity | discriminate].
  - apply (proj1 (proj2 (get_catalog_objects_unguarded_decode server_html))); reflexivity.
  - apply (proj2 (proj2 (get_catalog_objects_unguarded_decode server_html))); reflexivity.
Defined.

(** ** The manager's name ([control_points_parser.py]) *)

Section Manager.

Variable server : upstream.

(** C8 (the code departs from it). When its request is answered,
    [get_manager_name], declared [-> str], returns [None] when the status
    of the reply is not 200 and when its body does not decode; it returns
    the string "Нет данных" when the reply has status 200 and decodes to an
    object that has no [object] entry, or whose [object] has no
    [project_manager] entry, or whose [project_manager] has no [name]. *)
Theorem get_manager_name_sentinel :
  (∀ object_id w,
     answered server (dashboard_request object_id w) w →
     status_code (dashboard_reply server object_id w) ≠ 200 →
     fst (ControlPoints.get_manager_name server object_id w) = Ok JNull)
  ∧ (∀ object_id w,
       answered server (dashboard_request object_id w) w →
       status_code (dashboard_reply server object_id w) = 200 →
       json_body (dashboard_reply server object_id w) = None →
       fst (ControlPoints.get_manager_name server object_id w) = Ok JNull)
  ∧ (∀ object_id w kvs,
       answered server (dashboard_request object_id w) w →
       status_code (dashboard_reply server object_id w) = 200 →
       json_body (dashboard_reply server object_id w) = Some (JObj kvs) →
       (assoc "object" kvs = None
        ∨ ∃ obj, assoc "object" kvs = Some (JObj obj)
                 ∧ (assoc "project_manager" obj = None
                    ∨ ∃ pm, assoc "project_manager" obj = Some (JObj pm)
                            ∧ assoc "name" pm = None)) →
       fst (ControlPoints.get_manager_name server object_id w)
       = Ok (JStr "Нет данных")).
Proof.
  unfold dashboard_reply. split; [|split].
  - intros object_id w Ha Hs. unfold ControlPoints.get_manager_name. run_get.
    fold (get_request ("/api/dashboard/" +:+ py_str object_id) w).
    apply Z.eqb_neq in Hs. rewrite Hs. reflexivity.
  - intros object_id w Ha Hs Hb. unfold ControlPoints.get_manager_name. run_get.
    fold (get_request ("/api/dashboard/" +:+ py_str object_id) w). status_200 Hs.
    unfold try_except. rewrite bind_run. unfold response_json. rewrite Hb.
    reflexivity.
  - intros object_id w kvs Ha Hs Hb Habs. unfold ControlPoints.get_manager_name. run_get.
    fold (get_request ("/api/dashboard/" +:+ py_str object_id) w). status_200 Hs.
    unfold try_except. rewrite bind_run. unfold response_json. rewrite Hb.
    cbv beta iota zeta delta [mret M_ret].
    rewrite bind_run. unfold lift, dict_get.
    destruct Habs as [Ho | (obj & Ho & [Hp | (pm & Hp & Hn)])];
      rewrite Ho; cbv beta iota zeta delta [default id];
      rewrite bind_run; cbv beta iota zeta; [reflexivity| |].
    + rewrite Hp. reflexivity.
    + rewrite Hp. cbv beta iota zeta delta [default id].
      rewrite Hn. reflexivity.
Qed.

End Manager.

Lemma get_manager_name_sentinel_witness :
  fst (ControlPoints.get_manager_name server_down (JNum 1) init) = Ok JNull
  ∧ fst (ControlPoints.get_manager_name server_html (JNum 1) init) = Ok JNull
  ∧ fst (ControlPoints.get_manager_name server_one_down (JNum 2) init)
    = Ok (JStr "Нет данных").
Proof.
  split; [|split].
  - apply (proj1 (get_manager_name_sentinel server_down)); [reflexivity | discriminate].
  - apply (proj1 (proj2 (get_manager_name_sentinel server_html))); reflexivity.
  - apply (proj2 (proj2 (get_manager_name_sentinel server_one_down))
             (JNum 2) init
             [("object", JObj [("id", JNum 2)]);
              ("constructionStagesData", JArr [JObj [("view_name", JStr "stage")]])]);
      [reflexivity | reflexivity | reflexivity |].
    right. exists [("id", JNum 2)]. split; [reflexivity|]. left. reflexivity.
Defined.

(** On a refused request the function returns [None], which is not a
    string. *)
Lemma get_manager_name_returns_none :
  fst (ControlPoints.get_manager_name server_down (JNum 1) init) = Ok JNull
  ∧ ¬ (∃ s, fst (ControlPoints.get_manager_name server_down (JNum 1) init) = Ok (JStr s)).
Proof.
  split; [reflexivity|]. intros [s Hs]. discriminate Hs.
Qed.

(** ** The loop over the catalog ([plan_fact_parser.py]) *)

Section Batch.

Variable server : upstream.

Lemma plan_fact_get_dashboard_data_failed object_id w :
  answered server (dashboard_request object_id w) w →
  status_code (dashboard_reply server object_id w) ≠ 200
  ∨ json_body (dashboard_reply server object_id w) = None →
  fst (PlanFact.get_dashboard_data server object_id w) = Ok JNull.
Proof.
  unfold dashboard_reply, PlanFact.get_dashboard_data. intros Ha H. run_get.
  fold (get_request ("/api/dashboard/" +:+ py_str object_id) w).
  destruct (status_code _ =? 200) eqn:Hs; [|reflexivity].
  destruct H as [H | H]; [apply Z.eqb_eq in Hs; contradiction|].
  unfold try_except, response_json. rewrite H. reflexivity.
Qed.

(** C9 (the code departs from it). In [plan_fact_parser.py] an object whose
    dashboard is answered with a refusal, or with a body that is not JSON,
    ends the loop over the objects with an [AttributeError]: [extract_rows]
    is given [None]. *)
Theorem object_loop_aborts_on_failed_fetch value rest all_rows w :
  answered server (dashboard_request value w) w →
  status_code (dashboard_reply server value w) ≠ 200
  ∨ json_body (dashboard_reply server value w) = None →
  fst (PlanFact.object_loop server (value :: rest) all_rows w) = Raise AttributeError.
Proof.
  intros Ha H. pose proof (plan_fact_get_dashboard_data_failed value w Ha H) as Hd.
  cbn [PlanFact.object_loop]. rewrite bind_run.
  destruct (PlanFact.get_dashboard_data server value w) as [r w'].
  cbn [fst] in Hd. subst r. reflexivity.
Qed.

(** The same failure in [cameras.py] is an object without video. *)
Lemma cameras_get_dashboard_data_failed object_id w :
  answered server (dashboard_request object_id w) w →
  status_code (dashboard_reply server object_id w) ≠ 200
  ∨ json_body (dashboard_reply server object_id w) = None →
  fst (Cameras.get_dashboard_data server object_id w) = Ok false.
Proof.
  unfold dashboard_reply, Cameras.get_dashboard_data. intros Ha H. run_get.
  fold (get_request ("/api/dashboard/" +:+ py_str object_id) w).
  destruct (status_code _ =? 200) eqn:Hs; [|reflexivity].
  destruct H as [H | H]; [apply Z.eqb_eq in Hs; contradiction|].
  unfold try_except. rewrite bind_run. unfold response_json. rewrite H. reflexivity.
Qed.

End Batch.

Lemma object_loop_aborts_on_failed_fetch_witness :
  fst (PlanFact.object_loop server_one_down [JNum 1; JNum 2] [] init)
  = Raise AttributeError.
Proof.
  apply (object_loop_aborts_on_failed_fetch server_one_down);
    [reflexivity | left; discriminate].
Defined.

(** The whole run on that catalog: no row is produced. *)
Example plan_fact_main_aborts :
  fst (PlanFact.main server_one_down init) = Raise AttributeError.
Proof. vm_compute. reflexivity. Qed.

(** With the refused object left out the run gives the row of object 2. *)
Example plan_fact_object_2 :
  fst (PlanFact.object_loop server_one_down [JNum 2] [] init)
  = Ok [[("id", JNum 2); ("name", JNull); ("uin", JNull);
         ("view_name", JStr "stage"); ("fact", JNull); ("plan", JNull);
         ("fact_delta_week", JNull); ("fact_delta_month", JNull);
         ("plan_delta_week", JNull); ("plan_delta_month", JNull);
         ("link", JStr "https://dashboard-stroi.mos.ru/dashboard/2")]].
Proof. vm_compute. reflexivity. Qed.

(** ** The overdue flag ([control_points_parser.py]) *)

Lemma date_eqb_eq a b : date_eqb a b = true ↔ a = b.
Proof.
  destruct a as [ya ma da], b as [yb mb db]. unfold date_eqb. cbn.
  rewrite !andb_true_iff, !Z.eqb_eq. split.
  - intros [[-> ->] ->]. reflexivity.
  - intros [= -> -> ->]. auto.
Qed.

Lemma date_leb_le a b : date_leb a b = true ↔ date_le a b.
Proof.
  unfold date_leb, date_le.
  rewrite !orb_true_iff, !andb_true_iff, orb_true_iff, andb_true_iff.
  rewrite !Z.ltb_lt, !Z.eqb_eq, Z.leb_le. reflexivity.
Qed.

Lemma col_eq_eq a b : ControlPoints.col_eq a b = true ↔ ∃ d, a = Some d ∧ b = Some d.
Proof.
  destruct a as [x|], b as [y|]; cbn.
  - rewrite date_eqb_eq. split.
    + intros ->. eauto.
    + intros (d & [= ->] & [= ->]). reflexivity.
  - split; [discriminate | intros (d & _ & [=])].
  - split; [discriminate | intros (d & [=] & _)].
  - split; [discriminate | intros (d & [=] & _)].
Qed.

(** C2. A row whose status is [no_control_points] is overdue whatever its
    dates; any other row is overdue exactly when its planned finish date
    differs from its actual finish date and is at most today. *)
Theorem is_exceeded_spec (r : ControlPoints.frame_row) :
  (ControlPoints.status r = "no_control_points" → ControlPoints.is_exceeded r = true)
  ∧ (ControlPoints.status r ≠ "no_control_points" →
     (ControlPoints.is_exceeded r = true
      ↔ ControlPoints.plan_finish_date r ≠ ControlPoints.fact_finish_date r
        ∧ ∃ p, ControlPoints.plan_finish_date r = Some p
               ∧ date_le p (ControlPoints.today r))).
Proof.
  unfold ControlPoints.is_exceeded, ControlPoints.np_where.
  destruct r as [st plan fact td]. cbn [ControlPoints.status
    ControlPoints.plan_finish_date ControlPoints.fact_finish_date ControlPoints.today].
  split.
  - intros ->. reflexivity.
  - intros Hst. apply String.eqb_neq in Hst. rewrite Hst.
    destruct (ControlPoints.col_eq plan fact) eqn:He.
    + apply col_eq_eq in He as (d & -> & ->). split; [discriminate|].
      intros [Hne _]. contradiction.
    + destruct plan as [p|]; cbn.
      * rewrite date_leb_le. split.
        -- intros Hle. split; [|eauto].
           intros <-. cbn in He. rewrite (proj2 (date_eqb_eq p p) eq_refl) in He.
           discriminate.
        -- intros (_ & q & [= <-] & Hle). exact Hle.
      * split; [discriminate|]. intros (_ & q & [=] & _).
Qed.

Lemma is_exceeded_spec_witness :
  ControlPoints.is_exceeded
    {| ControlPoints.status := "in_progress";
       ControlPoints.plan_finish_date := Some (Date 2024 1 10);
       ControlPoints.fact_finish_date := None;
       ControlPoints.today := Date 2024 2 1 |} = true
  ∧ ControlPoints.is_exceeded
      {| ControlPoints.status := "no_control_points";
         ControlPoints.plan_finish_date := None;
         ControlPoints.fact_finish_date := None;
         ControlPoints.today := Date 2024 2 1 |} = true.
Proof.
  split.
  - apply (proj2 (is_exceeded_spec _)); [discriminate|]. split; [discriminate|].
    exists (Date 2024 1 10). split; [reflexivity|]. unfold date_le. cbn. lia.
  - apply (proj1 (is_exceeded_spec _)). reflexivity.
Defined.

(** The rows of the specification's test: equal dates are never overdue, a
    planned date in the past with another actual date is. *)
Example is_exceeded_equal_dates :
  ControlPoints.is_exceeded
    {| ControlPoints.status := "complete";
       ControlPoints.plan_finish_date := Some (Date 2024 1 10);
       ControlPoints.fact_finish_date := Some (Date 2024 1 10);
       ControlPoints.today := Date 2024 2 1 |} = false.
Proof. reflexivity. Qed.

Example is_exceeded_future_plan :
  ControlPoints.is_exceeded
    {| ControlPoints.status := "in_progress";
       ControlPoints.plan_finish_date := Some (Date 2024 3 1);
       ControlPoints.fact_finish_date := None;
       ControlPoints.today := Date 2024 2 1 |} = false.
Proof. reflexivity. Qed.

(** ** The headers of a request *)

Lemma setdefault_lookup k v (d : gmap string string) k' :
  setdefault k v d !! k' = if decide (k = k') then Some (default v (d !! k)) else d !! k'.
Proof.
  unfold setdefault. destruct (d !! k) as [x|] eqn:Hk.
  - case_decide; [subst; exact Hk | reflexivity].
  - rewrite lookup_insert. reflexivity.
Qed.

Lemma with_defaults_lookup accept (d : gmap string string) k :
  with_defaults accept d !! k =
  if decide (k = "Accept") then Some (default accept (d !! "Accept"))
  else if decide (k = "X-Requested-With")
       then Some (default "XMLHttpRequest" (d !! "X-Requested-With"))
       else d !! k.
Proof.
  unfold with_defaults. rewrite !setdefault_lookup.
  repeat case_decide; subst; try reflexivity; try congruence; try discriminate.
Qed.

Lemma with_tokens_lookup tok xsrf (d : gmap string string) k :
  with_tokens tok xsrf d !! k =
  if decide (k = "X-XSRF-TOKEN") then
    (if truthy_str xsrf then xsrf else d !! k)
  else if decide (k = "Authorization") then
    (if truthy_str tok then (λ t, "Bearer " +:+ t) <$> tok else d !! k)
  else d !! k.
Proof.
  unfold with_tokens.
  destruct xsrf as [x|], tok as [t|];
    cbn [fmap option_fmap option_map truthy_str];
    repeat (destruct (negb _));
    rewrite ?lookup_insert; repeat case_decide; subst;
    try reflexivity; try congruence; try discriminate.
Qed.

Section Headers.

Variable server : upstream.

Lemma request_of_carries meth accept path headers params data w :
  carries accept headers w (request_of meth accept path headers params data w).
Proof.
  unfold carries, request_of. cbn [req_headers].
  split; [|split; [|split; [|split]]]; try intros k Hk;
    rewrite with_defaults_lookup, ?with_tokens_lookup;
    repeat case_decide; subst; try reflexivity; try discriminate; try congruence.
  all: exfalso; apply Hk; set_solver.
Qed.

(** C7. Every request sent through [get] or [post] carries the bearer
    header and the header against forgery exactly when the client holds the
    token ([None] and the empty string count as absent), so none of them
    before the authorization, and the default [Accept] and
    [X-Requested-With] headers only where the caller gave none. *)
Theorem get_post_headers :
  (∀ path headers params w,
     ∃ rq, sent (snd (get server path headers params w)) = rq :: sent w
           ∧ carries "application/json, text/html, */*" headers w rq)
  ∧ (∀ path headers data w,
       ∃ rq, sent (snd (post server path headers data w)) = rq :: sent w
             ∧ carries "application/json" headers w rq)
  ∧ (∀ path headers params,
       ∃ rq, sent (snd (get server path headers params init)) = [rq]
             ∧ req_headers rq !! "Authorization" = headers !! "Authorization"
             ∧ req_headers rq !! "X-XSRF-TOKEN" = headers !! "X-XSRF-TOKEN")
  ∧ (∀ path headers data,
       ∃ rq, sent (snd (post server path headers data init)) = [rq]
             ∧ req_headers rq !! "Authorization" = headers !! "Authorization"
             ∧ req_headers rq !! "X-XSRF-TOKEN" = headers !! "X-XSRF-TOKEN").
Proof.
  split; [|split; [|split]].
  - intros path headers params w. rewrite get_send, send_sent.
    eexists. split; [reflexivity|]. apply request_of_carries.
  - intros path headers data w. rewrite post_send, send_sent.
    eexists. split; [reflexivity|]. apply request_of_carries.
  - intros path headers params. rewrite get_send, send_sent.
    eexists. split; [reflexivity|].
    destruct (request_of_carries "GET" "application/json, text/html, */*"
                path headers params [] init) as (Ha & Hx & _).
    split; assumption.
  - intros path headers data. rewrite post_send, send_sent.
    eexists. split; [reflexivity|].
    destruct (request_of_carries "POST" "application/json"
                path headers [] data init) as (Ha & Hx & _).
    split; assumption.
Qed.

End Headers.

Lemma get_post_headers_witness :
  ∃ rq, sent (snd (get server_down "/api/catalog" accept_csv [] bearer_world))
        = rq :: sent bearer_world
        ∧ carries "application/json, text/html, */*" accept_csv bearer_world rq.
Proof.
  exact (proj1 (get_post_headers server_down) "/api/catalog" accept_csv [] bearer_world).
Defined.

(** The headers of three requests: before the authorization, after it, and
    with a caller who overrides [Accept]. *)
Example headers_before_authorization :
  req_headers <$> sent (snd (get server_down "/api/catalog" ∅ [] init))
  = [ {[ "Accept" := "application/json, text/html, */*";
         "X-Requested-With" := "XMLHttpRequest" ]} ].
Proof. vm_compute. reflexivity. Qed.

Example headers_after_authorization :
  req_headers <$> sent (snd (post server_down "/api/catalog" ∅ [] bearer_world))
  = [ {[ "Authorization" := "Bearer abc"; "X-XSRF-TOKEN" := "x= y";
         "Accept" := "application/json";
         "X-Requested-With" := "XMLHttpRequest" ]} ].
Proof. vm_compute. reflexivity. Qed.

Example headers_with_override :
  req_headers <$> sent (snd (get server_down "/api/catalog" accept_csv [] init))
  = [ {[ "Accept" := "text/csv"; "X-Requested-With" := "XMLHttpRequest" ]} ].
Proof. vm_compute. reflexivity. Qed.

(** ** Text *)

#[local] Arguments String.append !_ _ / : simpl nomatch.

(** A string that is not empty has a character. *)
Lemma utf8_chars_cons c s : (0 < length (utf8_chars (String c s)))%nat.
Proof.
  cbn [utf8_chars]. destruct (utf8_chars s) as [|[|c' h] t];
    try destruct (is_continuation c'); cbn; lia.
Qed.

Lemma append_assoc (a b c : string) : (a +:+ b) +:+ c = a +:+ (b +:+ c).
Proof. induction a as [|x a IH]; simpl; [reflexivity | f_equal; exact IH]. Qed.

Lemma append_nil_r (a : string) : a +:+ "" = a.
Proof. induction a as [|x a IH]; simpl; [reflexivity | f_equal; exact IH]. Qed.

Lemma prefix_append (p r : string) : String.prefix p (p +:+ r) = true.
Proof.
  induction p as [|x p IH]; cbn; [now destruct r|].
  destruct (ascii_dec x x); [exact IH | contradiction].
Qed.

Lemma occurs_refl a : occurs a a.
Proof. exists "", "". cbn. now rewrite append_nil_r. Qed.

Lemma occurs_trans a b c : occurs a b → occurs b c → occurs a c.
Proof.
  intros (p1 & q1 & ->) (p2 & q2 & ->).
  exists (p2 +:+ p1), (q1 +:+ q2). now rewrite !append_assoc.
Qed.

Lemma occurs_append_l a p s : occurs a s → occurs a (p +:+ s).
Proof. intros (p1 & q1 & ->). exists (p +:+ p1), q1. now rewrite append_assoc. Qed.

Lemma occurs_append_r a s q : occurs a s → occurs a (s +:+ q).
Proof. intros (p1 & q1 & ->). exists p1, (q1 +:+ q). now rewrite !append_assoc. Qed.

Lemma occurs_contains a s : occurs a s → str_contains a s = true.
Proof.
  intros (pre & post & ->). induction pre as [|x pre IH]; cbn.
  - destruct (a +:+ post) as [|y r] eqn:E.
    + destruct a; [reflexivity | discriminate E].
    + cbn [str_contains]. rewrite <- E, prefix_append. reflexivity.
  - rewrite IH. apply orb_true_r.
Qed.

Lemma partition_append c s :
  s = match partition c s with
      | (h, Some t) => h +:+ String c t
      | (h, None) => h
      end.
Proof.
  induction s as [|a s IH]; cbn; [reflexivity|].
  destruct (Ascii.eqb_spec a c) as [->|Hne]; [reflexivity|].
  destruct (partition c s) as [h [t|]]; cbn; now rewrite <- IH.
Qed.

Lemma partition_fst_occurs c s : occurs (fst (partition c s)) s.
Proof.
  pose proof (partition_append c s) as H.
  destruct (partition c s) as [h [t|]]; cbn [fst].
  - rewrite H. exists "", (String c t). reflexivity.
  - rewrite H. apply occurs_refl.
Qed.

Lemma splitnetloc_append s : s = fst (splitnetloc s) +:+ snd (splitnetloc s).
Proof.
  induction s as [|a s IH]; cbn; [reflexivity|].
  destruct (Ascii.eqb a "/" || Ascii.eqb a "?" || Ascii.eqb a "#"); [reflexivity|].
  destruct (splitnetloc s) as [n r]. cbn in *. now rewrite <- IH.
Qed.

Lemma after_last_at_occurs s : occurs (after_last_at s) s.
Proof.
  induction s as [|a s IH]; [apply occurs_refl|].
  cbn [after_last_at].
  destruct (has_char "@" (String a s)); [|apply occurs_refl].
  destruct (Ascii.eqb a "@" && negb (has_char "@" s)).
  - exists (String a ""), "". cbn. now rewrite append_nil_r.
  - apply (occurs_append_l _ (String a "")) in IH. exact IH.
Qed.

Lemma netloc_occurs u : occurs (netloc (urlparse u)) u.
Proof.
  unfold urlparse.
  set (p := match partition ":" u with
            | (pre, Some rest) =>
                if valid_scheme pre then (ascii_lower pre, rest) else ("", u)
            | (_, None) => ("", u)
            end).
  assert (Hu1 : occurs (snd p) u).
  { subst p. pose proof (partition_append ":" u) as H.
    destruct (partition ":" u) as [pre [rest|]]; [|apply occurs_refl].
    destruct (valid_scheme pre); [|apply occurs_refl].
    cbn [snd]. rewrite H. exists (pre +:+ ":"), "".
    rewrite append_nil_r, append_assoc. reflexivity. }
  destruct p as [sch url1]. cbn [snd] in Hu1.
  set (q := match url1 with
            | String a (String b rest) =>
                if Ascii.eqb a "/" && Ascii.eqb b "/" then splitnetloc rest
                else ("", url1)
            | _ => ("", url1)
            end).
  assert (Hnl : occurs (fst q) url1).
  { subst q. destruct url1 as [|a [|b rest]]; try (exists "", ""; reflexivity).
    - exists "", (String a ""). reflexivity.
    - destruct (Ascii.eqb_spec a "/") as [->|Ha];
        [destruct (Ascii.eqb_spec b "/") as [->|Hb]|]; cbn [andb].
      + exists "//", (snd (splitnetloc rest)). cbn.
        now rewrite <- splitnetloc_append.
      + exists "", (String "/" (String b rest)). reflexivity.
      + exists "", (String a (String b rest)). reflexivity. }
  destruct q as [nl url2]. cbn [fst] in Hnl.
  destruct (partition "#" url2) as [url3 frag].
  destruct (partition "?" url3) as [pth qry]. cbn [netloc].
  eapply occurs_trans; eassumption.
Qed.

Lemma partition_snd_occurs c s t : snd (partition c s) = Some t → occurs t s.
Proof.
  pose proof (partition_append c s) as H.
  destruct (partition c s) as [h [t'|]]; cbn [snd]; [|discriminate].
  intros [= ->]. rewrite H. exists (h +:+ String c ""), "".
  rewrite append_nil_r, append_assoc. reflexivity.
Qed.

(** The host of a URL, as written, is a part of its text. *)
Lemma host_as_written_contains u : str_contains (host_as_written u) u = true.
Proof.
  apply occurs_contains. unfold host_as_written.
  assert (Hinfo : occurs (after_last_at (netloc (urlparse u))) u).
  { eapply occurs_trans; [apply after_last_at_occurs | apply netloc_occurs]. }
  destruct (partition "[" (after_last_at (netloc (urlparse u)))) as [pre [bracketed|]]
    eqn:Hp.
  - eapply occurs_trans; [apply partition_fst_occurs|].
    eapply occurs_trans; [|exact Hinfo].
    apply (partition_snd_occurs "["). now rewrite Hp.
  - eapply occurs_trans; [apply partition_fst_occurs | exact Hinfo].
Qed.

(** ** The authorization *)

Lemma append_cons_nonempty p c s : p +:+ String c s ≠ "".
Proof. destruct p; discriminate. Qed.

Lemma utf8_lead_need n need lo hi : utf8_lead n = Lead need lo hi → need ≠ 0%nat.
Proof. unfold utf8_lead. repeat case_match; intros [= <- _ _]; discriminate. Qed.

Lemma utf8_decode_nonempty s pending need lo hi :
  s ≠ "" ∨ need ≠ 0%nat → utf8_decode pending need lo hi s ≠ "".
Proof.
  revert pending need lo hi. induction s as [|b s IH]; intros pending need lo hi H.
  - destruct need; [destruct H; contradiction | discriminate].
  - cbn [utf8_decode].
    assert (Hstart : match utf8_lead (nat_of_ascii b) with
                     | Single => String b (utf8_decode "" 0 0 0 s)
                     | Lead need' lo' hi' => utf8_decode (String b "") need' lo' hi' s
                     | Invalid => replacement +:+ utf8_decode "" 0 0 0 s
                     end ≠ "").
    { destruct (utf8_lead (nat_of_ascii b)) as [|need' lo' hi'|] eqn:Hl;
        [discriminate | | discriminate].
      apply IH. right. exact (utf8_lead_need _ _ _ _ Hl). }
    destruct need as [|k]; [exact Hstart|].
    destruct (_ && _); [|discriminate].
    destruct k; [apply append_cons_nonempty|]. apply IH. right. discriminate.
Qed.

Lemma unquote_run_nonempty n s run :
  (String.length s < n)%nat → run ≠ "" ∨ s ≠ "" → unquote_run run s ≠ "".
Proof.
  revert s run. induction n as [|n IH]; intros s run Hn H; [lia|].
  destruct s as [|c s]; cbn [unquote_run].
  - apply utf8_decode_nonempty. left. destruct H; [assumption | contradiction].
  - cbn [String.length] in Hn.
    assert (Hc : ∀ x, run +:+ String x "" ≠ "") by (intros x; apply append_cons_nonempty).
    destruct (nat_of_ascii c <? 128)%nat; [|apply append_cons_nonempty].
    destruct (Ascii.eqb c "%"); [|apply IH; [lia | left; apply Hc]].
    destruct s as [|h [|l s]];
      [apply IH; [cbn [String.length] in *; lia | left; apply Hc] .. |].
    destruct (hex_val h), (hex_val l);
      apply IH; try (left; apply Hc); cbn [String.length] in *; lia.
Qed.

Lemma unquote_nonempty s : s ≠ "" → unquote s ≠ "".
Proof.
  intros H. apply (unquote_run_nonempty (S (String.length s))); [lia | now right].
Qed.

Lemma utf8_replace_ascii run : ascii_only run = true → utf8_replace run = run.
Proof.
  unfold utf8_replace. induction run as [|c run IH]; [reflexivity|].
  cbn [ascii_only utf8_decode]. intros H. apply andb_true_iff in H as [Hc Hrun].
  unfold utf8_lead. rewrite Hc. now rewrite IH.
Qed.

Lemma ascii_only_snoc run c :
  ascii_only run = true → (nat_of_ascii c <? 128)%nat = true →
  ascii_only (run +:+ String c "") = true.
Proof.
  intros Hrun Hc. induction run as [|x run IH]; cbn in *; [now rewrite Hc|].
  apply andb_true_iff in Hrun as [-> Hrun]. now apply IH.
Qed.

Lemma unquote_run_plain s run :
  ascii_only run = true → has_char "%" s = false → unquote_run run s = run +:+ s.
Proof.
  revert run. induction s as [|c s IH]; intros run Hrun Hs; cbn [unquote_run].
  - rewrite append_nil_r. now apply utf8_replace_ascii.
  - cbn [has_char] in Hs. apply orb_false_iff in Hs as [Hc Hs].
    destruct (nat_of_ascii c <? 128)%nat eqn:Ha.
    + rewrite Hc. rewrite IH by (try apply ascii_only_snoc; assumption).
      now rewrite append_assoc.
    + rewrite utf8_replace_ascii by assumption. now rewrite (IH "" eq_refl Hs).
Qed.

(** [unquote] leaves a text without a percent sign as it is. *)
Lemma unquote_plain s : has_char "%" s = false → unquote s = s.
Proof. intros H. exact (unquote_run_plain s "" eq_refl H). Qed.

Lemma unquote_plus_nonempty s : s ≠ "" → unquote_plus s ≠ "".
Proof.
  intros H. apply unquote_nonempty. destruct s; [contradiction | discriminate].
Qed.

Lemma parse_qsl_value n v qs : In (n, v) (parse_qsl qs) → v ≠ "".
Proof.
  unfold parse_qsl. rewrite in_flat_map. intros (piece & _ & H).
  destruct (partition "=" piece) as [name [value|]]; [|destruct H].
  destruct (String.eqb value "") eqn:E; [destruct H|].
  apply String.eqb_neq in E.
  destruct H as [[= <- <-]|[]]. now apply unquote_plus_nonempty.
Qed.

Lemma first_value_in name pairs v :
  first_value name pairs = Some v → In (name, v) pairs.
Proof.
  induction pairs as [|[n x] pairs IH]; [discriminate|]. cbn.
  destruct (String.eqb_spec n name) as [->|Hne].
  - intros [= ->]. now left.
  - intros H. right. now apply IH.
Qed.

Lemma token_param_truthy name qs v :
  first_value name (parse_qsl qs) = Some v → truthy_str (Some v) = true.
Proof.
  intros H. apply first_value_in, parse_qsl_value in H. cbn.
  now apply negb_true_iff, String.eqb_neq.
Qed.

(** What [parse_qs] gives a parameter is its value, as written, decoded. *)
Lemma first_value_raw name qs :
  first_value name (parse_qsl qs) = unquote_plus <$> raw_param name qs.
Proof.
  unfold parse_qsl, raw_param.
  induction (split "&" qs) as [|piece pieces IH]; [reflexivity|].
  cbn [flat_map]. destruct (partition "=" piece) as [n [value|]]; [|exact IH].
  destruct (String.eqb value "") eqn:Hv.
  - rewrite andb_false_r. exact IH.
  - rewrite andb_true_r. cbn [app first_value].
    destruct (String.eqb (unquote_plus n) name); [reflexivity | exact IH].
Qed.

Section Authorize.

Variable server : upstream.
Variables login password : string.

Lemma authorize_run w :
  signing_in_answered server login password w →
  authorize server login password w =
  let w3 := login_world server login password w in
  if negb (str_contains domain (final_url server login password w)) then
    (Raise (Exception "Ошибка авторизации"), w3)
  else
    match first_value "token"
            (parse_qsl (query (urlparse (final_url server login password w)))) with
    | Some tp =>
        match cookies_named "XSRF-TOKEN" (cookies w3) with
        | _ :: _ :: _ => (Raise CookieConflictError, token_stored server login password w tp)
        | _ => (Ok true, signed_in server login password w tp)
        end
    | None => (Raise (Exception "Токен не найден в URL"), w3)
    end.
Proof.
  intros (H1 & H2 & H3).
  unfold authorize, final_url, login_response, login_world. do 3 run_send.
  set (w2 := after server accounts_request (after server sudir_request w)).
  set (rq := password_request login password).
  change "dashboard-stroi.mos.ru" with domain.
  destruct (str_contains domain (url (reply_to server rq w2))); [|reflexivity].
  cbv beta iota zeta delta [negb].
  destruct (first_value "token" _) as [tp|] eqn:Htp; [|reflexivity].
  rewrite (token_param_truthy _ _ _ Htp). cbv beta iota zeta delta [negb].
  unfold signed_in, token_stored, login_world. fold rq. fold w2.
  unfold mbind, M_bind, set_token, cookies_get. cbn [cookies xsrf_token].
  destruct (cookies_named "XSRF-TOKEN" (cookies (after server rq w2))) as [|x [|y l]];
    try reflexivity.
  destruct (String.eqb x "") eqn:Hx; [reflexivity|].
  cbn [truthy_str]. rewrite Hx. reflexivity.
Qed.

(** C1, as amended. When the three requests of the sign-in are answered,
    [authorize] raises "Ошибка авторизации" exactly when the final redirect
    URL does not contain the text [dashboard-stroi.mos.ru]; a final URL
    whose host is written [dashboard-stroi.mos.ru] contains it, and passes
    the check. *)
Theorem authorize_checks_the_url w :
  signing_in_answered server login password w →
  (authorize server login password w
   = (Raise (Exception "Ошибка авторизации"), login_world server login password w)
   ↔ str_contains domain (final_url server login password w) = false)
  ∧ (host_as_written (final_url server login password w) = domain →
     str_contains domain (final_url server login password w) = true).
Proof.
  intros Ha. split.
  - rewrite authorize_run by assumption. cbv zeta.
    destruct (str_contains domain (final_url server login password w)); cbn [negb].
    + split; [|discriminate].
      destruct (first_value "token" _); [|discriminate].
      destruct (cookies_named _ _) as [|x [|y l]]; discriminate.
    + split; reflexivity.
  - intros <-. apply host_as_written_contains.
Qed.

(** C6, as amended. When the three requests of the sign-in are answered,
    the final redirect URL passes the check and the jar holds at most one
    cookie named [XSRF-TOKEN]: when the query of the URL has no [token]
    parameter with a value that is not empty, [authorize] raises "Токен не
    найден в URL"; otherwise it succeeds, the token it stores is the value
    of the first such parameter decoded as a query value (percent-decoded,
    [+] read as a space) when that decoded value has no percent sign, and
    the token against forgery is [unquote_plus] of the cookie when the jar
    has a non-empty one, and is left as it was otherwise. *)
Theorem authorize_token_and_cookie w :
  signing_in_answered server login password w →
  str_contains domain (final_url server login password w) = true →
  (length (cookies_named "XSRF-TOKEN" (cookies (login_world server login password w)))
   ≤ 1)%nat →
  match raw_param "token" (query (urlparse (final_url server login password w))) with
  | None =>
      authorize server login password w
      = (Raise (Exception "Токен не найден в URL"), login_world server login password w)
  | Some raw =>
      ∃ w', authorize server login password w = (Ok true, w')
            ∧ (has_char "%" (unquote_plus raw) = false →
               token w' = Some (unquote_plus raw))
            ∧ xsrf_token w'
              = match cookies_named "XSRF-TOKEN"
                        (cookies (login_world server login password w)) with
                | [x] => if String.eqb x "" then xsrf_token w
                         else Some (unquote_plus x)
                | _ => xsrf_token w
                end
  end.
Proof.
  intros Ha Hc Hjar. rewrite authorize_run by assumption. cbv zeta. rewrite Hc.
  cbn [negb]. rewrite first_value_raw.
  destruct (raw_param "token" _) as [raw|]; [|reflexivity].
  cbn [fmap option_fmap option_map].
  exists (signed_in server login password w (unquote_plus raw)).
  unfold signed_in. cbv zeta. cbn [token xsrf_token].
  destruct (cookies_named _ _) as [|x [|y l]]; [| |cbn in Hjar; lia].
  - split; [reflexivity|]. split; [|reflexivity].
    intros Hp. now rewrite unquote_plain.
  - split; [reflexivity|]. split; [|reflexivity].
    intros Hp. now rewrite unquote_plain.
Qed.

(** After a successful authorization the client holds a bearer token, so
    that every later request carries it. *)
Lemma authorize_holds_token w w' :
  authorize server login password w = (Ok true, w') → truthy_str (token w') = true.
Proof.
  unfold authorize. intros H.
  apply bind_inv in H as (r1 & w1 & _ & H).
  apply bind_inv in H as (r2 & w2 & _ & H).
  apply bind_inv in H as (r3 & w3 & _ & H).
  destruct (negb _); [discriminate|]. cbv zeta in H.
  destruct (first_value "token" _) as [tp|] eqn:Htp; [|discriminate].
  rewrite (token_param_truthy _ _ _ Htp) in H. cbn [negb] in H.
  apply bind_inv in H as ([] & w4 & Hset & H).
  apply (f_equal snd) in Hset. cbn [snd set_token] in Hset. subst w4.
  apply bind_inv in H as (xsrf & w5 & Hget & H).
  assert (Htok : truthy_str (Some (unquote tp)) = true).
  { apply first_value_in, parse_qsl_value in Htp.
    cbn. apply negb_true_iff, String.eqb_neq. now apply unquote_nonempty. }
  unfold cookies_get in Hget.
  destruct (cookies_named _ _) as [|x [|y l]]; try discriminate;
    injection Hget as <- <-.
  - unfold mret, M_ret in H. injection H as <-. exact Htok.
  - unfold mbind, M_bind, set_xsrf_token, mret, M_ret in H.
    destruct (String.eqb x ""); [|destruct (truthy_str _)];
      injection H as <-; exact Htok.
Qed.

End Authorize.

Lemma authorize_checks_the_url_witness :
  str_contains domain
    (url (login_response server_sso "user" "secret" init)) = true.
Proof.
  apply (proj2 (authorize_checks_the_url server_sso "user" "secret" init
                  (conj eq_refl (conj eq_refl eq_refl)))).
  reflexivity.
Defined.

Lemma authorize_token_and_cookie_witness :
  ∃ w', authorize server_sso "user" "secret" init = (Ok true, w')
        ∧ (has_char "%" (unquote_plus "abc%2Fdef") = false →
           token w' = Some (unquote_plus "abc%2Fdef"))
        ∧ xsrf_token w' = Some "x= y".
Proof.
  refine (authorize_token_and_cookie server_sso "user" "secret" init
            (conj eq_refl (conj eq_refl eq_refl)) eq_refl _).
  vm_compute. lia.
Defined.

(** [parse_qs] decodes the parameter and [unquote] decodes its value again:
    the token [a%2541] of the URL is stored as [aA]. *)
Example authorize_decodes_twice :
  token (snd (authorize server_sso_twice "user" "secret" init)) = Some "aA"
  ∧ first_value "token" (parse_qsl "token=a%2541") = Some "a%41".
Proof. split; vm_compute; reflexivity. Qed.

(** Without the cookie the authorization succeeds, and no token against
    forgery is kept. *)
Example authorize_without_cookie :
  fst (authorize server_sso_twice "user" "secret" init) = Ok true
  ∧ xsrf_token (snd (authorize server_sso_twice "user" "secret" init)) = None.
Proof. split; vm_compute; reflexivity. Qed.

(** With a cookie [XSRF-TOKEN] from each of the two hosts the jar cannot
    choose: [authorize] raises, and the bearer token is stored already. *)
Example authorize_with_two_cookies :
  fst (authorize server_two_cookies "user" "secret" init) = Raise CookieConflictError
  ∧ token (snd (authorize server_two_cookies "user" "secret" init)) = Some "abc".
Proof. split; vm_compute; reflexivity. Qed.

(** C1, as stated, fails in both directions. A final URL on another host
    that names the application in its query is accepted, and [authorize]
    succeeds; a final URL on the application whose host is written in upper
    case is refused. *)
Lemma authorize_accepts_another_host :
  url_host ascii_lower (url (login_response server_elsewhere "user" "secret" init))
  = "sudir.mos.ru"
  ∧ url_host ascii_lower (url (login_response server_elsewhere "user" "secret" init))
    ≠ domain
  ∧ fst (authorize server_elsewhere "user" "secret" init) = Ok true
  ∧ url_host ascii_lower (url (login_response server_shouting "user" "secret" init))
    = domain
  ∧ fst (authorize server_shouting "user" "secret" init)
    = Raise (Exception "Ошибка авторизации").
Proof.
  split; [reflexivity|]. split; [discriminate|]. split; [vm_compute; reflexivity|].
  split; vm_compute; reflexivity.
Qed.

(** C6, as stated, fails: the parameter [token=a+b] percent-decodes to
    [a+b], and the token stored is [a b]. *)
Lemma authorize_reads_plus_as_space :
  query (urlparse (url (login_response server_plus "user" "secret" init))) = "token=a+b"
  ∧ raw_param "token" "token=a+b" = Some "a+b"
  ∧ unquote "a+b" = "a+b"
  ∧ fst (authorize server_plus "user" "secret" init) = Ok true
  ∧ token (snd (authorize server_plus "user" "secret" init)) = Some "a b".
Proof. repeat split; vm_compute; reflexivity. Qed.

(** ** The retries of the control points ([control_points_parser.py]) *)

Section Retry.

Variable server : upstream.
Variable now : date.

Lemma etapi_value_failed rs :
  status_code rs ≠ 200 ∨ json_body rs = None → etapi_value rs = JNull.
Proof.
  unfold etapi_value. intros [H | H].
  - apply Z.eqb_neq in H. now rewrite H.
  - rewrite H. now destruct (status_code rs =? 200).
Qed.

(** The session takes the URL of every fetch: only the connection can end
    the exchange. *)
Lemma etapi_exchange_error object_id w :
  exchange_error server (etapi_request object_id w) w
  = failure server (length (sent w)) (etapi_request object_id w).
Proof.
  unfold exchange_error, etapi_request, get_request, request_of. cbn [req_url].
  change ("/api/etapi/" +:+ py_str object_id)
    with (String "/" ("api/etapi/" +:+ py_str object_id)).
  now rewrite takes_url_resolve.
Qed.

Lemma etapi_answered_now object_id w :
  etapi_answered server object_id w 0 → answered server (etapi_request object_id w) w.
Proof.
  unfold etapi_answered, answered. rewrite etapi_exchange_error.
  now rewrite Nat.add_0_r.
Qed.

Lemma get_etapi_data_run object_id w :
  answered server (etapi_request object_id w) w →
  ControlPoints.get_etapi_data server object_id w
  = (Ok (etapi_fetch server object_id w 0), after server (etapi_request object_id w) w).
Proof.
  intros Ha. unfold ControlPoints.get_etapi_data, etapi_fetch, etapi_value. run_get.
  rewrite Nat.add_0_r. fold (get_request ("/api/etapi/" +:+ py_str object_id) w).
  fold (etapi_request object_id w). unfold reply_to.
  destruct (status_code _ =? 200); [|reflexivity]. cbn [negb].
  unfold try_except, response_json.
  destruct (json_body _); reflexivity.
Qed.

(** An exception of the session leaves [get_etapi_data] as it is. *)
Lemma get_etapi_data_raises object_id w e :
  exchange_error server (etapi_request object_id w) w = Some e →
  ControlPoints.get_etapi_data server object_id w
  = (Raise e, attempted (etapi_request object_id w) w).
Proof.
  intros He. unfold ControlPoints.get_etapi_data.
  rewrite bind_run, (get_raises server _ _ _ _ e) by exact He. reflexivity.
Qed.

Lemma etapi_fetch_after object_id rq w k ms :
  etapi_fetch server object_id (asleep ms (after server rq w)) k
  = etapi_fetch server object_id w (S k).
Proof.
  unfold etapi_fetch.
  change (etapi_request object_id (asleep ms (after server rq w)))
    with (etapi_request object_id w).
  cbn [asleep after sent length]. now rewrite Nat.add_succ_r.
Qed.

Lemma etapi_answered_after object_id rq w k ms :
  etapi_answered server object_id (asleep ms (after server rq w)) k
  ↔ etapi_answered server object_id w (S k).
Proof.
  unfold etapi_answered.
  change (etapi_request object_id (asleep ms (after server rq w)))
    with (etapi_request object_id w).
  cbn [asleep after sent length]. now rewrite Nat.add_succ_r.
Qed.

(** When its request is answered, [get_manager_name] returns, after one
    exchange. *)
Lemma get_manager_name_run object_id w :
  answered server (dashboard_request object_id w) w →
  ∃ v, ControlPoints.get_manager_name server object_id w
       = (Ok v, after server (dashboard_request object_id w) w).
Proof.
  intros Ha. unfold ControlPoints.get_manager_name. run_get.
  fold (get_request ("/api/dashboard/" +:+ py_str object_id) w).
  fold (dashboard_request object_id w).
  destruct (status_code _ =? 200); [|eexists; reflexivity].
  unfold try_except. rewrite bind_run. unfold response_json.
  destruct (json_body _) as [d|]; [|eexists; reflexivity].
  cbv beta iota delta [mret M_ret]. rewrite bind_run. unfold lift.
  destruct (dict_get d "object" (JObj [])) as [obj|]; [|eexists; reflexivity].
  cbv beta iota. rewrite bind_run.
  destruct (dict_get obj "project_manager" (JObj [])) as [pm|]; [|eexists; reflexivity].
  cbv beta iota.
  destruct (dict_get pm "name" (JStr "Нет данных")); eexists; reflexivity.
Qed.

(** One more turn of the retry loop, when its fetch is answered. *)
Lemma retry_etapi_step attempt rest object_id etapi w :
  etapi_answered server object_id w 0 →
  ControlPoints.retry_etapi server (attempt :: rest) object_id etapi w
  = if ControlPoints.is_none (etapi_fetch server object_id w 0)
    then ControlPoints.retry_etapi server rest object_id JNull
           (asleep ((attempt + 1) * 2 * 1000)
                   (after server (etapi_request object_id w) w))
    else (Ok (etapi_fetch server object_id w 0),
          after server (etapi_request object_id w) w).
Proof.
  intros Ha. apply etapi_answered_now in Ha.
  cbn [ControlPoints.retry_etapi]. rewrite bind_run, get_etapi_data_run by exact Ha.
  cbv beta iota zeta.
  destruct (etapi_fetch server object_id w 0); reflexivity.
Qed.

(** The turn of the loop whose fetch the session ends with an exception:
    the loop is left at once. *)
Lemma retry_etapi_raises attempt rest object_id etapi w e :
  exchange_error server (etapi_request object_id w) w = Some e →
  ControlPoints.retry_etapi server (attempt :: rest) object_id etapi w
  = (Raise e, attempted (etapi_request object_id w) w).
Proof.
  intros He. cbn [ControlPoints.retry_etapi].
  rewrite bind_run, (get_etapi_data_raises _ _ e) by exact He. reflexivity.
Qed.

Lemma is_none_true v : ControlPoints.is_none v = true ↔ v = JNull.
Proof. destruct v; cbn; split; congruence. Qed.

(** The loop never sends more requests than it has attempts left. *)
Lemma retry_etapi_sent attempts object_id etapi w :
  (length (sent (snd (ControlPoints.retry_etapi server attempts object_id etapi w)))
   ≤ length (sent w) + length attempts)%nat.
Proof.
  revert etapi w. induction attempts as [|a rest IH]; intros etapi w.
  - cbn. lia.
  - destruct (exchange_error server (etapi_request object_id w) w) as [e|] eqn:He.
    + rewrite (retry_etapi_raises _ _ _ _ _ e) by exact He. cbn. lia.
    + rewrite retry_etapi_step
        by (unfold etapi_answered; now rewrite Nat.add_0_r, <- etapi_exchange_error).
      destruct (ControlPoints.is_none _).
      * etransitivity; [apply IH|]. cbn. lia.
      * cbn. lia.
Qed.

(** C4, as amended. The retry loop of [collect_etapi_data] fetches
    the control points of an object at most three times. A fetch that is
    answered fails when its reply gives nothing (a status other than 200, a
    body that does not decode, a null document): when the first two fetches
    fail so and the third gives a document, the loop ends with that document
    after two pauses, of 2 then 4 seconds; when the three fetches fail so,
    the turn of the object ends without a row added. A fetch that the
    session ends with an exception is not tried again: the loop raises the
    exception at once, without a pause or a further request. *)
Theorem retry_etapi_backoff :
  (∀ object_id w,
     (length (sent (snd (ControlPoints.retry_etapi server
        (ControlPoints.range ControlPoints.max_retries) object_id JNull w)))
      ≤ length (sent w) + 3)%nat)
  ∧ (∀ object_id w,
       etapi_answered server object_id w 0 →
       etapi_answered server object_id w 1 →
       etapi_answered server object_id w 2 →
       etapi_fetch server object_id w 0 = JNull →
       etapi_fetch server object_id w 1 = JNull →
       etapi_fetch server object_id w 2 ≠ JNull →
       let run := ControlPoints.retry_etapi server
                    (ControlPoints.range ControlPoints.max_retries) object_id JNull w in
       fst run = Ok (etapi_fetch server object_id w 2)
       ∧ slept (snd run) = 4000 :: 2000 :: slept w
       ∧ length (sent (snd run)) = (length (sent w) + 3)%nat)
  ∧ (∀ developer_map directive_date_map obj cash all_data w object_id k name,
       dict_item obj "id" = Ok object_id →
       hash_key object_id = Ok k →
       dict_item obj "name" = Ok name →
       (cash !! k = None → answered server (dashboard_request object_id w) w) →
       let w1 := match cash !! k with
                 | Some _ => w
                 | None => after server (dashboard_request object_id w) w
                 end in
       etapi_answered server object_id w1 0 →
       etapi_answered server object_id w1 1 →
       etapi_answered server object_id w1 2 →
       etapi_fetch server object_id w1 0 = JNull →
       etapi_fetch server object_id w1 1 = JNull →
       etapi_fetch server object_id w1 2 = JNull →
       ∃ cash' w',
         ControlPoints.collect_object server now developer_map directive_date_map
           obj cash all_data w = (Ok (cash', all_data), w')
         ∧ slept w' = 6000 :: 4000 :: 2000 :: slept w
         ∧ length (sent w') = (length (sent w1) + 3)%nat)
  ∧ (∀ attempt rest object_id etapi w e,
       failure server (length (sent w)) (etapi_request object_id w) = Some e →
       ControlPoints.retry_etapi server (attempt :: rest) object_id etapi w
       = (Raise e, attempted (etapi_request object_id w) w)).
Proof.
  split; [|split; [|split]].
  - intros object_id w. apply (retry_etapi_sent [0; 1; 2]).
  - intros object_id w A0 A1 A2 H0 H1 H2 run. subst run.
    change (ControlPoints.range ControlPoints.max_retries) with [0; 1; 2].
    rewrite retry_etapi_step, H0 by exact A0. cbn [ControlPoints.is_none].
    rewrite retry_etapi_step, etapi_fetch_after, H1
      by (now apply etapi_answered_after).
    cbn [ControlPoints.is_none].
    rewrite retry_etapi_step, !etapi_fetch_after
      by (now apply etapi_answered_after, etapi_answered_after).
    destruct (ControlPoints.is_none (etapi_fetch server object_id w 2)) eqn:Hn;
      [apply is_none_true in Hn; contradiction|].
    cbn. repeat split. f_equal. lia.
  - intros dm ddm obj cash all_data w object_id k name Hid Hk Hname Hm w1
      A0 A1 A2 H0 H1 H2.
    assert (Hretry : ControlPoints.retry_etapi server
              (ControlPoints.range ControlPoints.max_retries) object_id JNull w1
            = (Ok JNull,
               asleep 6000 (after server (etapi_request object_id w1)
                 (asleep 4000 (after server (etapi_request object_id w1)
                   (asleep 2000 (after server (etapi_request object_id w1) w1))))))).
    { change (ControlPoints.range ControlPoints.max_retries) with [0; 1; 2].
      rewrite retry_etapi_step, H0 by exact A0. cbn [ControlPoints.is_none].
      rewrite retry_etapi_step, etapi_fetch_after, H1
        by (now apply etapi_answered_after).
      cbn [ControlPoints.is_none].
      rewrite retry_etapi_step, !etapi_fetch_after, H2
        by (now apply etapi_answered_after, etapi_answered_after).
      reflexivity. }
    unfold ControlPoints.collect_object.
    rewrite bind_run. unfold lift at 1. rewrite Hid. cbv beta iota.
    rewrite bind_run. unfold lift at 1. rewrite Hk. cbv beta iota.
    rewrite bind_run.
    destruct (cash !! k) as [m|] eqn:Hc.
    + cbv beta iota delta [mret M_ret].
      rewrite bind_run. unfold lift at 1. rewrite Hname. cbv beta iota zeta.
      rewrite bind_run. subst w1. rewrite Hretry. cbv beta iota.
      exists cash. eexists. split; [reflexivity|]. cbn. split; [reflexivity|lia].
    + rewrite bind_run.
      destruct (ControlPoints.get_manager_name server object_id w) as [r wm] eqn:Hr.
      assert (Hwm : wm = w1 ∧ ∃ v, r = Ok v).
      { destruct (get_manager_name_run object_id w (Hm eq_refl)) as [v Hv].
        rewrite Hv in Hr. injection Hr as <- <-. split; [reflexivity|eauto]. }
      destruct Hwm as [-> [v ->]]. cbv beta iota delta [mret M_ret].
      rewrite bind_run. unfold lift at 1. rewrite Hname. cbv beta iota zeta.
      rewrite bind_run, Hretry. cbv beta iota.
      eexists. eexists. split; [reflexivity|]. subst w1. cbn.
      split; [reflexivity|lia].
  - intros attempt rest object_id etapi w e He.
    apply retry_etapi_raises. now rewrite etapi_exchange_error.
Qed.

End Retry.

Lemma retry_etapi_backoff_witness :
  (fst (ControlPoints.retry_etapi server_flaky [0; 1; 2] (JNum 7) JNull init)
   = Ok etapi_document
   ∧ slept (snd (ControlPoints.retry_etapi server_flaky [0; 1; 2] (JNum 7) JNull init))
     = [4000; 2000]
   ∧ length (sent (snd (ControlPoints.retry_etapi server_flaky [0; 1; 2]
                          (JNum 7) JNull init))) = 3%nat)
  ∧ (∃ cash' w',
      ControlPoints.collect_object server_down (Date 2024 2 1) ∅ ∅ object_7 ∅ [] init
      = (Ok (cash', []), w')
      ∧ slept w' = [6000; 4000; 2000]
      ∧ length (sent w') = 4%nat)
  ∧ ControlPoints.retry_etapi server_offline [0; 1; 2] (JNum 7) JNull init
    = (Raise ConnectionError, attempted (etapi_request (JNum 7) init) init).
Proof.
  split; [|split].
  - apply (proj1 (proj2 (retry_etapi_backoff server_flaky (Date 2024 2 1)))
             (JNum 7) init); [reflexivity .. | discriminate].
  - exact (proj1 (proj2 (proj2 (retry_etapi_backoff server_down (Date 2024 2 1))))
             ∅ ∅ object_7 ∅ [] init (JNum 7) (KNum 7) (JStr "School")
             eq_refl eq_refl eq_refl (λ _, eq_refl)
             eq_refl eq_refl eq_refl eq_refl eq_refl eq_refl).
  - exact (proj2 (proj2 (proj2 (retry_etapi_backoff server_offline (Date 2024 2 1))))
             0 [1; 2] (JNum 7) JNull init ConnectionError eq_refl).
Defined.

(** The connection fails on the first two fetches and the third would be
    served: the loop does not come to it. The first failure leaves the
    loop, and the collection, with the exception of the session, after one
    request and no pause. *)
Lemma connection_error_is_not_retried :
  failure server_offline_twice 0 (etapi_request (JNum 7) init) = Some ConnectionError
  ∧ failure server_offline_twice 1 (etapi_request (JNum 7) init) = Some ConnectionError
  ∧ etapi_fetch server_offline_twice (JNum 7) init 2 = etapi_document
  ∧ fst (ControlPoints.retry_etapi server_offline_twice
           (ControlPoints.range ControlPoints.max_retries) (JNum 7) JNull init)
    = Raise ConnectionError
  ∧ slept (snd (ControlPoints.retry_etapi server_offline_twice
                  (ControlPoints.range ControlPoints.max_retries) (JNum 7) JNull init))
    = []
  ∧ length (sent (snd (ControlPoints.retry_etapi server_offline_twice
                         (ControlPoints.range ControlPoints.max_retries)
                         (JNum 7) JNull init))) = 1%nat
  ∧ fst (ControlPoints.collect_object server_offline_twice (Date 2024 2 1) ∅ ∅
           object_7 {[ KNum 7 := JStr "Ivanov" ]} [] init)
    = Raise ConnectionError.
Proof. repeat split; vm_compute; reflexivity. Qed.

(** The whole collection: the object whose fetches all fail leaves no row,
    the one served after a refusal leaves the row of its point. *)
Example collect_etapi_data_skips :
  fst (ControlPoints.collect_etapi_data server_down (Date 2024 2 1)
         (JArr [object_7]) init) = Ok [].
Proof. vm_compute. reflexivity. Qed.

Example collect_etapi_data_row :
  (λ r, match r with
        | Ok [row] => Some (assoc_cell "name" row, assoc_cell "status" row)
        | _ => None
        end)
    (fst (ControlPoints.collect_etapi_data server_flaky (Date 2024 2 1)
            (JArr [object_7]) init))
  = Some (Some (ControlPoints.Val (JStr "Foundation Pour")),
          Some (ControlPoints.Val (JStr "in_progress"))).
Proof. vm_compute. reflexivity. Qed.

(** ** Matching the names of the ledger ([control_points_parser.py]) *)

Section Names.

Variable lower : string → string.

(** The keys of [works_dict]: the names of the works, lowercased, over
    the keys it started with. *)
Lemma works_dict_keys works d0 d key :
  ControlPoints.works_dict lower works d0 = Ok d →
  (is_Some (d !! key)
   ↔ is_Some (d0 !! key)
     ∨ ∃ w n, In w works ∧ ControlPoints.work_name w = JStr n ∧ lower n = key).
Proof.
  revert d0. induction works as [|w works IH]; intros d0; cbn.
  - intros [= ->]. split; [auto|]. intros [H | (w & n & [] & _)]. exact H.
  - destruct (ControlPoints.work_name w) as [| | |n| |] eqn:Hn; cbn; try discriminate.
    intros H. rewrite (IH _ H). rewrite lookup_insert_is_Some. split.
    + intros [[<- | [_ Hd]] | (w' & n' & Hin & Hn' & Hk)].
      * right. exists w, n. auto.
      * now left.
      * right. exists w', n'. auto.
    + intros [Hd | (w' & n' & [<- | Hin] & Hn' & Hk)].
      * destruct (decide (lower n = key)); [left; now left | left; right; auto].
      * rewrite Hn in Hn'. injection Hn' as <-. left. now left.
      * right. exists w', n'. auto.
Qed.

(** The dict is built whenever every work has a name. *)
Lemma works_dict_total works d0 :
  (∀ w, In w works → ∃ n, ControlPoints.work_name w = JStr n) →
  ∃ d, ControlPoints.works_dict lower works d0 = Ok d.
Proof.
  revert d0. induction works as [|w works IH]; intros d0 Hall; cbn.
  - eauto.
  - destruct (Hall w (or_introl eq_refl)) as [n ->]. cbn.
    apply IH. intros w' Hin. apply Hall. now right.
Qed.

(** C5, as amended. A control point matches a work of the ledger exactly
    when its name is not empty and the two names are equal once lowercased,
    as they are written: nothing is trimmed. When every work has a name, the
    dict of the works is built; a control point with a non-empty name is
    matched if some work has its lowercased name, and marked as not found
    otherwise; a control point with an empty name is not compared, whatever
    the works are. *)
Theorem match_row_lowercase_equality works cache object_id name :
  (∀ w, In w works → ∃ n, ControlPoints.work_name w = JStr n) →
  ∃ d, ControlPoints.works_dict lower works ∅ = Ok d
       ∧ (cache !! object_id = Some d →
          ((∃ dates, ControlPoints.match_row lower cache object_id (JStr name)
                     = Ok (ControlPoints.Matched dates))
           ↔ name ≠ ""
             ∧ ∃ w n, In w works ∧ ControlPoints.work_name w = JStr n
                      ∧ lower n = lower name)
          ∧ (ControlPoints.match_row lower cache object_id (JStr name)
             = Ok ControlPoints.WorkNotFound
             ↔ name ≠ ""
               ∧ ¬ ∃ w n, In w works ∧ ControlPoints.work_name w = JStr n
                          ∧ lower n = lower name)
          ∧ (ControlPoints.match_row lower cache object_id (JStr name)
             = Ok ControlPoints.Untouched
             ↔ name = "")).
Proof.
  intros Hall. destruct (works_dict_total works ∅ Hall) as [d Hd].
  exists d. split; [exact Hd|]. intros Hc.
  pose proof (works_dict_keys works ∅ d (lower name) Hd) as Hk.
  rewrite lookup_empty in Hk.
  assert (Hk' : is_Some (d !! lower name)
                ↔ ∃ w n, In w works ∧ ControlPoints.work_name w = JStr n
                         ∧ lower n = lower name).
  { rewrite Hk. split; [intros [[x Hx] | H]; [discriminate | exact H] | auto]. }
  clear Hk. unfold ControlPoints.match_row. rewrite Hc. cbn [truthy].
  destruct (String.eqb name "") eqn:Hname.
  - apply String.eqb_eq in Hname. cbn [negb]. cbn.
    split; [|split].
    + split; [intros [x [=]] | intros [H _]; contradiction].
    + split; [discriminate | intros [H _]; contradiction].
    + split; [intros _; exact Hname | reflexivity].
  - apply String.eqb_neq in Hname. cbn [negb ControlPoints.lower_of].
    cbn. rewrite <- Hk'. destruct (d !! lower name) as [dates|]; cbn.
    + split; [|split].
      * split; [intros _; split; [exact Hname | eauto] | intros _; eauto].
      * split; [discriminate | intros [_ H]; exfalso; apply H; eauto].
      * split; [discriminate | intros H; contradiction].
    + split; [|split].
      * split; [intros [x [=]] | intros [_ [x [=]]]].
      * split; [intros _; split; [exact Hname | intros [x [=]]] | reflexivity].
      * split; [discriminate | intros H; contradiction].
Qed.

End Names.

Lemma match_row_lowercase_equality_witness :
  ∃ d, ControlPoints.works_dict ascii_lower [work_named "foundation pour"] ∅ = Ok d
       ∧ ((cache_of "foundation pour") !! KNum 7 = Some d →
          ((∃ dates, ControlPoints.match_row ascii_lower
                       (cache_of "foundation pour") (KNum 7)
                       (JStr "Foundation Pour") = Ok (ControlPoints.Matched dates))
           ↔ "Foundation Pour" ≠ ""
             ∧ ∃ w n, In w [work_named "foundation pour"]
                      ∧ ControlPoints.work_name w = JStr n
                      ∧ ascii_lower n = ascii_lower "Foundation Pour")
          ∧ (ControlPoints.match_row ascii_lower
               (cache_of "foundation pour") (KNum 7)
               (JStr "Foundation Pour") = Ok ControlPoints.WorkNotFound
             ↔ "Foundation Pour" ≠ ""
               ∧ ¬ ∃ w n, In w [work_named "foundation pour"]
                          ∧ ControlPoints.work_name w = JStr n
                          ∧ ascii_lower n = ascii_lower "Foundation Pour")
          ∧ (ControlPoints.match_row ascii_lower
               (cache_of "foundation pour") (KNum 7)
               (JStr "Foundation Pour") = Ok ControlPoints.Untouched
             ↔ "Foundation Pour" = "")).
Proof.
  apply (match_row_lowercase_equality ascii_lower [work_named "foundation pour"]
           (cache_of "foundation pour") (KNum 7) "Foundation Pour").
  intros w [<- | []]. exists "foundation pour". reflexivity.
Defined.

(** A control point without a name is left as it is, even when the ledger
    has a work without a name. *)
Example empty_name_is_not_compared :
  ControlPoints.works_dict ascii_lower [work_named ""] ∅ = Ok (ledger_of "")
  ∧ ControlPoints.match_row ascii_lower (cache_of "") (KNum 7) (JStr "")
    = Ok ControlPoints.Untouched.
Proof. split; vm_compute; reflexivity. Qed.

(** The names of the specification's test. *)
Example foundation_pour_matches :
  ControlPoints.match_row ascii_lower
    (cache_of "foundation pour") (KNum 7) (JStr "Foundation Pour")
  = Ok (ControlPoints.Matched no_dates).
Proof. vm_compute. reflexivity. Qed.

Example foundation_pour_two_spaces :
  ControlPoints.match_row ascii_lower
    (cache_of "foundation  pour") (KNum 7) (JStr "Foundation Pour")
  = Ok ControlPoints.WorkNotFound.
Proof. vm_compute. reflexivity. Qed.

Example foundation_pouring :
  ControlPoints.match_row ascii_lower
    (cache_of "foundation pour") (KNum 7) (JStr "Foundation Pouring")
  = Ok ControlPoints.WorkNotFound.
Proof. vm_compute. reflexivity. Qed.

(** C5, as stated, fails: the two names are equal once trimmed and
    lowercased, and the control point is marked as not found, because of
    the space that ends its name. *)
Lemma trailing_space_prevents_match :
  ascii_lower (strip "Foundation Pour ") = ascii_lower (strip "foundation pour")
  ∧ ControlPoints.works_dict ascii_lower [work_named "foundation pour"] ∅
    = Ok (ledger_of "foundation pour")
  ∧ ControlPoints.match_row ascii_lower
      (cache_of "foundation pour") (KNum 7) (JStr "Foundation Pour ")
    = Ok ControlPoints.WorkNotFound.
Proof.
  split; [reflexivity|]. split; vm_compute; reflexivity.
Qed.

(** ** The photo check ([check_photos.py]) *)

(** *** The two latest dates *)

Lemma insert_desc_perm d l : CheckPhotos.insert_desc d l ≡ₚ d :: l.
Proof.
  induction l as [|x l IH]; cbn; [reflexivity|].
  destruct (String.leb x d); [reflexivity|].
  rewrite IH. apply Permutation_swap.
Qed.

Lemma sorted_desc_perm l : CheckPhotos.sorted_desc l ≡ₚ l.
Proof.
  induction l as [|x l IH]; cbn; [reflexivity|].
  rewrite insert_desc_perm. now rewrite IH.
Qed.

Lemma insert_desc_sorted d l :
  StronglySorted (flip String.le) l →
  StronglySorted (flip String.le) (CheckPhotos.insert_desc d l).
Proof.
  induction 1 as [|x l Hs IH Hall]; cbn.
  - repeat constructor.
  - destruct (String.leb x d) eqn:Hxd.
    + constructor; [now constructor|].
      assert (Hle : String.le x d) by (unfold String.le; now rewrite Hxd).
      constructor; [exact Hle|].
      eapply Forall_impl; [exact Hall|]. intros y Hy. cbn in *.
      etransitivity; eassumption.
    + constructor; [exact IH|].
      rewrite insert_desc_perm. constructor; [|exact Hall].
      cbn. destruct (total String.le d x) as [H | H]; [exact H|].
      unfold String.le in H. rewrite Hxd in H. destruct H.
Qed.

Lemma sorted_desc_sorted l : StronglySorted (flip String.le) (CheckPhotos.sorted_desc l).
Proof.
  induction l as [|x l IH]; cbn; [constructor | now apply insert_desc_sorted].
Qed.

(** The dates of a set, sorted: the first two are its two latest dates. *)
Lemma two_latest (dates : gset string) d0 d1 rest :
  CheckPhotos.sorted_desc (elements dates) = d0 :: d1 :: rest →
  d0 ∈ dates ∧ d1 ∈ dates ∧ d0 ≠ d1 ∧ String.le d1 d0
  ∧ ∀ d, d ∈ dates → d = d0 ∨ String.le d d1.
Proof.
  intros E.
  pose proof (sorted_desc_perm (elements dates)) as Hp.
  pose proof (sorted_desc_sorted (elements dates)) as Hs.
  pose proof (NoDup_elements dates) as Hn.
  rewrite <- Hp in Hn. rewrite E in Hp, Hs, Hn.
  assert (Hin : ∀ d, d ∈ dates ↔ d ∈ d0 :: d1 :: rest).
  { intros d. rewrite Hp. symmetry. apply elem_of_elements. }
  apply StronglySorted_inv in Hs as [Hs H0]. apply StronglySorted_inv in Hs as [_ H1].
  apply NoDup_cons in Hn as [Hn0 _].
  split; [apply Hin, elem_of_cons; now left|].
  split; [apply Hin, elem_of_cons; right; apply elem_of_cons; now left|].
  split; [intros ->; apply Hn0, elem_of_cons; now left|].
  split; [now apply Forall_cons in H0 as [? _]|].
  intros d Hd. apply Hin in Hd.
  apply elem_of_cons in Hd as [-> | Hd]; [now left|]. right.
  apply elem_of_cons in Hd as [-> | Hd]; [reflexivity|].
  rewrite Forall_forall in H1. now apply H1.
Qed.

Lemma sorted_desc_length (dates : gset string) :
  length (CheckPhotos.sorted_desc (elements dates)) = size dates.
Proof. now rewrite sorted_desc_perm. Qed.

(** *** The photos of a date *)

Lemma first_word_total t :
  String.eqb (lstrip t) "" = false → ∃ d, first_word t = Ok d.
Proof.
  unfold first_word. destruct (lstrip t); [discriminate | eauto].
Qed.

Lemma photo_dates_total photos dates :
  forallb well_timed photos = true →
  ∃ dates', CheckPhotos.photo_dates photos dates = Ok dates'.
Proof.
  revert dates. induction photos as [|photo photos IH]; intros dates; cbn.
  - eauto.
  - rewrite andb_true_iff. intros [Hp Hall].
    destruct photo as [| | | | |kvs]; try discriminate. cbn in Hp |- *.
    destruct (assoc "taken_at" kvs) as [[| | |t| |]|]; try discriminate; cbn.
    + destruct (negb (String.eqb t "")); [|now apply IH].
      destruct (str_contains " " t); cbn in Hp |- *; [|now apply IH].
      apply negb_true_iff, first_word_total in Hp as [d ->]. cbn. now apply IH.
    + now apply IH.
Qed.

Lemma photos_of_date_total d photos :
  forallb well_timed photos = true →
  ∃ ps, CheckPhotos.photos_of_date d photos = Ok ps ∧ Forall (λ p, is_dict p = true) ps.
Proof.
  induction photos as [|photo photos IH]; cbn.
  - eauto.
  - rewrite andb_true_iff. intros [Hp Hall].
    destruct (IH Hall) as (ps & -> & Hps).
    destruct photo as [| | | | |kvs]; try discriminate. cbn in Hp |- *.
    destruct (assoc "taken_at" kvs) as [[| | |t| |]|]; try discriminate; cbn.
    + destruct (startswith t d);
        (eexists; split; [reflexivity|]; try constructor; auto).
    + destruct d; (eexists; split; [reflexivity|]; try constructor; auto).
Qed.

Lemma photo_dates_capture photos dates :
  forallb capture_time_read photos = true →
  CheckPhotos.photo_dates photos dates = Ok (capture_dates photos ∪ dates).
Proof.
  unfold capture_dates.
  revert dates. induction photos as [|photo photos IH]; intros dates; cbn.
  - intros _. f_equal. set_solver.
  - rewrite andb_true_iff. intros [Hp Hall].
    destruct photo as [| | | | |kvs]; try discriminate. cbn in Hp |- *.
    destruct (assoc "taken_at" kvs) as [v|]; cbn; [|now apply IH].
    assert (Hother : truthy v = false
                     → (if truthy v
                        then match v with
                             | JStr s =>
                                 (if str_contains " " s then first_word s else Ok s)
                                 ≫= λ date_only,
                                      CheckPhotos.photo_dates photos
                                        ({[date_only]} ∪ dates)
                             | _ => py_in " " v
                                    ≫= λ has : bool,
                                         if has then Raise AttributeError
                                         else Raise TypeError
                             end
                        else CheckPhotos.photo_dates photos dates)
                       = Ok (list_to_set (omap capture_date photos) ∪ dates))
      by (intros ->; now apply IH).
    destruct v as [|b|n|t|l|o];
      try (rewrite Hother by (now apply negb_true_iff); reflexivity).
    clear Hother. cbn [truthy].
    destruct (String.eqb t "") eqn:Ht; cbn; [now apply IH|].
    destruct (str_contains " " t); cbn in Hp |- *.
    + apply negb_true_iff in Hp. unfold first_word.
      destruct (lstrip t) as [|c rest] eqn:Hl; [discriminate|]. cbn [mbind result_bind].
      rewrite IH by exact Hall. f_equal. set_solver.
    + rewrite IH by exact Hall. f_equal. set_solver.
Qed.

(** The filter on a date reads [taken_at] as a string: a record that has
    the entry with another value ends it. *)
Lemma photos_of_date_raises d photos kvs v :
  In (JObj kvs) photos → assoc "taken_at" kvs = Some v → (∀ s, v ≠ JStr s) →
  ∃ e, CheckPhotos.photos_of_date d photos = Raise e.
Proof.
  intros Hin Hv Hns. induction photos as [|p photos IH]; [destruct Hin|].
  cbn [CheckPhotos.photos_of_date]. destruct Hin as [-> | Hin].
  - cbn. rewrite Hv. cbn. destruct v; try (eexists; reflexivity).
    now destruct (Hns s).
  - destruct (IH Hin) as [e He]. rewrite He.
    destruct (dict_get p "taken_at" (JStr "")) as [[| | |t| |]|e'];
      eexists; reflexivity.
Qed.

(** The first two dates of the sorted list are the two latest dates. *)
Lemma among_two_latest_sorted (dates : gset string) d0 d1 rest y :
  CheckPhotos.sorted_desc (elements dates) = d0 :: d1 :: rest →
  y ∈ [d0; d1] ↔ among_two_latest y dates.
Proof.
  intros E. destruct (two_latest dates d0 d1 rest E) as (H0 & H1 & Hne & Hle & Hall).
  unfold among_two_latest. rewrite !elem_of_cons, elem_of_nil. split.
  - intros [-> | [-> | []]].
    + split; [exact H0|]. intros a b Ha Hb Hya Hay _ _. exfalso.
      destruct (Hall a Ha) as [-> | Ha1]; [now apply Hay|].
      apply Hay. apply (anti_symm String.le); [|exact Hya].
      now transitivity d1.
    + split; [exact H1|]. intros a b Ha Hb Hya Hay Hyb Hby.
      destruct (Hall a Ha) as [-> | Ha1];
        [|exfalso; apply Hay; now apply (anti_symm String.le)].
      destruct (Hall b Hb) as [-> | Hb1]; [reflexivity|].
      exfalso; apply Hby; now apply (anti_symm String.le).
  - intros [Hy Hmost]. destruct (Hall y Hy) as [-> | Hy1]; [now left|].
    right. left. destruct (decide (y = d1)) as [-> | Hyd]; [reflexivity|].
    exfalso. apply Hne. apply Hmost; try assumption.
    + now transitivity d1.
    + intros ->. apply Hyd. now apply (anti_symm String.le).
    + intros ->. now apply Hyd.
Qed.

(** *** The hashes *)

Section Hashes.

Variable server : upstream.
Variable md5 : string → string.

Lemma get_photo_hash_total photo_url base uin d w :
  ∃ h w', CheckPhotos.get_photo_hash server md5 photo_url base uin d w = (Ok h, w').
Proof.
  unfold CheckPhotos.get_photo_hash.
  destruct (_ || _); [eexists _, _; reflexivity|].
  unfold try_except. rewrite bind_run.
  destruct (send server _ w) as [[rs|e] w1];
    [destruct (status_code rs =? 200)|]; eexists _, _; reflexivity.
Qed.

(** The loop over the photos of the older date finds a hash of the newer
    date exactly when the two sets of hashes meet. *)
Lemma find_duplicate_meets base uin d photos (hashes_date1 : gset string) w :
  Forall (λ p, is_dict p = true) photos →
  ∃ (X : gset string) w' b w'',
    (∀ acc, CheckPhotos.hashes_of server md5 base uin d photos acc w = (Ok (acc ∪ X), w'))
    ∧ CheckPhotos.find_duplicate server md5 base uin d photos hashes_date1 w = (Ok b, w'')
    ∧ (b = true ↔ ∃ h, h ∈ hashes_date1 ∧ h ∈ X).
Proof.
  intros Hall. revert w. induction Hall as [|photo photos Hp _ IH]; intros w.
  - exists ∅, w, false, w. split; [|split].
    + intros acc. rewrite (right_id_L ∅ (∪) acc). reflexivity.
    + reflexivity.
    + split; [discriminate | set_solver].
  - destruct photo as [| | | | |kvs]; try discriminate.
    cbn [CheckPhotos.hashes_of CheckPhotos.find_duplicate].
    destruct (get_photo_hash_total (default JNull (assoc "photo_url" kvs)) base uin d w)
      as (h & w1 & Hh).
    destruct (IH w1) as (X & w' & b & w'' & HX & Hf & Hb).
    destruct h as [h|].
    + destruct (truthy_str (Some h)) eqn:Ht.
      * exists ({[h]} ∪ X), w'.
        destruct (bool_decide (h ∈ hashes_date1)) eqn:Hin.
        -- exists true, w1. split; [|split].
           ++ intros acc. rewrite bind_run. unfold lift at 1. cbn [dict_get].
              cbv beta iota. rewrite bind_run, Hh. cbv beta iota. rewrite Ht, HX.
              now replace (acc ∪ ({[h]} ∪ X)) with ({[h]} ∪ acc ∪ X) by set_solver.
           ++ rewrite bind_run. unfold lift at 1. cbn [dict_get].
              cbv beta iota. rewrite bind_run, Hh. cbv beta iota. rewrite Ht, Hin.
              reflexivity.
           ++ split; [|reflexivity]. intros _. exists h.
              apply bool_decide_eq_true in Hin. set_solver.
        -- exists b, w''. split; [|split].
           ++ intros acc. rewrite bind_run. unfold lift at 1. cbn [dict_get].
              cbv beta iota. rewrite bind_run, Hh. cbv beta iota. rewrite Ht, HX.
              now replace (acc ∪ ({[h]} ∪ X)) with ({[h]} ∪ acc ∪ X) by set_solver.
           ++ rewrite bind_run. unfold lift at 1. cbn [dict_get].
              cbv beta iota. rewrite bind_run, Hh. cbv beta iota. rewrite Ht, Hin.
              exact Hf.
           ++ rewrite Hb. apply bool_decide_eq_false in Hin. set_solver.
      * exists X, w', b, w''. split; [|split].
        -- intros acc. rewrite bind_run. unfold lift at 1. cbn [dict_get].
           cbv beta iota. rewrite bind_run, Hh. cbv beta iota. rewrite Ht. apply HX.
        -- rewrite bind_run. unfold lift at 1. cbn [dict_get].
           cbv beta iota. rewrite bind_run, Hh. cbv beta iota. rewrite Ht.
           exact Hf.
        -- exact Hb.
    + exists X, w', b, w''. split; [|split].
      * intros acc. rewrite bind_run. unfold lift at 1. cbn [dict_get].
        cbv beta iota. rewrite bind_run, Hh. cbv beta iota. apply HX.
      * rewrite bind_run. unfold lift at 1. cbn [dict_get].
        cbv beta iota. rewrite bind_run, Hh. cbv beta iota. exact Hf.
      * exact Hb.
Qed.

End Hashes.

(** *** The classification *)

Section PhotoStatus.

Variable server : upstream.
Variable md5 : string → string.
Variable yesterday_str : string.

Lemma read_photos_run rs kvs photos uin dates w :
  json_body rs = Some (JObj kvs) →
  default (JArr []) (assoc "photos" kvs) = JArr photos →
  dict_get (default (JObj []) (assoc "object" kvs)) "uin" (JStr "") = Ok uin →
  CheckPhotos.photo_dates photos ∅ = Ok dates →
  CheckPhotos.read_photos yesterday_str rs w
  = (Ok match photos with
        | [] => CheckPhotos.Returned CheckPhotos.no_photos false
        | _ =>
            let last_two := take 2 (CheckPhotos.sorted_desc (elements dates)) in
            CheckPhotos.Dated photos (default (JStr "") (assoc "basePhotoUrl" kvs)) uin
              last_two (bool_decide (yesterday_str ∈ last_two))
        end, w).
Proof.
  intros Hb Hp Hu Hd. unfold CheckPhotos.read_photos, response_json. rewrite Hb.
  rewrite mret_bind_run. cbn [dict_get]. rewrite lift_bind_run, Hp.
  destruct photos as [|photo photos]; [reflexivity|].
  cbn [truthy negb]. rewrite !lift_bind_run, Hu, lift_bind_run.
  cbn [iter]. rewrite lift_bind_run, Hd, lift_bind_run. reflexivity.
Qed.

(** The run of [get_photo_status] once its request is answered. *)
Lemma get_photo_status_run object_id w :
  answered server (dashboard_request object_id w) w →
  CheckPhotos.get_photo_status server md5 yesterday_str object_id w
  = let w1 := after server (dashboard_request object_id w) w in
    if negb (status_code (dashboard_reply server object_id w) =? 200)
    then (Ok (CheckPhotos.no_photos, false), w1)
    else match CheckPhotos.read_photos yesterday_str
                 (dashboard_reply server object_id w) w1 with
         | (Ok (CheckPhotos.Returned status flag), w') => (Ok (status, flag), w')
         | (Ok (CheckPhotos.Dated ps b u l y), w') =>
             try_except (CheckPhotos.compare_photos server md5 ps b u l y)
               (λ _, mret (CheckPhotos.no_photos, y)) w'
         | (Raise _, w') => (Raise UnboundLocalError, w')
         end.
Proof.
  intros Ha. unfold CheckPhotos.get_photo_status. run_get.
  fold (get_request ("/api/dashboard/" +:+ py_str object_id) w).
  fold (dashboard_request object_id w).
  fold (reply_to server (dashboard_request object_id w) w).
  change (reply_to server (dashboard_request object_id w) w)
    with (dashboard_reply server object_id w).
  destruct (negb _); [reflexivity|].
  rewrite bind_run. unfold try_except at 1.
  destruct (CheckPhotos.read_photos _ _ _) as [[[st fl | ps b u l y] | e] w'];
    reflexivity.
Qed.

(** The case analysis of [get_photo_status] when the capture time of
    every record is absent or a string. For a dashboard document that is an
    object, whose [object] entry (if any) is an object, and whose photos are
    a list of such records: without a photo the status is "нет фотографий"
    and the flag is false; with fewer than two dates the status is "есть
    совпадение" and the flag tells whether yesterday is among the dates;
    with two dates or more, the two latest dates are compared: the status
    is "есть совпадение" when a hash of the photos of the older one is a
    hash of the photos of the newer one, and "фото в порядке" when the two
    sets of hashes are disjoint. *)
Lemma get_photo_status_cases object_id w kvs photos uin :
  answered server (dashboard_request object_id w) w →
  status_code (dashboard_reply server object_id w) = 200 →
  json_body (dashboard_reply server object_id w) = Some (JObj kvs) →
  default (JArr []) (assoc "photos" kvs) = JArr photos →
  dict_get (default (JObj []) (assoc "object" kvs)) "uin" (JStr "") = Ok uin →
  forallb well_timed photos = true →
  let base := default (JStr "") (assoc "basePhotoUrl" kvs) in
  let w1 := after server (dashboard_request object_id w) w in
  let result := fst (CheckPhotos.get_photo_status server md5 yesterday_str object_id w) in
  ∃ dates,
    CheckPhotos.photo_dates photos ∅ = Ok dates
    ∧ (photos = [] → result = Ok (CheckPhotos.no_photos, false))
    ∧ (photos ≠ [] → (size dates < 2)%nat →
       result = Ok (CheckPhotos.match_present, bool_decide (yesterday_str ∈ dates)))
    ∧ (photos ≠ [] → (2 ≤ size dates)%nat →
       ∃ d0 d1 newer older (hashes0 hashes1 : gset string) w2 w3,
         (d0 ∈ dates ∧ d1 ∈ dates ∧ d0 ≠ d1 ∧ String.le d1 d0
          ∧ ∀ d, d ∈ dates → d = d0 ∨ String.le d d1)
         ∧ CheckPhotos.photos_of_date d0 photos = Ok newer
         ∧ CheckPhotos.photos_of_date d1 photos = Ok older
         ∧ CheckPhotos.hashes_of server md5 base uin d0 newer ∅ w1 = (Ok hashes0, w2)
         ∧ CheckPhotos.hashes_of server md5 base uin d1 older ∅ w2 = (Ok hashes1, w3)
         ∧ result = Ok (if decide (hashes0 ∩ hashes1 = ∅) then CheckPhotos.photos_ok
                        else CheckPhotos.match_present,
                        bool_decide (yesterday_str = d0 ∨ yesterday_str = d1))).
Proof.
  intros Ha Hs Hb Hp Hu Hwt base w1 result.
  destruct (photo_dates_total photos ∅ Hwt) as [dates Hd].
  exists dates. split; [exact Hd|].
  subst result. rewrite (get_photo_status_run _ _ Ha). cbv zeta. fold w1. rewrite Hs.
  change (negb (200 =? 200)) with false. cbv iota.
  rewrite (read_photos_run _ kvs photos uin dates w1 Hb Hp Hu Hd).
  fold base.
  destruct photos as [|photo photos'] eqn:Ephotos.
  { split; [reflexivity|]. split; intros Hne; contradiction. }
  rewrite <- Ephotos in *.
  split; [intros E0; rewrite E0 in Ephotos; discriminate|].
  cbv zeta.
  pose proof (sorted_desc_length dates) as Hlen.
  pose proof (sorted_desc_perm (elements dates)) as Hperm.
  destruct (CheckPhotos.sorted_desc (elements dates)) as [|d0 [|d1 rest]] eqn:El.
  - (* no date *)
    split; [|intros _ H2; cbn in Hlen; lia].
    intros _ _. cbn. f_equal. f_equal. apply bool_decide_ext.
    rewrite <- elem_of_elements, <- Hperm. reflexivity.
  - (* one date *)
    split; [|intros _ H2; cbn in Hlen; lia].
    intros _ _. cbn. f_equal. f_equal. apply bool_decide_ext.
    rewrite <- elem_of_elements, <- Hperm. reflexivity.
  - (* two dates or more *)
    split; [intros _ H2; cbn in Hlen; lia|]. intros _ _.
    pose proof (two_latest dates d0 d1 rest El) as Hlatest.
    assert (Hne : String.eqb d0 d1 = false)
      by (apply String.eqb_neq; apply Hlatest).
    destruct (photos_of_date_total d0 photos Hwt) as (newer & Hnewer & Hdn).
    destruct (photos_of_date_total d1 photos Hwt) as (older & Holder & Hdo).
    destruct (find_duplicate_meets server md5 base uin d0 newer ∅ w1 Hdn)
      as (hashes0 & w2 & _ & _ & Hh0 & _ & _).
    destruct (find_duplicate_meets server md5 base uin d1 older hashes0 w2 Hdo)
      as (hashes1 & w3 & dup & w4 & Hh1 & Hfind & Hdup).
    specialize (Hh0 ∅). specialize (Hh1 ∅).
    rewrite (left_id_L ∅ (∪)) in Hh0, Hh1.
    exists d0, d1, newer, older, hashes0, hashes1, w2, w3.
    split; [exact Hlatest|]. do 4 (split; [assumption|]).
    cbn [take]. unfold try_except, CheckPhotos.compare_photos.
    rewrite Hne. cbn [negb]. rewrite Hnewer, lift_bind_run, Holder, lift_bind_run.
    rewrite bind_run, Hh0. cbv beta iota. rewrite bind_run, Hfind. cbv beta iota.
    assert (Hflag : bool_decide (yesterday_str ∈ [d0; d1])
                    = bool_decide (yesterday_str = d0 ∨ yesterday_str = d1)).
    { apply bool_decide_ext. rewrite !elem_of_cons, elem_of_nil. tauto. }
    change (take 0 rest) with (@nil string). rewrite Hflag.
    destruct dup.
    + destruct (proj1 Hdup eq_refl) as (h & Hin0 & Hin1).
      destruct (decide (hashes0 ∩ hashes1 = ∅)) as [He|_]; [set_solver|reflexivity].
    + destruct (decide (hashes0 ∩ hashes1 = ∅)) as [_|He]; [reflexivity|].
      exfalso. apply He. apply set_eq. intros h. split; [|set_solver].
      intros Hh. apply elem_of_intersection in Hh as [Hin0 Hin1].
      assert (false = true) by (apply Hdup; eauto). discriminate.
Qed.

(** C3 (the code departs from it). The photos are records whose capture
    time the first loop reads, two of them have different dates, and one
    has a [taken_at] entry that is not a string (the [null] that the first
    loop skips): whatever the hashes of the photos are, the status is "нет
    фотографий", not "фото в порядке" nor "есть совпадение". The filter of
    the photos of a date calls [startswith] on that entry, the handler of
    the [try] block answers, and no photo is fetched. The flag tells
    whether yesterday is one of the two latest dates. *)
Theorem get_photo_status_null_capture_time
    object_id w kvs photos uin p0 p1 d0 d1 untimed v :
  answered server (dashboard_request object_id w) w →
  status_code (dashboard_reply server object_id w) = 200 →
  json_body (dashboard_reply server object_id w) = Some (JObj kvs) →
  default (JArr []) (assoc "photos" kvs) = JArr photos →
  dict_get (default (JObj []) (assoc "object" kvs)) "uin" (JStr "") = Ok uin →
  forallb capture_time_read photos = true →
  In p0 photos → capture_date p0 = Some d0 →
  In p1 photos → capture_date p1 = Some d1 →
  d0 ≠ d1 →
  In (JObj untimed) photos → assoc "taken_at" untimed = Some v → (∀ s, v ≠ JStr s) →
  ∃ flag,
    CheckPhotos.get_photo_status server md5 yesterday_str object_id w
    = (Ok (CheckPhotos.no_photos, flag), after server (dashboard_request object_id w) w)
    ∧ (flag = true ↔ among_two_latest yesterday_str (capture_dates photos)).
Proof.
  intros Ha Hs Hb Hp Hu Hread Hin0 Hd0 Hin1 Hd1 Hne Hin Hv Hns.
  pose proof (photo_dates_capture photos ∅ Hread) as Hd.
  rewrite (right_id_L ∅ (∪)) in Hd.
  assert (Hmem : ∀ p d, In p photos → capture_date p = Some d → d ∈ capture_dates photos).
  { intros p d Hip Hpd. unfold capture_dates. apply elem_of_list_to_set.
    apply list_elem_of_omap. exists p. split; [|exact Hpd].
    now apply list_elem_of_In. }
  rewrite (get_photo_status_run _ _ Ha). cbv zeta. rewrite Hs.
  change (negb (200 =? 200)) with false. cbv iota.
  rewrite (read_photos_run _ kvs photos uin _ _ Hb Hp Hu Hd).
  destruct photos as [|photo photos'] eqn:Ephotos; [destruct Hin|].
  rewrite <- Ephotos in *. cbv zeta.
  pose proof (sorted_desc_perm (elements (capture_dates photos))) as Hperm.
  destruct (CheckPhotos.sorted_desc (elements (capture_dates photos)))
    as [|e0 [|e1 rest]] eqn:El.
  - exfalso. apply (Hmem _ _ Hin0) in Hd0.
    apply elem_of_elements in Hd0. rewrite <- Hperm in Hd0.
    now apply elem_of_nil in Hd0.
  - exfalso. apply Hne.
    apply (Hmem _ _ Hin0) in Hd0. apply (Hmem _ _ Hin1) in Hd1.
    apply elem_of_elements in Hd0, Hd1. rewrite <- Hperm in Hd0, Hd1.
    apply list_elem_of_singleton in Hd0, Hd1. congruence.
  - pose proof (two_latest _ e0 e1 rest El) as Hlatest.
    assert (Hne' : String.eqb e0 e1 = false) by (apply String.eqb_neq; apply Hlatest).
    destruct (photos_of_date_raises e0 photos untimed v Hin Hv Hns) as [e He].
    exists (bool_decide (yesterday_str ∈ [e0; e1])). split.
    + cbn [take]. unfold try_except, CheckPhotos.compare_photos.
      rewrite Hne'. cbn [negb]. rewrite bind_run. unfold lift at 1. rewrite He.
      reflexivity.
    + rewrite bool_decide_eq_true. now apply among_two_latest_sorted with rest.
Qed.

End PhotoStatus.

Lemma get_photo_status_null_capture_time_witness :
  ∃ flag,
    CheckPhotos.get_photo_status (server_photos untimed_photos) digest "2024-05-02"
      (JNum 7) init
    = (Ok (CheckPhotos.no_photos, flag),
       after (server_photos untimed_photos) (dashboard_request (JNum 7) init) init)
    ∧ (flag = true ↔ among_two_latest "2024-05-02" (capture_dates untimed_photos)).
Proof.
  apply (get_photo_status_null_capture_time (server_photos untimed_photos) digest
           "2024-05-02" (JNum 7) init (photo_document untimed_photos) untimed_photos
           (JStr "U7")
           (photo "2024-05-02 09:00:00" "a.jpg") (photo "2024-05-01 09:00:00" "b.jpg")
           "2024-05-02" "2024-05-01"
           [("taken_at", JNull); ("photo_url", JStr "d.jpg")] JNull);
    try reflexivity; try discriminate.
  - left. reflexivity.
  - right. left. reflexivity.
  - right. right. left. reflexivity.
Defined.

(** The cases of the specification's test, run. *)
Example no_photo :
  fst (CheckPhotos.get_photo_status (server_photos []) digest "2024-05-02" (JNum 7) init)
  = Ok (CheckPhotos.no_photos, false).
Proof. vm_compute. reflexivity. Qed.

Example one_date_yesterday :
  fst (CheckPhotos.get_photo_status
         (server_photos [photo "2024-05-02 09:00:00" "a.jpg"]) digest "2024-05-02"
         (JNum 7) init)
  = Ok (CheckPhotos.match_present, true).
Proof. vm_compute. reflexivity. Qed.

Example two_dates_fresh :
  fst (CheckPhotos.get_photo_status (server_photos fresh_photos) digest "2024-05-02"
         (JNum 7) init)
  = Ok (CheckPhotos.photos_ok, true).
Proof. vm_compute. reflexivity. Qed.

Example two_dates_stale :
  fst (CheckPhotos.get_photo_status (server_photos stale_photos) digest "2024-05-03"
         (JNum 7) init)
  = Ok (CheckPhotos.match_present, false).
Proof. vm_compute. reflexivity. Qed.

(** The photos have two dates and no hash in common (without the last
    record the status is "фото в порядке"), and the status is "нет
    фотографий", because the capture time of a record is [null]. *)
Example untimed_photo_hides_the_others :
  CheckPhotos.photo_dates untimed_photos ∅ = Ok two_dates
  ∧ fst (CheckPhotos.get_photo_status (server_photos fresh_photos) digest "2024-05-02"
           (JNum 7) init) = Ok (CheckPhotos.photos_ok, true)
  ∧ fst (CheckPhotos.get_photo_status (server_photos untimed_photos) digest "2024-05-02"
           (JNum 7) init) = Ok (CheckPhotos.no_photos, true).
Proof.
  split; [|split]; vm_compute; reflexivity.
Qed.

(** * Further properties of the scripts *)

(** ** The getters of the client *)

Section Getters.

Variable server : upstream.

(** X1. [get_json] gives one request to the session. When the request is
    answered it does not raise: it returns [None] unless the reply has
    status 200 and a body that decodes, which it returns. When the session
    raises (a connection that fails, a path that is not a URL the session
    takes), so does [get_json]: the request is made outside its [try]. *)
Theorem get_json_soft_failure path w :
  (answered server (get_request path w) w →
   ∃ v, get_json server path w = (Ok v, after server (get_request path w) w)
        ∧ (v ≠ JNull →
           status_code (reply_to server (get_request path w) w) = 200
           ∧ json_body (reply_to server (get_request path w) w) = Some v)
        ∧ (status_code (reply_to server (get_request path w) w) = 200 →
           ∀ d, json_body (reply_to server (get_request path w) w) = Some d → v = d))
  ∧ (∀ e, exchange_error server (get_request path w) w = Some e →
          get_json server path w = (Raise e, attempted (get_request path w) w)).
Proof.
  split.
  - intros Ha. unfold get_json. run_get. fold (get_request path w).
    destruct (Z.eqb_spec (status_code (reply_to server (get_request path w) w)) 200)
      as [Hs | Hs].
    + unfold try_except, response_json.
      destruct (json_body (reply_to server (get_request path w) w)) as [d|] eqn:Hb.
      * exists d. split; [reflexivity|]. split; [auto|]. intros _ d' [= <-]. reflexivity.
      * exists JNull. split; [reflexivity|]. split; [congruence|]. intros _ d' [=].
    + exists JNull. split; [reflexivity|]. split; [congruence|]. intros H. contradiction.
  - intros e He. unfold get_json.
    rewrite bind_run, (get_raises server _ _ _ _ e) by exact He. reflexivity.
Qed.

(** X2. [get_dashboard_data] of [cameras.py] gives one request to the
    session. When the request is answered it does not raise, and answers
    that there is video exactly when the reply has status 200 and its
    document has, under [object], a [video_links] that is a non-empty list,
    string or dict. When the connection fails, it raises the exception of
    the session: the request is made outside its [try]. *)
Theorem cameras_video_exactly_when_links object_id w :
  (answered server (dashboard_request object_id w) w →
   ∃ b, Cameras.get_dashboard_data server object_id w
        = (Ok b, after server (dashboard_request object_id w) w)
        ∧ (b = true
           ↔ status_code (dashboard_reply server object_id w) = 200
             ∧ ∃ kvs obj links n,
                 json_body (dashboard_reply server object_id w) = Some (JObj kvs)
                 ∧ assoc "object" kvs = Some (JObj obj)
                 ∧ assoc "video_links" obj = Some links
                 ∧ len links = Ok n ∧ 0 < n))
  ∧ (∀ e, failure server (length (sent w)) (dashboard_request object_id w) = Some e →
          Cameras.get_dashboard_data server object_id w
          = (Raise e, attempted (dashboard_request object_id w) w)).
Proof.
  split; [|intros e He; unfold Cameras.get_dashboard_data;
           rewrite <- dashboard_exchange_error in He;
           rewrite bind_run, (get_raises server _ _ _ _ e) by exact He; reflexivity].
  intros Ha. unfold Cameras.get_dashboard_data, dashboard_reply, dashboard_request.
  run_get.
  fold (get_request ("/api/dashboard/" +:+ py_str object_id) w).
  set (rq := get_request ("/api/dashboard/" +:+ py_str object_id) w).
  destruct (Z.eqb_spec (status_code (reply_to server rq w)) 200) as [Hs | Hs];
    [|exists false; split; [reflexivity|]; split; [discriminate | intros [? _]; contradiction]].
  unfold try_except, response_json.
  destruct (json_body (reply_to server rq w)) as [data|] eqn:Hb;
    [|exists false; split; [reflexivity|]; split;
      [discriminate | intros (_ & ? & ? & ? & ? & [=] & _)]].
  rewrite mret_bind_run.
  destruct data as [| | | | |kvs];
    try (exists false; split; [reflexivity|]; split;
         [discriminate | intros (_ & ? & ? & ? & ? & [=] & _)]).
  cbn [dict_get]. rewrite lift_bind_run.
  destruct (assoc "object" kvs) as [o|] eqn:Ho; cbn [from_option id];
    [|exists false; split; [reflexivity|]; split;
      [discriminate | intros (_ & ? & ? & ? & ? & [= <-] & Ho' & _); congruence]].
  destruct o as [| | | | |obj];
    try (exists false; split; [reflexivity|]; split;
         [discriminate
         | intros (_ & ? & ? & ? & ? & [= <-] & Ho' & _); congruence]).
  cbn [dict_get]. rewrite lift_bind_run.
  destruct (assoc "video_links" obj) as [links|] eqn:Hl; cbn [from_option id];
    [|exists false; split; [reflexivity|]; split;
      [discriminate
      | intros (_ & ? & ? & ? & ? & [= <-] & Ho' & Hl' & _); congruence]].
  assert (Hiff : ∀ b, (b = true ↔ ∃ n, len links = Ok n ∧ 0 < n) →
            b = true
            ↔ 200 = 200
              ∧ ∃ kvs0 obj0 links0 n,
                  Some (JObj kvs) = Some (JObj kvs0)
                  ∧ assoc "object" kvs0 = Some (JObj obj0)
                  ∧ assoc "video_links" obj0 = Some links0
                  ∧ len links0 = Ok n ∧ 0 < n).
  { intros b ->. split.
    - intros (n & Hn & Hpos). split; [reflexivity|]. exists kvs, obj, links, n. auto.
    - intros (_ & kvs0 & obj0 & links0 & n & [= <-] & Ho' & Hl' & Hn & Hpos).
      rewrite Ho in Ho'. injection Ho' as <-. rewrite Hl in Hl'. injection Hl' as <-.
      eauto. }
  rewrite Hs.
  destruct links as [|b0|z|s|l|m]; cbn [truthy];
    try (exists false; split; [reflexivity|]; apply Hiff; split;
         [discriminate | intros (n & [=] & _)]).
  - destruct b0; exists false; (split; [reflexivity|]); apply Hiff;
      (split; [discriminate | intros (n & [=] & _)]).
  - destruct (z =? 0); exists false; (split; [reflexivity|]); apply Hiff;
      (split; [discriminate | intros (n & [=] & _)]).
  - destruct s as [|c s].
    + exists false. split; [reflexivity|]. apply Hiff.
      split; [discriminate | intros (n & [= <-] & Hpos); cbn in Hpos; lia].
    + pose proof (utf8_chars_cons c s) as Hlen.
      assert (Hpos : (0 <? Z.of_nat (length (utf8_chars (String c s)))) = true)
        by (apply Z.ltb_lt; lia).
      exists true. split.
      * change (negb (String.eqb (String c s) "")) with true. cbv iota.
        rewrite bind_run. unfold lift. cbn [len]. cbv beta iota.
        unfold mret, M_ret. now rewrite Hpos.
      * apply Hiff. split; [|reflexivity].
        intros _. eexists. split; [reflexivity|]. lia.
  - destruct l as [|x l].
    + exists false. split; [reflexivity|]. apply Hiff.
      split; [discriminate | intros (n & [= <-] & Hpos); cbn in Hpos; lia].
    + exists true. split; [reflexivity|]. apply Hiff. split; [|reflexivity].
      intros _. eexists. split; [reflexivity|]. cbn [length]. lia.
  - destruct m as [|x m].
    + exists false. split; [reflexivity|]. apply Hiff.
      split; [discriminate | intros (n & [= <-] & Hpos); cbn in Hpos; lia].
    + exists true. split; [reflexivity|]. apply Hiff. split; [|reflexivity].
      intros _. eexists. split; [reflexivity|]. cbn [length]. lia.
Qed.

End Getters.

(** A path without its leading slash is not a URL the session takes:
    nothing is sent and [get_json] raises. *)
Example get_json_of_a_relative_path :
  get_json server_down "api/catalog" init
  = (Raise InvalidURL, attempted (get_request "api/catalog" init) init).
Proof. vm_compute. reflexivity. Qed.


(** ** The catalog and the video report ([cameras.py]) *)

Lemma dict_has_assoc kvs k : dict_has kvs k = true ↔ is_Some (assoc k kvs).
Proof.
  unfold dict_has. destruct (assoc k kvs); split; try discriminate; eauto.
  intros [x [=]].
Qed.

(** X3. On a catalog of dicts, [get_catalog_objects_info] does not raise: it
    keeps, in their order, the objects that have an [id], a [name] and a
    [uin], and drops the others without a word. *)
Theorem objects_info_keeps_complete_objects objects :
  Forall (λ obj, is_dict obj = true) objects →
  Cameras.objects_info objects = Ok (omap info_of objects).
Proof.
  induction 1 as [|obj objects Hobj _ IH]; [reflexivity|].
  destruct obj as [| | | | |kvs]; try discriminate.
  cbn [Cameras.objects_info omap list_omap info_of].
  unfold py_in, dict_has, dict_item.
  destruct (assoc "id" kvs) as [i|], (assoc "name" kvs) as [n|],
    (assoc "uin" kvs) as [u|]; cbn; rewrite ?IH; reflexivity.
Qed.

Lemma objects_info_keeps_complete_objects_witness :
  Cameras.objects_info catalog_objects
  = Ok [JObj [("id", JNum 1); ("name", JStr "School"); ("uin", JStr "U1")];
        JObj [("id", JNum 3); ("name", JStr "Bridge"); ("uin", JStr "U3")]].
Proof.
  apply (objects_info_keeps_complete_objects catalog_objects).
  repeat constructor.
Defined.

Lemma objects_info_shape objects infos :
  Cameras.objects_info objects = Ok infos →
  Forall (λ info, ∃ i n u, info = JObj [("id", i); ("name", n); ("uin", u)]) infos.
Proof.
  revert infos. induction objects as [|obj objects IH]; intros infos;
    cbn [Cameras.objects_info].
  - intros [= <-]. constructor.
  - destruct (py_in "id" obj) as [has_id|]; [|discriminate]. cbn [mbind result_bind].
    destruct (if has_id then py_in "name" obj else mret false) as [has_name|];
      [|discriminate]. cbn [mbind result_bind].
    destruct (if has_name then py_in "uin" obj else mret false) as [has_uin|];
      [|discriminate]. cbn [mbind result_bind].
    destruct has_uin; [|apply IH].
    destruct (dict_item obj "id") as [i|]; [|discriminate]. cbn [mbind result_bind].
    destruct (dict_item obj "name") as [n|]; [|discriminate]. cbn [mbind result_bind].
    destruct (dict_item obj "uin") as [u|]; [|discriminate]. cbn [mbind result_bind].
    destruct (Cameras.objects_info objects) as [rest|]; [|discriminate].
    cbn [mbind result_bind mret result_ret]. intros [= <-].
    constructor; [eauto | now apply IH].
Qed.

Section VideoReport.

Variable server : upstream.

Lemma cameras_get_dashboard_data_total object_id w :
  answered server (dashboard_request object_id w) w →
  ∃ b, Cameras.get_dashboard_data server object_id w
       = (Ok b, after server (dashboard_request object_id w) w).
Proof.
  intros Ha. unfold Cameras.get_dashboard_data, dashboard_request. run_get.
  fold (get_request ("/api/dashboard/" +:+ py_str object_id) w).
  destruct (status_code _ =? 200); [|eexists; reflexivity].
  unfold try_except, response_json.
  destruct (json_body _) as [d|]; [|eexists; reflexivity].
  rewrite mret_bind_run, bind_run. unfold lift at 1.
  destruct (dict_get d "object" (JObj [])) as [o|]; [|eexists; reflexivity].
  cbv beta iota. rewrite bind_run. unfold lift at 1.
  destruct (dict_get o "video_links" JNull) as [l|]; [|eexists; reflexivity].
  cbv beta iota. destruct (truthy l); [|eexists; reflexivity].
  rewrite bind_run. unfold lift. destruct (len l); eexists; reflexivity.
Qed.

(** X4. When the session answers every request, the loop of
    [get_catalog_with_video_status] never stops on an object: whatever the
    dashboards answer, it adds one row for every object that
    [get_catalog_objects_info] kept, after one request for each. *)
Theorem video_rows_one_row_per_object objects infos data_for_df w :
  Cameras.objects_info objects = Ok infos →
  (∀ n rq, (length (sent w) ≤ n)%nat → failure server n rq = None) →
  ∃ rows w',
    Cameras.video_rows server infos data_for_df w = (Ok (data_for_df ++ rows)%list, w')
    ∧ length rows = length infos
    ∧ length (sent w') = (length (sent w) + length infos)%nat
    ∧ slept w' = slept w.
Proof.
  intros Hinfo. apply objects_info_shape in Hinfo as Hshape. clear Hinfo.
  revert data_for_df w.
  induction Hshape as [|info infos (i & n & u & ->) _ IH]; intros data_for_df w Hup.
  - exists [], w. rewrite app_nil_r. repeat split; cbn; lia.
  - cbn [Cameras.video_rows].
    change (dict_item (JObj [("id", i); ("name", n); ("uin", u)]) "id") with (Ok i).
    change (dict_item (JObj [("id", i); ("name", n); ("uin", u)]) "name") with (Ok n).
    change (dict_item (JObj [("id", i); ("name", n); ("uin", u)]) "uin") with (Ok u).
    rewrite lift_bind_run, bind_run.
    destruct (cameras_get_dashboard_data_total i w) as [b ->].
    { unfold answered. rewrite dashboard_exchange_error. now apply Hup. }
    cbv beta iota. rewrite !lift_bind_run.
    edestruct IH as (rows & w' & -> & Hlen & Hsent & Hslept).
    { intros m rq Hm. apply Hup. cbn in Hm. lia. }
    eexists (_ :: rows), w'. rewrite <- app_assoc. split; [reflexivity|].
    cbn in *. repeat split; lia || exact Hslept.
Qed.

End VideoReport.

Lemma video_rows_one_row_per_object_witness :
  ∃ rows w',
    Cameras.video_rows server_down
      [JObj [("id", JNum 1); ("name", JStr "School"); ("uin", JStr "U1")];
       JObj [("id", JNum 3); ("name", JStr "Bridge"); ("uin", JStr "U3")]] [] init
    = (Ok ([] ++ rows)%list, w')
    ∧ length rows = 2%nat
    ∧ length (sent w') = (length (sent init) + 2)%nat
    ∧ slept w' = slept init.
Proof.
  apply (video_rows_one_row_per_object server_down catalog_objects).
  - vm_compute. reflexivity.
  - reflexivity.
Defined.

(** The report on the example catalog when every dashboard is refused. *)
Example video_report_all_refused :
  fst (Cameras.get_catalog_with_video_status server_catalog_only (Some "СМР") init)
  = Ok [JObj [("name", JStr "School"); ("id", JNum 1); ("uin", JStr "U1");
              ("video", JStr "видео нет")];
        JObj [("name", JStr "Bridge"); ("id", JNum 3); ("uin", JStr "U3");
              ("video", JStr "видео нет")]].
Proof. vm_compute. reflexivity. Qed.

(** ** The rows of the plan and fact report ([plan_fact_parser.py]) *)

(** X5. On a catalog of dicts the comprehension of [get_catalog_ids] does not
    raise: it gives, in their order, the [id] of the objects that have one. *)
Theorem ids_of_objects_with_id objects :
  Forall (λ obj, is_dict obj = true) objects →
  PlanFact.ids_of objects = Ok (omap id_of objects).
Proof.
  induction 1 as [|obj objects Hobj _ IH]; [reflexivity|].
  destruct obj as [| | | | |kvs]; try discriminate.
  cbn [PlanFact.ids_of omap list_omap id_of]. unfold py_in, dict_has, dict_item.
  destruct (assoc "id" kvs) as [i|]; cbn; rewrite ?IH; reflexivity.
Qed.

Lemma ids_of_objects_with_id_witness :
  PlanFact.ids_of [JObj [("id", JNum 1)]; JObj [("name", JStr "x")]; JObj [("id", JNum 3)]]
  = Ok [JNum 1; JNum 3].
Proof.
  apply (ids_of_objects_with_id
           [JObj [("id", JNum 1)]; JObj [("name", JStr "x")]; JObj [("id", JNum 3)]]).
  repeat constructor.
Defined.

Lemma child_rows_of_object obj_id obj_name obj_uin children :
  Forall (row_of_object obj_id obj_name obj_uin)
         (PlanFact.child_rows obj_id obj_name obj_uin children).
Proof.
  unfold PlanFact.child_rows. apply Forall_forall. intros r Hr.
  apply list_elem_of_In, in_flat_map in Hr as (child & _ & Hr).
  destruct child as [| | | | |kvs]; try destruct Hr.
  destruct (dict_has kvs "view_name" && dict_has kvs "fact_oiv"); [|destruct Hr].
  destruct Hr as [<- | []]. repeat split.
Qed.

Lemma stage_rows_of_object obj_id obj_name obj_uin stage rows :
  PlanFact.stage_rows obj_id obj_name obj_uin stage = Ok rows →
  Forall (row_of_object obj_id obj_name obj_uin) rows ∧ (1 ≤ length rows)%nat.
Proof.
  unfold PlanFact.stage_rows.
  destruct (dict_get stage "oiv" (JObj [])) as [oiv|]; [|discriminate].
  cbn [mbind result_bind].
  destruct (dict_get stage "view_name" JNull) as [vn|]; [|discriminate].
  cbn [mbind result_bind].
  destruct (dict_get oiv "fact" JNull) as [f|]; [|discriminate]. cbn [mbind result_bind].
  destruct (dict_get oiv "plan" JNull) as [pl|]; [|discriminate]. cbn [mbind result_bind].
  destruct (dict_get oiv "delta_fact_week" JNull) as [fw|]; [|discriminate].
  cbn [mbind result_bind].
  destruct (dict_get oiv "delta_fact_month" JNull) as [fm|]; [|discriminate].
  cbn [mbind result_bind].
  destruct (dict_get oiv "delta_plan_week" JNull) as [pw|]; [|discriminate].
  cbn [mbind result_bind].
  destruct (dict_get oiv "delta_plan_month" JNull) as [pm|]; [|discriminate].
  cbn [mbind result_bind].
  destruct (dict_get stage "children" (JArr [])) as [children|]; [|discriminate].
  cbn [mbind result_bind mret result_ret]. intros [= <-].
  split; [|cbn; lia].
  constructor; [repeat split|].
  destruct children; try constructor; apply child_rows_of_object.
Qed.

Lemma stages_rows_of_object obj_id obj_name obj_uin stages rows :
  PlanFact.stages_rows obj_id obj_name obj_uin stages = Ok rows →
  Forall (row_of_object obj_id obj_name obj_uin) rows
  ∧ (length stages ≤ length rows)%nat.
Proof.
  revert rows. induction stages as [|stage stages IH]; intros rows; cbn.
  - intros [= <-]. split; [constructor | reflexivity].
  - destruct (PlanFact.stage_rows obj_id obj_name obj_uin stage) as [rs|] eqn:Hs;
      [|discriminate]. cbn.
    destruct (PlanFact.stages_rows obj_id obj_name obj_uin stages) as [rest|];
      [|discriminate]. cbn. intros [= <-].
    apply stage_rows_of_object in Hs as [Hrs Hlen].
    destruct (IH rest eq_refl) as [Hrest Hlen'].
    split; [now apply Forall_app|]. rewrite length_app. lia.
Qed.

(** X6. Every row [extract_rows] returns is a row of the object of the
    document: it has the eleven columns of the report in their order, the
    [id], [name] and [uin] of the object, and the link built from its [id];
    and there is at least one row for every construction stage. *)
Theorem extract_rows_of_one_object data rows :
  PlanFact.extract_rows data = Ok rows →
  ∃ obj obj_id obj_name obj_uin stages,
    dict_get data "object" (JObj []) = Ok obj
    ∧ dict_get obj "id" JNull = Ok obj_id
    ∧ dict_get obj "name" JNull = Ok obj_name
    ∧ dict_get obj "uin" JNull = Ok obj_uin
    ∧ (dict_get data "constructionStagesData" (JArr []) ≫= iter) = Ok stages
    ∧ Forall (row_of_object obj_id obj_name obj_uin) rows
    ∧ (length stages ≤ length rows)%nat.
Proof.
  unfold PlanFact.extract_rows.
  destruct (dict_get data "object" (JObj [])) as [obj|]; [|discriminate].
  cbn [mbind result_bind].
  destruct (dict_get obj "id" JNull) as [obj_id|] eqn:Hid; [|discriminate].
  cbn [mbind result_bind].
  destruct (dict_get obj "name" JNull) as [obj_name|] eqn:Hname; [|discriminate].
  cbn [mbind result_bind].
  destruct (dict_get obj "uin" JNull) as [obj_uin|] eqn:Huin; [|discriminate].
  cbn [mbind result_bind].
  destruct (dict_get data "constructionStagesData" (JArr [])) as [st|]; [|discriminate].
  cbn [mbind result_bind].
  destruct (iter st) as [stages|]; [|discriminate]. cbn [mbind result_bind].
  intros H. apply stages_rows_of_object in H as [Hrows Hlen].
  exists obj, obj_id, obj_name, obj_uin, stages. repeat split; assumption || reflexivity.
Qed.

Lemma extract_rows_of_one_object_witness :
  ∃ obj obj_id obj_name obj_uin stages,
    dict_get stages_document "object" (JObj []) = Ok obj
    ∧ dict_get obj "id" JNull = Ok obj_id
    ∧ dict_get obj "name" JNull = Ok obj_name
    ∧ dict_get obj "uin" JNull = Ok obj_uin
    ∧ (dict_get stages_document "constructionStagesData" (JArr []) ≫= iter) = Ok stages
    ∧ Forall (row_of_object obj_id obj_name obj_uin)
        (default [] (match PlanFact.extract_rows stages_document with
                     | Ok rows => Some rows
                     | Raise _ => None
                     end))
    ∧ (length stages
       ≤ length (default [] (match PlanFact.extract_rows stages_document with
                             | Ok rows => Some rows
                             | Raise _ => None
                             end)))%nat.
Proof.
  exact (extract_rows_of_one_object stages_document _ eq_refl).
Defined.

(** The document of the example gives three rows: one for each stage and
    one for the only child that has both keys. *)
Example extract_rows_stages_document :
  (λ r, match r with
        | Ok rows => Some (map (assoc "view_name") rows, map (assoc "plan") rows)
        | Raise _ => None
        end) (PlanFact.extract_rows stages_document)
  = Some ([Some (JStr "walls"); Some (JStr "north"); Some (JStr "roof")],
          [Some (JNum 50); Some JNull; Some JNull]).
Proof. vm_compute. reflexivity. Qed.

Section PlanFactRun.

Variable server : upstream.

(** [get_dashboard_data] returns only after an exchange that was
    answered. *)
Lemma plan_fact_get_dashboard_data_run object_id w v w1 :
  PlanFact.get_dashboard_data server object_id w = (Ok v, w1) →
  w1 = after server (dashboard_request object_id w) w.
Proof.
  unfold PlanFact.get_dashboard_data. rewrite bind_run, get_send.
  fold (get_request ("/api/dashboard/" +:+ py_str object_id) w).
  fold (dashboard_request object_id w).
  destruct (send_cases server (dashboard_request object_id w) w)
    as [[_ ->] | (e & _ & ->)]; [|discriminate].
  destruct (status_code _ =? 200); [|now intros [= _ <-]].
  unfold try_except, response_json. destruct (json_body _); now intros [= _ <-].
Qed.

(** X7. When the loop over the catalog ends, it has kept the rows it started
    with and added to them, it has sent one request for each object, and it
    has paused half a second after each object. *)
Theorem object_loop_throttles objects all_rows rows w w' :
  PlanFact.object_loop server objects all_rows w = (Ok rows, w') →
  (∃ added, rows = (all_rows ++ added)%list)
  ∧ length (sent w') = (length (sent w) + length objects)%nat
  ∧ slept w' = (replicate (length objects) 500 ++ slept w)%list.
Proof.
  revert all_rows w. induction objects as [|value objects IH]; intros all_rows w.
  - cbn. intros [= <- <-]. split; [exists []; now rewrite app_nil_r|]. split; [lia|reflexivity].
  - cbn [PlanFact.object_loop]. rewrite bind_run.
    destruct (PlanFact.get_dashboard_data server value w) as [[data|e] w1] eqn:Hget;
      [|discriminate].
    apply plan_fact_get_dashboard_data_run in Hget as ->.
    cbv beta iota. rewrite bind_run. unfold lift at 1.
    destruct (PlanFact.extract_rows data) as [new|]; [|discriminate].
    cbv beta iota. rewrite bind_run. unfold sleep at 1. cbv beta iota.
    intros H. apply IH in H as ((added & ->) & Hsent & Hslept).
    split; [exists (new ++ added)%list; now rewrite app_assoc|].
    cbn [sent slept after length] in *. split; [lia|].
    rewrite Hslept. cbn [replicate]. clear.
    induction (length objects) as [|n IHn]; [reflexivity|].
    cbn [replicate app]. f_equal. exact IHn.
Qed.

(** X8. A catalog request that is answered with a refusal gives an empty
    report after that single request, and no error. *)
Theorem main_empty_on_refused_catalog w :
  answered server (get_request "/api/catalog" w) w →
  status_code (reply_to server (get_request "/api/catalog" w) w) ≠ 200 →
  PlanFact.main server w = (Ok [], after server (get_request "/api/catalog" w) w).
Proof.
  intros Ha Hs.
  unfold PlanFact.main, PlanFact.get_catalog_ids, PlanFact.get_catalog_objects.
  rewrite !bind_run. rewrite get_run by exact Ha. cbv beta iota zeta.
  fold (get_request "/api/catalog" w).
  apply Z.eqb_neq in Hs. rewrite Hs. reflexivity.
Qed.

End PlanFactRun.

Lemma object_loop_throttles_witness :
  (∃ added, default [] (match fst (PlanFact.object_loop server_stages [JNum 2; JNum 5] [] init)
                        with Ok rows => Some rows | Raise _ => None end)
            = ([] ++ added)%list)
  ∧ length (sent (snd (PlanFact.object_loop server_stages [JNum 2; JNum 5] [] init)))
    = (length (sent init) + 2)%nat
  ∧ slept (snd (PlanFact.object_loop server_stages [JNum 2; JNum 5] [] init))
    = (replicate 2 500 ++ slept init)%list.
Proof.
  destruct (PlanFact.object_loop server_stages [JNum 2; JNum 5] [] init)
    as [r w'] eqn:Hrun.
  assert (Hok : ∃ rows, r = Ok rows).
  { vm_compute in Hrun. injection Hrun as <- _. eexists. reflexivity. }
  destruct Hok as [rows ->].
  exact (object_loop_throttles server_stages [JNum 2; JNum 5] [] rows init w' Hrun).
Defined.

Lemma main_empty_on_refused_catalog_witness :
  PlanFact.main server_down init
  = (Ok [], after server_down (get_request "/api/catalog" init) init).
Proof.
  apply (main_empty_on_refused_catalog server_down init);
    [reflexivity | discriminate].
Defined.

(** ** The work ledger ([control_points_parser.py]) *)

Lemma works_of_dicts ws :
  Forall (λ j, is_dict j = true) ws →
  ∃ l, ControlPoints.works_of ws = Ok l ∧ Forall2 listed_as ws l.
Proof.
  induction 1 as [|j ws Hj _ (l & IH & Hl)].
  - exists []. split; [reflexivity | constructor].
  - destruct j as [| | | | |kvs]; try discriminate.
    cbn [ControlPoints.works_of dict_get mbind result_bind]. rewrite IH.
    eexists. split; [reflexivity|]. constructor; [repeat split | exact Hl].
Qed.

Lemma works_of_not_dicts ws :
  forallb is_dict ws = false → ∃ e, ControlPoints.works_of ws = Raise e.
Proof.
  induction ws as [|j ws IH]; [discriminate|]. cbn [forallb].
  destruct j as [| | | | |kvs]; try (intros _; eexists; reflexivity).
  cbn [is_dict andb]. intros H. destruct (IH H) as [e He].
  cbn [ControlPoints.works_of dict_get mbind result_bind]. rewrite He.
  eexists. reflexivity.
Qed.

(** X9. [get_works] gives all the works of the reply or none: no work when the
    status is not 200 or the body is not JSON; with a list of works, one
    dict per work, in order, each field read by [.get], when every listed
    work is a dict, and no work at all as soon as one of them is not. *)
Theorem get_works_all_or_nothing rs :
  (status_code rs ≠ 200 ∨ json_body rs = None → ControlPoints.get_works rs = [])
  ∧ (∀ data ws,
       status_code rs = 200 → json_body rs = Some data →
       dict_get data "works" (JArr []) = Ok (JArr ws) →
       if forallb is_dict ws then Forall2 listed_as ws (ControlPoints.get_works rs)
       else ControlPoints.get_works rs = []).
Proof.
  split.
  - unfold ControlPoints.get_works. intros [Hs | Hb].
    + apply Z.eqb_neq in Hs. now rewrite Hs.
    + rewrite Hb. now destruct (negb _).
  - intros data ws Hs Hb Hw. unfold ControlPoints.get_works.
    rewrite Hs, Hb. change (negb (200 =? 200)) with false. cbv iota.
    cbn [mbind result_bind]. rewrite Hw. cbn [mbind result_bind iter].
    destruct (forallb is_dict ws) eqn:Hd.
    + assert (Hd' : Forall (λ j, is_dict j = true) ws)
        by (apply List.Forall_forall, forallb_forall; exact Hd).
      destruct (works_of_dicts ws Hd') as (l & -> & Hl). exact Hl.
    + destruct (works_of_not_dicts ws Hd) as [e ->]. reflexivity.
Qed.

Lemma get_works_all_or_nothing_witness :
  ControlPoints.get_works (reply 500 None) = []
  ∧ Forall2 listed_as [JObj [("name", JStr "Roof")]]
      (ControlPoints.get_works (ledger_reply [JObj [("name", JStr "Roof")]]))
  ∧ ControlPoints.get_works (ledger_reply [JObj [("name", JStr "Roof")]; JStr "Walls"]) = [].
Proof.
  split; [|split].
  - apply (get_works_all_or_nothing (reply 500 None)). left. discriminate.
  - exact (proj2 (get_works_all_or_nothing (ledger_reply [JObj [("name", JStr "Roof")]]))
             _ [JObj [("name", JStr "Roof")]] eq_refl eq_refl eq_refl).
  - exact (proj2 (get_works_all_or_nothing
                    (ledger_reply [JObj [("name", JStr "Roof")]; JStr "Walls"]))
             _ [JObj [("name", JStr "Roof")]; JStr "Walls"] eq_refl eq_refl eq_refl).
Defined.

Section LedgerProperties.

Variable lower : string → string.

Lemma works_dict_app a b d0 :
  ControlPoints.works_dict lower (a ++ b)%list d0
  = ControlPoints.works_dict lower a d0 ≫= ControlPoints.works_dict lower b.
Proof.
  revert d0. induction a as [|w a IH]; intros d0; [reflexivity|].
  cbn [app ControlPoints.works_dict].
  destruct (ControlPoints.lower_of lower (ControlPoints.work_name w)); [|reflexivity].
  cbn [mbind result_bind]. apply IH.
Qed.

Lemma works_dict_other works d0 d k :
  ControlPoints.works_dict lower works d0 = Ok d →
  (∀ w n, In w works → ControlPoints.work_name w = JStr n → lower n ≠ k) →
  d !! k = d0 !! k.
Proof.
  revert d0. induction works as [|w works IH]; intros d0; cbn [ControlPoints.works_dict].
  - intros [= <-] _. reflexivity.
  - destruct (ControlPoints.work_name w) as [| | |n| |] eqn:Hn; try discriminate.
    cbn [ControlPoints.lower_of mbind result_bind]. intros H Hk.
    rewrite (IH _ H) by (intros w' n' Hin; apply Hk; now right).
    apply lookup_insert_ne. apply (Hk w n); [now left | exact Hn].
Qed.

(** X10. When two works of a listing have the same name once in lower case, the
    cache keeps the dates of the later one. *)
Theorem works_dict_last_wins before w after d0 d n :
  ControlPoints.works_dict lower (before ++ w :: after)%list d0 = Ok d →
  ControlPoints.work_name w = JStr n →
  (∀ w' n', In w' after → ControlPoints.work_name w' = JStr n' → lower n' ≠ lower n) →
  d !! lower n = Some (dates_of w).
Proof.
  rewrite works_dict_app. intros H Hn Hafter.
  destruct (ControlPoints.works_dict lower before d0) as [d1|]; [|discriminate].
  cbn [mbind result_bind ControlPoints.works_dict] in H. rewrite Hn in H.
  cbn [ControlPoints.lower_of mbind result_bind] in H.
  rewrite (works_dict_other _ _ _ _ H Hafter). apply lookup_insert_eq.
Qed.

(** X11. Filling the cache fails, with [AttributeError], exactly when the name
    of one of the works is not a string. *)
Theorem works_dict_needs_names works d0 :
  ControlPoints.works_dict lower works d0 = Raise AttributeError
  ↔ ∃ w, In w works ∧ ∀ n, ControlPoints.work_name w ≠ JStr n.
Proof.
  revert d0. induction works as [|w works IH]; intros d0; cbn [ControlPoints.works_dict].
  - split; [discriminate | intros (w & [] & _)].
  - destruct (ControlPoints.work_name w) as [| | |n| |] eqn:Hn;
      cbn [ControlPoints.lower_of mbind result_bind];
      try (split; [intros _; exists w; split; [now left | rewrite Hn; discriminate]
                  | reflexivity]).
    rewrite IH. split.
    + intros (w' & Hin & Hw'). exists w'. split; [now right | exact Hw'].
    + intros (w' & [<- | Hin] & Hw'); [now destruct (Hw' n)|].
      exists w'. split; assumption.
Qed.

Variable suid : nat → string → response.



End LedgerProperties.

Lemma works_dict_last_wins_witness :
  match ControlPoints.works_dict ascii_lower
          [work_finished "Roof" "2024-01-01"; work_finished "ROOF" "2024-03-01";
           work_finished "Walls" "2024-02-01"] ∅ with
  | Ok d => d !! "roof" = Some (dates_of (work_finished "ROOF" "2024-03-01"))
  | Raise _ => False
  end.
Proof.
  destruct (ControlPoints.works_dict ascii_lower
              [work_finished "Roof" "2024-01-01"; work_finished "ROOF" "2024-03-01";
               work_finished "Walls" "2024-02-01"] ∅) as [d|e] eqn:H.
  - apply (works_dict_last_wins ascii_lower [work_finished "Roof" "2024-01-01"]
             (work_finished "ROOF" "2024-03-01") [work_finished "Walls" "2024-02-01"]
             ∅ d "ROOF" H eq_refl).
    intros w' n' [<- | []] [= <-]. discriminate.
  - vm_compute in H. discriminate H.
Defined.


(** X13. The rows sent to the ledger are the overdue rows of control points
    whose link does not name [exonproject]; a row without a link is one of
    them. *)
Theorem to_process_selects r suid_url :
  ControlPoints.to_process r suid_url = true
  ↔ ControlPoints.status r ≠ "no_control_points"
    ∧ (∀ s, suid_url = Some s → str_contains "exonproject" s = false)
    ∧ ControlPoints.plan_finish_date r ≠ ControlPoints.fact_finish_date r
    ∧ ∃ p, ControlPoints.plan_finish_date r = Some p
           ∧ date_le p (ControlPoints.today r).
Proof.
  unfold ControlPoints.to_process, ControlPoints.control_point_comparsion,
    ControlPoints.is_exceeded, ControlPoints.np_where.
  destruct (String.eqb_spec (ControlPoints.status r) "no_control_points") as [Hs|Hs].
  { rewrite andb_false_r. cbn. split; [discriminate | intros [H _]; contradiction]. }
  cbn [negb]. rewrite andb_true_r.
  assert (Hurl : match (match suid_url with
                        | Some s => if str_contains "exonproject" s
                                    then Some "объект exon" else None
                        | None => None
                        end) with None => true | Some _ => false end = true
                 ↔ ∀ s, suid_url = Some s → str_contains "exonproject" s = false).
  { destruct suid_url as [s|]; [|split; [intros _ s [=] | reflexivity]].
    destruct (str_contains "exonproject" s) eqn:Hc.
    - split; [discriminate | intros H; specialize (H s eq_refl); congruence].
    - split; [intros _ s' [= <-]; exact Hc | reflexivity]. }
  rewrite andb_true_iff, Hurl. clear Hurl.
  destruct (ControlPoints.col_eq _ _) eqn:Heq.
  - apply col_eq_eq in Heq as (d & Hp & Hf). split; [intros [_ [=]]|].
    intros (_ & _ & Hne & _). congruence.
  - destruct (ControlPoints.plan_finish_date r) as [p|] eqn:Hp; cbn [ControlPoints.col_le].
    + rewrite date_leb_le. split.
      * intros [Hu Hle]. repeat split; [exact Hs | exact Hu | | exists p; auto].
        intros Hf. rewrite <- Hf in Heq. cbn in Heq.
        assert (ControlPoints.col_eq (Some p) (Some p) = true)
          by (apply col_eq_eq; eauto). cbn in H. congruence.
      * intros (_ & Hu & _ & p' & [= <-] & Hle). auto.
    + split; [intros [_ [=]] | intros (_ & _ & _ & p & [=] & _)].
Qed.

Example to_process_without_link :
  ControlPoints.to_process overdue_row None = true
  ∧ ControlPoints.to_process overdue_row (Some "https://exonproject.ru/p/1") = false
  ∧ ControlPoints.works_url None = Raise AttributeError.
Proof. repeat split. Qed.

(** ** The rows matched against the ledger *)

Section MatchingOutcomes.

Variable lower : string → string.

(** X14. A row is left as it was exactly when its object has no entry in the
    cache or its name is empty or missing; with an entry in the cache, a
    name that is not a string and not empty stops the matching with
    [AttributeError]. *)
Theorem match_row_outcomes (cache : gmap key (gmap string ControlPoints.ledger_dates))
    object_id name :
  (ControlPoints.match_row lower cache object_id name = Ok ControlPoints.Untouched
   ↔ cache !! object_id = None ∨ truthy name = false)
  ∧ (ControlPoints.match_row lower cache object_id name = Raise AttributeError
     ↔ is_Some (cache !! object_id) ∧ truthy name = true ∧ ∀ s, name ≠ JStr s).
Proof.
  unfold ControlPoints.match_row.
  destruct (cache !! object_id) as [d|].
  - destruct (truthy name) eqn:Ht.
    + destruct name as [| | |s| |]; cbn [ControlPoints.lower_of mbind result_bind].
      all: split; split.
      all: try discriminate.
      all: try (intros [[=]|[=]]).
      all: try (intros _; split; [eauto | split; [reflexivity | discriminate]]).
      all: try reflexivity.
      * destruct (d !! lower s); discriminate.
      * destruct (d !! lower s); discriminate.
      * intros (_ & _ & H). now destruct (H s).
    + split; split.
      * auto.
      * reflexivity.
      * discriminate.
      * intros (_ & [=] & _).
  - split; split.
    + auto.
    + reflexivity.
    + discriminate.
    + intros ([? [=]] & _).
Qed.

End MatchingOutcomes.

Example match_row_numbered_point :
  ControlPoints.match_row ascii_lower (cache_of "foundation pour") (KNum 7) (JNum 3)
  = Raise AttributeError
  ∧ ControlPoints.match_row ascii_lower (cache_of "foundation pour") (KNum 7) JNull
    = Ok ControlPoints.Untouched
  ∧ ControlPoints.match_row ascii_lower (cache_of "foundation pour") (KNum 8) (JStr "x")
    = Ok ControlPoints.Untouched.
Proof. repeat split. Qed.

(** ** The address of the works of an object *)

Lemma split_nonempty c s : split c s ≠ [].
Proof.
  destruct s as [|a s]; cbn; [discriminate|].
  destruct (Ascii.eqb a c); [discriminate|]. destruct (split c s); discriminate.
Qed.

Lemma split_no_separator c u : has_char c u = false → split c u = [u].
Proof.
  induction u as [|a u IH]; cbn; [reflexivity|].
  intros H. apply orb_false_iff in H as [-> Hu]. now rewrite (IH Hu).
Qed.

Lemma split_append c p u :
  split c (p +:+ String c u) = (split c p ++ split c u)%list.
Proof.
  induction p as [|a p IH]; cbn.
  - now rewrite Ascii.eqb_refl.
  - destruct (Ascii.eqb a c); rewrite IH; [reflexivity|].
    pose proof (split_nonempty c p). destruct (split c p); [contradiction | reflexivity].
Qed.

Lemma rstrip_char_keeps c u :
  u ≠ "" → has_char c u = false → ControlPoints.rstrip_char c u = u.
Proof.
  induction u as [|a u IH]; [contradiction|]. intros _ H. cbn in H.
  apply orb_false_iff in H as [Ha Hu]. cbn [ControlPoints.rstrip_char].
  destruct u as [|b u]; [cbn; now rewrite Ha|].
  rewrite IH by (discriminate || exact Hu). reflexivity.
Qed.

Lemma rstrip_char_append c p u :
  u ≠ "" → has_char c u = false → ControlPoints.rstrip_char c (p +:+ u) = p +:+ u.
Proof.
  intros Hne Hu. induction p as [|a p IH]; cbn [String.append].
  - now apply rstrip_char_keeps.
  - cbn [ControlPoints.rstrip_char]. rewrite IH.
    destruct (p +:+ u) eqn:E; [|reflexivity].
    destruct p; cbn in E; [contradiction | discriminate].
Qed.

Lemma rstrip_char_slashes c s k :
  c = "/"%char → ControlPoints.rstrip_char c (s +:+ slashes k) = ControlPoints.rstrip_char c s.
Proof.
  intros ->. revert s. induction k as [|k IH]; intros s; cbn [slashes].
  - now rewrite append_nil_r.
  - change (String "/" (slashes k)) with ("/" +:+ slashes k).
    rewrite <- append_assoc, IH. clear.
    induction s as [|a s IHs]; [reflexivity|].
    cbn [String.append ControlPoints.rstrip_char]. now rewrite IHs.
Qed.

(** X15. The address [get_works] posts to is built from the last segment of the
    link, whatever comes before it and however many slashes end the link. *)
Theorem works_url_last_segment p u k :
  u ≠ "" → has_char "/" u = false →
  ControlPoints.works_url (Some (p +:+ "/" +:+ u +:+ slashes k))
  = Ok ("https://suid.mos.ru/api/isr-new-service/common/" +:+ u +:+ "/all").
Proof.
  intros Hne Hu. unfold ControlPoints.works_url, ControlPoints.uuid_of.
  do 2 f_equal.
  rewrite <- !append_assoc, rstrip_char_slashes by reflexivity.
  rewrite rstrip_char_append by assumption.
  rewrite append_assoc. change ("/" +:+ u) with (String "/" u).
  rewrite split_append, (split_no_separator _ _ Hu), List.last_last. reflexivity.
Qed.

Lemma works_url_last_segment_witness :
  ControlPoints.works_url (Some "https://suid.mos.ru/ksg/4f2a//")
  = Ok "https://suid.mos.ru/api/isr-new-service/common/4f2a/all".
Proof.
  apply (works_url_last_segment "https://suid.mos.ru/ksg" "4f2a" 2);
    [discriminate | reflexivity].
Defined.

(** A link made of slashes only names no work list: the address is built
    around an empty segment. *)
Example works_url_of_slashes :
  ControlPoints.works_url (Some "//")
  = Ok "https://suid.mos.ru/api/isr-new-service/common//all".
Proof. reflexivity. Qed.

(** ** The additional control points *)

Section AdditionalProperties.

Variable now : date.
Variables object_id object_name suid_url project_manager developer : json.
Variable works_dict : gmap string ControlPoints.work.

Lemma additional_checks_bound cps w data :
  ∃ rows work',
    ControlPoints.additional_checks now object_id object_name suid_url project_manager
      developer works_dict cps (Some w) data = Ok (rows, work').
Proof.
  revert w data. induction cps as [|cp cps IH]; intros w data;
    cbn [ControlPoints.additional_checks].
  - eexists _, _. reflexivity.
  - destruct (works_dict !! cp) as [w'|]; apply IH.
Qed.

(** X16. With [work] not bound yet, the loop over the additional points raises
    [NameError] exactly when the first point is not a work of the ledger;
    otherwise it ends. *)
Theorem additional_checks_unbound_work cps data :
  (ControlPoints.additional_checks now object_id object_name suid_url project_manager
     developer works_dict cps None data
   = Raise (Exception "name 'work' is not defined")
   ↔ ∃ cp rest, cps = cp :: rest ∧ works_dict !! cp = None)
  ∧ ((∃ rows work',
        ControlPoints.additional_checks now object_id object_name suid_url
          project_manager developer works_dict cps None data = Ok (rows, work'))
     ↔ ∀ cp rest, cps = cp :: rest → is_Some (works_dict !! cp)).
Proof.
  destruct cps as [|cp cps]; cbn [ControlPoints.additional_checks mret result_ret].
  - split; split.
    + discriminate.
    + intros (cp & rest & [=] & _).
    + intros _ cp rest [=].
    + intros _. eexists _, _. reflexivity.
  - destruct (works_dict !! cp) as [w|] eqn:Hcp.
    + destruct (additional_checks_bound cps w
                  (data ++ [ControlPoints.additional_row now object_id object_name
                              suid_url project_manager developer cp true
                              (ControlPoints.work_start_date w)
                              (ControlPoints.work_end_date w)
                              (ControlPoints.work_fact_end_date w)])%list)
        as (rows & work' & ->).
      split; split.
      * discriminate.
      * intros (cp' & rest & [= <- <-] & H). congruence.
      * intros _ cp' rest [= <- <-]. rewrite Hcp. eauto.
      * intros _. eauto.
    + split; split.
      * intros _. eauto.
      * reflexivity.
      * intros (rows & work' & [=]).
      * intros H. destruct (H cp cps eq_refl) as [w Hw]. congruence.
Qed.

(** X17. When the loop ends, [work] is bound to the work of the latest point
    found; one row was added for every point, in order, with the name of
    the point and whether it is a work of the ledger; and the date the row
    gives as finished in the ledger is the one of the work bound at that
    time: for a point that was not found, the date of another work. *)
Theorem additional_rows_carry_the_work_in_scope cps work data rows work' :
  ControlPoints.additional_checks now object_id object_name suid_url project_manager
    developer works_dict cps work data = Ok (rows, work') →
  work' = work_in_scope works_dict work cps
  ∧ ∃ added,
      rows = (data ++ added)%list ∧ length added = length cps
      ∧ ∀ (i : nat) cp r,
          cps !! i = Some cp → added !! i = Some r →
          assoc_cell "name" r = Some (ControlPoints.Val (JStr cp))
          ∧ assoc_cell "found_in_suid" r
            = Some (ControlPoints.Val (JBool (bool_decide (is_Some (works_dict !! cp)))))
          ∧ ∃ w, work_in_scope works_dict work (take (S i) cps) = Some w
                 ∧ assoc_cell "fact_end_date_suid" r
                   = Some (ControlPoints.Val (ControlPoints.work_fact_end_date w)).
Proof.
  revert work data. induction cps as [|cp cps IH]; intros work data;
    cbn [ControlPoints.additional_checks mret result_ret].
  - intros [= <- <-]. split; [reflexivity|]. exists []. rewrite app_nil_r.
    split; [reflexivity|]. split; [reflexivity|]. intros i cp r [=].
  - destruct (works_dict !! cp) as [w|] eqn:Hcp; [|destruct work as [w|]; [|discriminate]];
      intros H; apply IH in H as (-> & added & -> & Hlen & Hrows);
      (split; [unfold work_in_scope; cbn [foldl]; now rewrite Hcp|]);
      eexists (_ :: added); rewrite <- app_assoc;
      (split; [reflexivity|]); (split; [cbn; now rewrite Hlen|]);
      intros [|i] cp' r Hi Hr; cbn in Hi, Hr.
    + injection Hi as <-. injection Hr as <-. rewrite Hcp.
      repeat split. exists w. split; [|reflexivity].
      unfold work_in_scope. cbn. now rewrite Hcp.
    + destruct (Hrows i cp' r Hi Hr) as (Hn & Hf & w' & Hw' & Hd).
      repeat split; try assumption. exists w'. split; [|exact Hd].
      unfold work_in_scope in *. cbn [take foldl]. now rewrite Hcp.
    + injection Hi as <-. injection Hr as <-. rewrite Hcp.
      repeat split. exists w. split; [|reflexivity].
      unfold work_in_scope. cbn. now rewrite Hcp.
    + destruct (Hrows i cp' r Hi Hr) as (Hn & Hf & w' & Hw' & Hd).
      repeat split; try assumption. exists w'. split; [|exact Hd].
      unfold work_in_scope in *. cbn [take foldl]. now rewrite Hcp.
Qed.

End AdditionalProperties.

Lemma additional_rows_carry_the_work_in_scope_witness :
  ∃ rows work',
    roof_checks ["roof"; "walls"] None = Ok (rows, work')
    ∧ work' = work_in_scope roof_ledger None ["roof"; "walls"]
    ∧ ∃ added,
        rows = ([] ++ added)%list ∧ length added = 2%nat
        ∧ ∀ (i : nat) cp r,
            ["roof"; "walls"] !! i = Some cp → added !! i = Some r →
            assoc_cell "name" r = Some (ControlPoints.Val (JStr cp))
            ∧ assoc_cell "found_in_suid" r
              = Some (ControlPoints.Val (JBool (bool_decide (is_Some (roof_ledger !! cp)))))
            ∧ ∃ w, work_in_scope roof_ledger None (take (S i) ["roof"; "walls"]) = Some w
                   ∧ assoc_cell "fact_end_date_suid" r
                     = Some (ControlPoints.Val (ControlPoints.work_fact_end_date w)).
Proof.
  destruct (roof_checks ["roof"; "walls"] None) as [[rows work']|e] eqn:Hrun.
  - exists rows, work'. split; [reflexivity|].
    exact (additional_rows_carry_the_work_in_scope (Date 2024 2 1) (JNum 7) (JStr "School")
             (JStr "https://suid.mos.ru/ksg/4f2a") JNull JNull roof_ledger
             ["roof"; "walls"] None [] rows work' Hrun).
  - vm_compute in Hrun. discriminate Hrun.
Defined.

(** The point [walls] is not a work of the ledger; its row gives as
    finished in the ledger the date of the work [roof], found before it.
    Looked up first, it stops the script. *)
Example additional_point_borrows_a_date :
  (λ r, match r with
        | Ok (rows, _) =>
            Some (map (λ row, (assoc_cell "name" row, assoc_cell "found_in_suid" row,
                               assoc_cell "fact_end_date_suid" row)) rows)
        | Raise _ => None
        end) (roof_checks ["roof"; "walls"] None)
  = Some [(Some (ControlPoints.Val (JStr "roof")), Some (ControlPoints.Val (JBool true)),
           Some (ControlPoints.Val (JStr "2024-03-01")));
          (Some (ControlPoints.Val (JStr "walls")), Some (ControlPoints.Val (JBool false)),
           Some (ControlPoints.Val (JStr "2024-03-01")))]
  ∧ roof_checks ["walls"; "roof"] None = Raise (Exception "name 'work' is not defined").
Proof. split; vm_compute; reflexivity. Qed.

(** The ledger of the example is the dict the script builds from a listing
    of one work. *)
Example roof_ledger_of_a_listing :
  ControlPoints.works_by_name ascii_lower [work_finished "roof" "2024-03-01"] ∅
  = Ok roof_ledger.
Proof. vm_compute. reflexivity. Qed.

(** ** Gathering the control points *)

Section Collect.

Variable server : upstream.
Variable now : date.

(** The two getters of the dashboard return only after an exchange that
    was answered. *)
Lemma control_points_get_dashboard_data_run object_id w v w1 :
  ControlPoints.get_dashboard_data server object_id w = (Ok v, w1) →
  w1 = after server (dashboard_request object_id w) w.
Proof.
  unfold ControlPoints.get_dashboard_data. rewrite bind_run, get_send.
  fold (get_request ("/api/dashboard/" +:+ py_str object_id) w).
  fold (dashboard_request object_id w).
  destruct (send_cases server (dashboard_request object_id w) w)
    as [[_ ->] | (e & _ & ->)]; [|discriminate].
  destruct (status_code _ =? 200); [|now intros [= _ <-]].
  unfold try_except. rewrite bind_run. unfold response_json.
  destruct (json_body _) as [data|]; [|now intros [= _ <-]].
  cbv beta iota delta [mret M_ret]. rewrite bind_run. unfold lift at 1.
  destruct (dict_get data "object" (JObj [])) as [obj|]; [|now intros [= _ <-]].
  cbv beta iota. unfold lift.
  destruct (dict_get obj "suid_ksg_url" JNull); now intros [= _ <-].
Qed.

Lemma get_manager_name_returns object_id w v w1 :
  ControlPoints.get_manager_name server object_id w = (Ok v, w1) →
  w1 = after server (dashboard_request object_id w) w.
Proof.
  unfold ControlPoints.get_manager_name. rewrite bind_run, get_send.
  fold (get_request ("/api/dashboard/" +:+ py_str object_id) w).
  fold (dashboard_request object_id w).
  destruct (send_cases server (dashboard_request object_id w) w)
    as [[_ ->] | (e & _ & ->)]; [|discriminate].
  destruct (status_code _ =? 200); [|now intros [= _ <-]].
  unfold try_except. rewrite bind_run. unfold response_json.
  destruct (json_body _) as [d|]; [|now intros [= _ <-]].
  cbv beta iota delta [mret M_ret]. rewrite bind_run. unfold lift.
  destruct (dict_get d "object" (JObj [])) as [obj|]; [|now intros [= _ <-]].
  cbv beta iota. rewrite bind_run.
  destruct (dict_get obj "project_manager" (JObj [])) as [pm|]; [|now intros [= _ <-]].
  cbv beta iota.
  destruct (dict_get pm "name" (JStr "Нет данных")); now intros [= _ <-].
Qed.

Lemma point_rows_carry object_id object_name developer_name manager directive_date
    suid_url status points rows :
  ControlPoints.point_rows
    (ControlPoints.point_row now object_id object_name developer_name manager
       directive_date suid_url status) points = Ok rows →
  Forall (row_carries now object_id manager status suid_url) rows
  ∧ length rows = length points.
Proof.
  revert rows. induction points as [|point points IH]; intros rows;
    cbn [ControlPoints.point_rows].
  - intros [= <-]. split; [constructor | reflexivity].
  - destruct point as [| | | | |kvs]; try discriminate.
    cbn [ControlPoints.point_row mbind result_bind].
    destruct (ControlPoints.point_rows _ points) as [rs|]; [|discriminate].
    cbn [mbind result_bind mret result_ret]. intros [= <-].
    destruct (IH rs eq_refl) as [Hrs Hlen].
    split; [|cbn; now rewrite Hlen].
    constructor; [repeat split | exact Hrs].
Qed.

(** X18. When a turn of the loop over the objects ends, the cache of manager
    names has only grown and holds the manager of the object, the rows
    gathered before are kept, and no more than five requests were sent.
    The rows added all carry the [id] of the object, its cached manager and
    the date of the day; they are none at all, or the single row of an
    object without control points, which has no link to the ledger, or
    the rows of its points in progress followed by those of its complete
    points, with one link; and rows are only added before a pause of 0.7
    second. *)
Theorem collect_object_rows developer_map directive_date_map obj cash all_data
    w cash' rows w' :
  ControlPoints.collect_object server now developer_map directive_date_map obj cash
    all_data w = (Ok (cash', rows), w') →
  ∃ object_id k manager added,
    dict_item obj "id" = Ok object_id ∧ hash_key object_id = Ok k
    ∧ cash ⊆ cash' ∧ cash' !! k = Some manager
    ∧ rows = (all_data ++ added)%list
    ∧ (length (sent w') ≤ length (sent w) + 5)%nat
    ∧ (added = []
       ∨ (∃ rest, slept w' = 700 :: rest)
         ∧ ((∃ r, added = [r]
                  ∧ row_carries now object_id manager "no_control_points" JNull r)
            ∨ ∃ suid_url rows1 rows2,
                added = (rows1 ++ rows2)%list
                ∧ Forall (row_carries now object_id manager "in_progress" suid_url) rows1
                ∧ Forall (row_carries now object_id manager "complete" suid_url) rows2)).
Proof.
  unfold ControlPoints.collect_object. intros H.
  apply bind_inv in H as (object_id & w0 & Hid & H). apply lift_inv in Hid as [Hid ->].
  apply bind_inv in H as (k & w0 & Hk & H). apply lift_inv in Hk as [Hk ->].
  apply bind_inv in H as (cash1 & w1 & Hcash & H).
  assert (Hc : cash ⊆ cash1 ∧ is_Some (cash1 !! k)
               ∧ (length (sent w1) ≤ length (sent w) + 1)%nat ∧ slept w1 = slept w).
  { destruct (cash !! k) as [m|] eqn:Hm.
    - injection Hcash as <- <-. repeat split; [reflexivity | now exists m | lia].
    - apply bind_inv in Hcash as (m & w2 & Hm' & Hcash).
      apply get_manager_name_returns in Hm' as ->. injection Hcash as <- <-.
      repeat split; [now apply insert_subseteq | | cbn; lia].
      rewrite lookup_insert_eq. now exists m. }
  destruct Hc as (Hsub & [manager Hmanager] & Hsent1 & Hslept1).
  apply bind_inv in H as (object_name & w0 & Hname & H).
  apply lift_inv in Hname as [Hname ->]. cbv zeta in H.
  apply bind_inv in H as (etapi & w2 & Hretry & H).
  pose proof (retry_etapi_sent server (ControlPoints.range ControlPoints.max_retries)
                object_id JNull w1) as Hsent2.
  rewrite Hretry in Hsent2. cbn [snd] in Hsent2.
  change (length (ControlPoints.range ControlPoints.max_retries)) with 3%nat in Hsent2.
  exists object_id, k, manager.
  destruct (negb (truthy etapi)).
  { injection H as <- <- <-. exists []. rewrite app_nil_r.
    repeat split; try assumption; [lia | now left]. }
  apply bind_inv in H as (control_points & w0 & E & H). apply lift_inv in E as [_ ->].
  apply bind_inv in H as (in_progress & w0 & E & H). apply lift_inv in E as [_ ->].
  apply bind_inv in H as (in_progress_data & w0 & E & H). apply lift_inv in E as [_ ->].
  apply bind_inv in H as (complete & w0 & E & H). apply lift_inv in E as [_ ->].
  apply bind_inv in H as (complete_data & w0 & E & H). apply lift_inv in E as [_ ->].
  apply bind_inv in H as (manager' & w0 & E & H). apply lift_inv in E as [E ->].
  rewrite Hmanager in E. injection E as <-.
  destruct (negb (truthy in_progress_data) && negb (truthy complete_data)).
  - injection H as <- <- <-. eexists. repeat split; try eassumption; [cbn; lia|].
    right. split; [cbn; eauto|]. left. eexists. split; [reflexivity|]. repeat split.
  - apply bind_inv in H as (suid_url & w3 & Hurl & H).
    apply control_points_get_dashboard_data_run in Hurl as ->.
    apply bind_inv in H as (points1 & w0 & E & H). apply lift_inv in E as [_ ->].
    apply bind_inv in H as (rows1 & w0 & Hrows1 & H). apply lift_inv in Hrows1 as [Hrows1 ->].
    apply bind_inv in H as (points2 & w0 & E & H). apply lift_inv in E as [_ ->].
    apply bind_inv in H as (rows2 & w0 & Hrows2 & H). apply lift_inv in Hrows2 as [Hrows2 ->].
    injection H as <- <- <-.
    apply point_rows_carry in Hrows1 as [Hrows1 _].
    apply point_rows_carry in Hrows2 as [Hrows2 _].
    exists (rows1 ++ rows2)%list. repeat split; try eassumption; [cbn; lia|].
    right. split; [cbn; eauto|]. right. exists suid_url, rows1, rows2. auto.
Qed.

Lemma build_map_needs_ids value objects m obj e0 :
  In obj objects → dict_item obj "id" = Raise e0 →
  ∃ e, ControlPoints.build_map value objects m = Raise e.
Proof.
  intros Hin Hid. revert m. induction objects as [|o objects IH]; intros m; [destruct Hin|].
  cbn [ControlPoints.build_map].
  destruct (dict_item o "id") as [i|e] eqn:Ho; [|eexists; reflexivity].
  cbn [mbind result_bind].
  destruct (value o) as [v|e]; [|eexists; reflexivity]. cbn [mbind result_bind].
  destruct (hash_key i) as [k|e]; [|eexists; reflexivity]. cbn [mbind result_bind].
  destruct Hin as [-> | Hin]; [congruence | now apply IH].
Qed.

(** X19. When an object of the catalog has no [id], or is not a dict, the report
    is given up before any request is sent for it. *)
Theorem collect_etapi_data_needs_ids objects obj e0 w :
  In obj objects → dict_item obj "id" = Raise e0 →
  ∃ e, ControlPoints.collect_etapi_data server now (JArr objects) w = (Raise e, w).
Proof.
  intros Hin Hid. unfold ControlPoints.collect_etapi_data.
  cbn [iter]. rewrite lift_bind_run, bind_run. unfold lift at 1.
  destruct (build_map_needs_ids ControlPoints.developer_of objects ∅ obj e0 Hin Hid)
    as [e ->].
  exists e. reflexivity.
Qed.

End Collect.

Lemma collect_object_rows_witness :
  ∃ cash' rows w',
    ControlPoints.collect_object server_flaky (Date 2024 2 1) ∅ ∅ object_7 ∅ [] init
    = (Ok (cash', rows), w')
    ∧ ∃ object_id k manager added,
        dict_item object_7 "id" = Ok object_id ∧ hash_key object_id = Ok k
        ∧ (∅ : gmap key json) ⊆ cash' ∧ cash' !! k = Some manager
        ∧ rows = ([] ++ added)%list
        ∧ (length (sent w') ≤ length (sent init) + 5)%nat
        ∧ (added = []
           ∨ (∃ rest, slept w' = 700 :: rest)
             ∧ ((∃ r, added = [r]
                      ∧ row_carries (Date 2024 2 1) object_id manager
                          "no_control_points" JNull r)
                ∨ ∃ suid_url rows1 rows2,
                    added = (rows1 ++ rows2)%list
                    ∧ Forall (row_carries (Date 2024 2 1) object_id manager
                                "in_progress" suid_url) rows1
                    ∧ Forall (row_carries (Date 2024 2 1) object_id manager
                                "complete" suid_url) rows2)).
Proof.
  destruct (ControlPoints.collect_object server_flaky (Date 2024 2 1) ∅ ∅ object_7 ∅ []
              init) as [[[cash' rows]|e] w'] eqn:Hrun.
  - exists cash', rows, w'. split; [reflexivity|].
    exact (collect_object_rows server_flaky (Date 2024 2 1) ∅ ∅ object_7 ∅ [] init
             cash' rows w' Hrun).
  - vm_compute in Hrun. discriminate Hrun.
Defined.

Lemma collect_etapi_data_needs_ids_witness :
  ∃ e, ControlPoints.collect_etapi_data server_flaky (Date 2024 2 1)
         (JArr [object_7; JObj [("name", JStr "Clinic")]]) init = (Raise e, init).
Proof.
  apply (collect_etapi_data_needs_ids server_flaky (Date 2024 2 1)
           [object_7; JObj [("name", JStr "Clinic")]] (JObj [("name", JStr "Clinic")])
           KeyError init).
  - right. left. reflexivity.
  - reflexivity.
Defined.

(** ** The session client *)

Section Session.

Variable server : upstream.
Variables login password : string.


Lemma urlparse_of_a_path rest :
  urlparse (base_url +:+ String "/" rest)
  = let '(url3, frag) := partition "#" (String "/" rest) in
    let '(pth, qry) := partition "?" url3 in
    {| scheme := "https"; netloc := domain; path := pth;
       query := default "" qry; fragment := default "" frag |}.
Proof. reflexivity. Qed.

(** X21. A path that starts with a slash is sent to the application, whatever
    follows the slash: the host of its URL is written
    [dashboard-stroi.mos.ru], and is that name. *)
Theorem resolve_stays_on_the_application path :
  startswith path "/" = true →
  host_as_written (resolve path) = domain
  ∧ ∀ lower, lower domain = domain → url_host lower (resolve path) = domain.
Proof.
  unfold resolve. intros H. rewrite H.
  destruct path as [|c rest]; [discriminate|].
  unfold startswith in H. cbn [String.prefix] in H.
  destruct (Ascii.ascii_dec "/" c) as [<- | ?]; [clear H | discriminate H].
  assert (Hw : host_as_written (base_url +:+ String "/" rest) = domain).
  { unfold host_as_written. rewrite urlparse_of_a_path.
    destruct (partition "#" (String "/" rest)) as [u3 frag].
    destruct (partition "?" u3) as [pth qry]. reflexivity. }
  split; [exact Hw|]. intros lower Hl. unfold url_host. rewrite Hw.
  change (partition "%" domain) with (domain, @None string). exact Hl.
Qed.

End Session.

(** Without a connection the sign-in stops at its first request. *)
Example authorize_offline :
  authorize server_offline "user" "secret" init
  = (Raise ConnectionError, attempted sudir_request init).
Proof. vm_compute. reflexivity. Qed.

Lemma resolve_stays_on_the_application_witness :
  host_as_written (resolve "//example.org/@x") = domain
  ∧ ∀ lower, lower domain = domain → url_host lower (resolve "//example.org/@x") = domain.
Proof. apply (resolve_stays_on_the_application "//example.org/@x"). reflexivity. Defined.

(** ** The photo check *)

Section PhotoFailures.

Variable server : upstream.
Variable md5 : string → string.
Variable yesterday_str : string.

(** X22. When its request is answered: a dashboard that is refused gives
    "нет фотографий" and no flag. A dashboard that is served with a body
    that is not JSON, or with a document that is not an object, is not
    caught by the handler of [get_photo_status]: the handler reads
    [yesterday] before it was assigned, and the call raises
    [UnboundLocalError]. Either way one request was sent. *)
Theorem get_photo_status_failures object_id w :
  answered server (dashboard_request object_id w) w →
  let w1 := after server (dashboard_request object_id w) w in
  (status_code (dashboard_reply server object_id w) ≠ 200 →
   CheckPhotos.get_photo_status server md5 yesterday_str object_id w
   = (Ok (CheckPhotos.no_photos, false), w1))
  ∧ (status_code (dashboard_reply server object_id w) = 200 →
     (∀ kvs, json_body (dashboard_reply server object_id w) ≠ Some (JObj kvs)) →
     CheckPhotos.get_photo_status server md5 yesterday_str object_id w
     = (Raise UnboundLocalError, w1)).
Proof.
  intros Ha w1. rewrite (get_photo_status_run _ _ _ _ _ Ha). fold w1. cbv zeta. split.
  - intros Hs. apply Z.eqb_neq in Hs. now rewrite Hs.
  - intros Hs Hb. rewrite Hs. change (negb (200 =? 200)) with false. cbv iota.
    unfold CheckPhotos.read_photos, response_json.
    destruct (json_body (dashboard_reply server object_id w)) as [data|];
      [|reflexivity].
    rewrite mret_bind_run.
    destruct data as [| | | | |kvs]; try reflexivity. now destruct (Hb kvs).
Qed.

Section Down.

(** The requests from the [n0]-th on are refused. *)
Variable n0 : nat.
Hypothesis down : ∀ n rq, (n0 ≤ n)%nat → status_code (server n rq) ≠ 200.

Lemma get_photo_hash_down photo_url base uin d w :
  (n0 ≤ length (sent w))%nat →
  ∃ w', CheckPhotos.get_photo_hash server md5 photo_url base uin d w = (Ok None, w')
        ∧ (n0 ≤ length (sent w'))%nat.
Proof.
  intros Hw. unfold CheckPhotos.get_photo_hash.
  destruct (_ || _); [exists w; auto|].
  unfold try_except. rewrite bind_run.
  set (rq := {| req_method := "GET";
                req_url := py_str base +:+ py_str uin +:+ "/" +:+ d +:+ "/"
                           +:+ py_str photo_url;
                req_headers := ∅; req_params := []; req_data := [] |}).
  destruct (send_cases server rq w) as [[_ ->] | (e & _ & ->)].
  - unfold reply_to.
    destruct (Z.eqb_spec (status_code (server (length (sent w)) rq)) 200)
      as [E|_]; [now apply down in E|].
    eexists. split; [reflexivity|]. cbn. lia.
  - eexists. split; [reflexivity|]. cbn. lia.
Qed.

Lemma hashes_of_down base uin d photos (acc : gset string) w :
  Forall (λ p, is_dict p = true) photos → (n0 ≤ length (sent w))%nat →
  ∃ w', CheckPhotos.hashes_of server md5 base uin d photos acc w = (Ok acc, w')
        ∧ (n0 ≤ length (sent w'))%nat.
Proof.
  intros Hall. revert w. induction Hall as [|photo photos Hp _ IH]; intros w Hw.
  - exists w. auto.
  - destruct photo as [| | | | |kvs]; try discriminate.
    cbn [CheckPhotos.hashes_of]. rewrite bind_run. unfold lift at 1. cbn [dict_get].
    cbv beta iota. rewrite bind_run.
    destruct (get_photo_hash_down (default JNull (assoc "photo_url" kvs)) base uin d w Hw)
      as (w1 & -> & Hw1).
    cbv beta iota. now apply IH.
Qed.

Lemma find_duplicate_down base uin d photos (hashes : gset string) w :
  Forall (λ p, is_dict p = true) photos → (n0 ≤ length (sent w))%nat →
  ∃ w', CheckPhotos.find_duplicate server md5 base uin d photos hashes w = (Ok false, w').
Proof.
  intros Hall. revert w. induction Hall as [|photo photos Hp _ IH]; intros w Hw.
  - exists w. reflexivity.
  - destruct photo as [| | | | |kvs]; try discriminate.
    cbn [CheckPhotos.find_duplicate]. rewrite bind_run. unfold lift at 1. cbn [dict_get].
    cbv beta iota. rewrite bind_run.
    destruct (get_photo_hash_down (default JNull (assoc "photo_url" kvs)) base uin d w Hw)
      as (w1 & -> & Hw1).
    cbv beta iota. now apply IH.
Qed.

End Down.

(** X23. When the dashboard is served and the photos cannot be fetched, none
    of them is compared: with two dates or more the status is "фото в
    порядке". *)
Theorem unreachable_photos_pass_as_fresh object_id w kvs photos uin dates :
  answered server (dashboard_request object_id w) w →
  status_code (dashboard_reply server object_id w) = 200 →
  json_body (dashboard_reply server object_id w) = Some (JObj kvs) →
  default (JArr []) (assoc "photos" kvs) = JArr photos →
  dict_get (default (JObj []) (assoc "object" kvs)) "uin" (JStr "") = Ok uin →
  forallb well_timed photos = true →
  CheckPhotos.photo_dates photos ∅ = Ok dates →
  (2 ≤ size dates)%nat →
  (∀ n rq, (length (sent w) < n)%nat → status_code (server n rq) ≠ 200) →
  fst (CheckPhotos.get_photo_status server md5 yesterday_str object_id w)
  = Ok (CheckPhotos.photos_ok,
        bool_decide (yesterday_str ∈ take 2 (CheckPhotos.sorted_desc (elements dates)))).
Proof.
  intros Ha Hs Hb Hp Hu Hwt Hd Hsize Hdown.
  rewrite (get_photo_status_run _ _ _ _ _ Ha). cbv zeta. rewrite Hs.
  change (negb (200 =? 200)) with false. cbv iota.
  rewrite (read_photos_run _ _ kvs photos uin dates _ Hb Hp Hu Hd).
  destruct photos as [|photo photos'] eqn:Ephotos.
  { cbn in Hd. injection Hd as <-. rewrite size_empty in Hsize. lia. }
  rewrite <- Ephotos in *. cbv zeta.
  pose proof (sorted_desc_length dates) as Hlen.
  destruct (CheckPhotos.sorted_desc (elements dates)) as [|d0 [|d1 rest]] eqn:El;
    [cbn in Hlen; lia | cbn in Hlen; lia |].
  pose proof (two_latest dates d0 d1 rest El) as Hlatest.
  assert (Hne : String.eqb d0 d1 = false) by (apply String.eqb_neq; apply Hlatest).
  destruct (photos_of_date_total d0 photos Hwt) as (newer & Hnewer & Hdn).
  destruct (photos_of_date_total d1 photos Hwt) as (older & Holder & Hdo).
  set (w1 := after server (dashboard_request object_id w) w).
  assert (Hd' : ∀ n rq, (length (sent w1) ≤ n)%nat → status_code (server n rq) ≠ 200)
    by (intros n rq Hn; apply Hdown; cbn in Hn; lia).
  destruct (hashes_of_down _ Hd' (default (JStr "") (assoc "basePhotoUrl" kvs)) uin d0
              newer ∅ w1 Hdn (le_n _)) as (w2 & Hh & Hw2).
  destruct (find_duplicate_down _ Hd' (default (JStr "") (assoc "basePhotoUrl" kvs)) uin d1
              older ∅ w2 Hdo Hw2) as (w3 & Hf).
  cbn [take]. unfold try_except, CheckPhotos.compare_photos.
  rewrite Hne. cbn [negb]. rewrite Hnewer, lift_bind_run, Holder, lift_bind_run.
  rewrite bind_run, Hh. cbv beta iota. rewrite bind_run, Hf. reflexivity.
Qed.

End PhotoFailures.

Lemma get_photo_status_failures_witness :
  CheckPhotos.get_photo_status server_down digest "2024-05-02" (JNum 7) init
  = (Ok (CheckPhotos.no_photos, false),
     after server_down (get_request "/api/dashboard/7" init) init)
  ∧ CheckPhotos.get_photo_status server_html digest "2024-05-02" (JNum 7) init
    = (Raise UnboundLocalError,
       after server_html (get_request "/api/dashboard/7" init) init).
Proof.
  split.
  - apply (get_photo_status_failures server_down digest "2024-05-02" (JNum 7) init);
      [reflexivity | discriminate].
  - apply (get_photo_status_failures server_html digest "2024-05-02" (JNum 7) init).
    + reflexivity.
    + reflexivity.
    + intros kvs. discriminate.
Defined.

Lemma unreachable_photos_pass_as_fresh_witness :
  fst (CheckPhotos.get_photo_status (server_photos_once fresh_photos) digest
         "2024-05-02" (JNum 7) init)
  = Ok (CheckPhotos.photos_ok,
        bool_decide ("2024-05-02" ∈ take 2 (CheckPhotos.sorted_desc (elements two_dates)))).
Proof.
  apply (unreachable_photos_pass_as_fresh (server_photos_once fresh_photos) digest
           "2024-05-02" (JNum 7) init (photo_document fresh_photos) fresh_photos
           (JStr "U7") two_dates); try reflexivity.
  intros [|n] rq Hn; [cbn in Hn; lia | discriminate].
Defined.
